(** * MCP Windows Desktop Automation: a shallow embedding of the server

    The development follows the layout of the TypeScript sources:
    - [Js]         the fragment of the JavaScript runtime the sources rely on
                   (thrown values, template literals, a state-and-exception
                   monad for [async] bodies with [try]/[catch]);
    - [Logger]     [src/utils/logger/logger.ts];
    - [Types]      [src/utils/types.ts] (response envelopes);
    - [AutoIt]     the interface of the external automation library;
    - [Tools]      [src/tools/*.ts] (the operation registry);
    - [Resources]  [src/resources/index.ts];
    - [Server]     [src/server/server.ts] (socket transport and selector);
    - [Index]      [src/index.ts] (command line and start-up);
    - [Prompts]    [src/prompts/index.ts];
    - [Zod], [Schemas]  the parameter schemas of [src/utils/types.ts].

    Numbers are JavaScript doubles in the sources; they are modelled by [Z],
    which covers every value the automation library returns (result codes,
    handles, process ids, coordinates). *)

From Stdlib Require Import DecimalString DecimalZ DecimalPos.
From stdpp Require Import base strings gmap list.

Open Scope string_scope.
Open Scope Z_scope.

(* ================================================================== *)
(** * The JavaScript fragment *)
(* ================================================================== *)

Module Js.

(** An [Error] object: only [name] and [message] are observed. *)
Record Error := mkError { name : string; message : string }.

(** [new Error(message)] *)
Definition new_Error (msg : string) : Error := mkError "Error" msg.

(** Anything a [throw] can carry.  A value that is not an [Error] is only
    ever observed through [String(value)], which is what is kept. *)
Inductive Thrown :=
| ThrownError (e : Error)
| ThrownValue (string_form : string).

(** [Error.prototype.toString] *)
Definition Error_toString (e : Error) : string :=
  if decide (name e = "") then message e
  else if decide (message e = "") then name e
  else name e +:+ ": " +:+ message e.

(** [String(error)] / [`${error}`] on a caught value *)
Definition String_of (t : Thrown) : string :=
  match t with
  | ThrownError e => Error_toString e
  | ThrownValue s => s
  end.

(** [error instanceof Error ? error.message : String(error)] *)
Definition message_or_string (error : Thrown) : string :=
  match error with
  | ThrownError e => message e
  | ThrownValue s => String_of (ThrownValue s)
  end.

(** A template literal keeps its parts apart: the text the programmer
    wrote ([Lit]) and the substituted run-time values ([Val], already
    converted to strings).  [tpl] is the string the engine produces. *)
Inductive Part :=
| Lit (s : string)
| Val (s : string).

Definition Template := list Part.

Definition part_string (p : Part) : string :=
  match p with Lit s => s | Val s => s end.

Fixpoint tpl (t : Template) : string :=
  match t with
  | [] => ""
  | [p] => part_string p
  | p :: t' => part_string p +:+ tpl t'
  end.


(** The double-quote character, for the quoted names in the messages. *)
Definition dq : string := String (Ascii.ascii_of_nat 34) EmptyString.

(** [`${n}`] for a number *)
Definition num (n : Z) : string := NilZero.string_of_int (Z.to_int n).

(** Truthiness of an optional number ([undefined], [0] are falsy). *)
Definition truthy_num (n : option Z) : bool :=
  match n with
  | Some v => negb (v =? 0)
  | None => false
  end.

(** Truthiness of a string (only [''] is falsy). *)
Definition truthy_str (s : string) : bool :=
  if decide (s = "") then false else true.

(** Outcome of running a piece of code: it returns, it throws, or the
    process is terminated by [process.exit(code)]. *)
Inductive outcome (A : Type) :=
| Return (a : A)
| Throw (e : Thrown)
| Exit (code : Z).
Arguments Return {A} a.
Arguments Throw {A} e.
Arguments Exit {A} code.

(** Code over a mutable state [S].  State changes made before a [throw]
    stay, as in JavaScript. *)
Definition M (S A : Type) : Type := S -> outcome A * S.

Definition ret {S A} (a : A) : M S A := fun s => (Return a, s).

Definition bind {S A B} (c : M S A) (k : A -> M S B) : M S B :=
  fun s =>
    match c s with
    | (Return a, s') => k a s'
    | (Throw e, s') => (Throw e, s')
    | (Exit n, s') => (Exit n, s')
    end.

Definition throw {S A} (e : Thrown) : M S A := fun s => (Throw e, s).

Definition process_exit {S A} (code : Z) : M S A := fun s => (Exit code, s).

(** [try { body } catch (error) { handler error }] *)
Definition try_catch {S A} (body : M S A) (handler : Thrown -> M S A) : M S A :=
  fun s =>
    match body s with
    | (Throw e, s') => handler e s'
    | r => r
    end.

Definition get {S} : M S S := fun s => (Return s, s).
Definition modify {S} (f : S -> S) : M S unit := fun s => (Return tt, f s).

(** An external call whose result is a value or a thrown fault. *)
Definition lift {S A} (r : Thrown + A) : M S A :=
  match r with
  | inl e => throw e
  | inr a => ret a
  end.

End Js.

Export Js.

Declare Scope js_scope.
Delimit Scope js_scope with js.
Notation "'let*' x ':=' c 'in' k" := (bind c (fun x => k))
  (at level 10, x name, c at level 100, k at level 200) : js_scope.
Notation "c '>>' k" := (bind c (fun _ => k))
  (at level 100, k at level 200, right associativity) : js_scope.
Open Scope js_scope.

(* ================================================================== *)
(** * src/utils/logger/logger.ts *)
(* ================================================================== *)

Module Logger.

(** [enum LogLevel] *)
Definition VERBOSE : Z := 0.
Definition DEBUG : Z := 1.
Definition INFO : Z := 2.
Definition WARN : Z := 3.
Definition ERROR : Z := 4.

(** The console stream a line is written to. *)
Inductive Stream := ConsoleLog | ConsoleWarn | ConsoleError.

(** The [Logger] singleton together with what it has written.  Only the
    first argument of each [console] call is kept; the optional [data]
    payload is not modelled. *)
Record t := mk { level : Z; console : list (Stream * string) }.

(** [private level: LogLevel = LogLevel.INFO] *)
Definition initial : t := mk INFO [].

Definition write (st : Stream) (line : string) (l : t) : t :=
  mk (level l) (console l ++ [(st, line)]).

Definition setLevel (lv : Z) (l : t) : t := mk lv (console l).

Definition verbose (message : string) (l : t) : t :=
  if bool_decide (level l <= VERBOSE)
  then write ConsoleLog (tpl [Lit "[VERBOSE] "; Val message]) l else l.

Definition debug (message : string) (l : t) : t :=
  if bool_decide (level l <= DEBUG)
  then write ConsoleLog (tpl [Lit "[DEBUG] "; Val message]) l else l.

Definition info (message : string) (l : t) : t :=
  if bool_decide (level l <= INFO)
  then write ConsoleLog (tpl [Lit "[INFO] "; Val message]) l else l.

Definition warn (message : string) (l : t) : t :=
  if bool_decide (level l <= WARN)
  then write ConsoleWarn (tpl [Lit "[WARN] "; Val message]) l else l.

Definition error (message : string) (l : t) : t :=
  if bool_decide (level l <= ERROR)
  then write ConsoleError (tpl [Lit "[ERROR] "; Val message]) l else l.

End Logger.

(** Every module imports the one [log] object; a state that carries it
    gives access to it. *)
Class HasLog (S : Type) := {
  the_log : S -> Logger.t;
  with_log : Logger.t -> S -> S
}.

Definition log_verbose {S} `{HasLog S} (message : string) : M S unit :=
  modify (fun s => with_log (Logger.verbose message (the_log s)) s).
Definition log_info {S} `{HasLog S} (message : string) : M S unit :=
  modify (fun s => with_log (Logger.info message (the_log s)) s).
Definition log_error {S} `{HasLog S} (message : string) : M S unit :=
  modify (fun s => with_log (Logger.error message (the_log s)) s).

(* ================================================================== *)
(** * src/utils/types.ts *)
(* ================================================================== *)

(** [interface Rect] *)
Module Rect.
Record t := mk { left : Z; top : Z; right : Z; bottom : Z }.
End Rect.

(** [interface Point] *)
Module Point.
Record t := mk { x : Z; y : Z }.
End Point.

Module Types.

(** [TextContent]; [text] keeps the template it was built from, the
    string on the wire is [tpl text]. *)
Record TextContent := mkText { type : string; text : Template }.

(** [CallToolResult]; [isError] is absent ([None]) unless set. *)
Record CallToolResult := mkResult {
  content : list TextContent;
  isError : option bool
}.

(** [createToolResponse(message)] *)
Definition createToolResponse (message : Template) : CallToolResult :=
  mkResult [mkText "text" message] None.

(** The argument of [createErrorResponse]: [Error | string]. *)
Definition ErrorOrString : Type := Error + string.

(** [createErrorResponse(error)] *)
Definition createErrorResponse (error : ErrorOrString) : CallToolResult :=
  let errorMessage :=
    match error with
    | inr s => s
    | inl e => message e
    end in
  mkResult [mkText "text" [Lit "Error: "; Val errorMessage]] (Some true).

(** [error instanceof Error ? error : String(error)] *)
Definition error_or_string (error : Thrown) : ErrorOrString :=
  match error with
  | ThrownError e => inl e
  | ThrownValue s => inr (String_of (ThrownValue s))
  end.

(** The wire text of an envelope: the texts of its content items. *)
Definition texts (r : CallToolResult) : list string :=
  map (fun c => tpl (text c)) (content r).

(** [schemas.mouseButton]: [z.enum(['left', 'right', 'middle'])] *)
Inductive MouseButton := ButtonLeft | ButtonRight | ButtonMiddle.

Definition MouseButton_string (b : MouseButton) : string :=
  match b with
  | ButtonLeft => "left"
  | ButtonRight => "right"
  | ButtonMiddle => "middle"
  end.

(** [z.enum(['up', 'down'])] *)
Inductive WheelDirection := WheelUp | WheelDown.

Definition WheelDirection_string (d : WheelDirection) : string :=
  match d with
  | WheelUp => "up"
  | WheelDown => "down"
  end.

End Types.

Export Types.


(* ================================================================== *)
(** * node-autoit-koffi: the external automation library *)
(* ================================================================== *)

Module AutoIt.

(** What a library function gives back. *)
Inductive RTy := TVoid | TNum | TStr | TRect | TPoint.

Definition den (t : RTy) : Type :=
  match t with
  | TVoid => unit
  | TNum => Z
  | TStr => string
  | TRect => Rect.t
  | TPoint => Point.t
  end.

(** One call into the library, with the arguments the server passes.
    Optional arguments are [option]s ([None] is [undefined]). *)
Inductive Call : RTy -> Type :=
| init : Call TVoid
(* mouse *)
| mouseMove (x y speed : Z) : Call TNum
| mouseClick (button : MouseButton) (x y : option Z) (clicks speed : Z) : Call TNum
| mouseClickDrag (button : MouseButton) (x1 y1 x2 y2 speed : Z) : Call TNum
| mouseDown (button : MouseButton) : Call TVoid
| mouseUp (button : MouseButton) : Call TVoid
| mouseGetPos : Call TPoint
| mouseGetCursor : Call TNum
| mouseWheel (direction : WheelDirection) (clicks : Z) : Call TVoid
(* keyboard *)
| send (text : string) (mode : Z) : Call TVoid
| clipGet (bufSize : option Z) : Call TStr
| clipPut (text : string) : Call TVoid
| autoItSetOption (option : string) (value : Z) : Call TNum
| opt (option : string) (value : Z) : Call TNum
| toolTip (text : string) (x y : option Z) : Call TVoid
(* window *)
| winActivate (title : string) (text : option string) : Call TNum
| winActivateByHandle (handle : Z) : Call TNum
| winActive (title text : string) : Call TNum
| winClose (title : string) (text : option string) : Call TNum
| winExists (title : string) (text : option string) : Call TNum
| winGetHandle (title : string) (text : option string) : Call TNum
| winGetPos (title : string) (text : option string) : Call TRect
| winGetText (title : string) (text : option string) (bufSize : option Z) : Call TStr
| winGetTitle (title : string) (text : option string) (bufSize : option Z) : Call TStr
| winMove (title : string) (text : option string) (x y : Z) (width height : option Z) : Call TNum
| winSetState (title : string) (text : option string) (flags : Z) : Call TNum
| winWait (title : string) (text : option string) (timeout : option Z) : Call TNum
| winWaitActive (title : string) (text : option string) (timeout : option Z) : Call TNum
| winWaitClose (title : string) (text : option string) (timeout : option Z) : Call TNum
(* process *)
| run (program : string) (workingDir : option string) (showFlag : option Z) : Call TNum
| runWait (program : string) (workingDir : option string) (showFlag : option Z) : Call TNum
| runAs (user domain password : string) (logonFlag : Z) (program : string)
        (workingDir : option string) (showFlag : option Z) : Call TNum
| runAsWait (user domain password : string) (logonFlag : Z) (program : string)
            (workingDir : option string) (showFlag : option Z) : Call TNum
| processExists (process : string) : Call TNum
| processClose (process : string) : Call TNum
| processSetPriority (process : string) (priority : Z) : Call TNum
| processWait (process : string) (timeout : option Z) : Call TNum
| processWaitClose (process : string) (timeout : option Z) : Call TNum
| shutdown (flags : Z) : Call TNum
(* control *)
| controlClick (title : string) (text : option string) (control : string)
               (button : MouseButton) (clicks : Z) (x y : option Z) : Call TNum
| controlClickByHandle (windowHandle controlHandle : Z) (button : MouseButton)
                       (clicks : Z) (x y : option Z) : Call TNum
| controlCommand (title : string) (text : option string) (control command : string)
                 (extra : option string) (bufSize : option Z) : Call TStr
| controlGetText (title : string) (text : option string) (control : string)
                 (bufSize : option Z) : Call TStr
| controlSetText (title : string) (text : option string) (control controlText : string) : Call TNum
| controlSend (title : string) (text : option string) (control sendText : string)
              (mode : option Z) : Call TNum
| controlFocus (title : string) (text : option string) (control : string) : Call TNum
| controlGetHandle (windowHandle : Z) (control : string) : Call TNum
| controlGetPos (title : string) (text : option string) (control : string) : Call TRect
| controlMove (title : string) (text : option string) (control : string) (x y : Z)
              (width height : option Z) : Call TNum
| controlShow (title : string) (text : option string) (control : string) : Call TNum
| controlHide (title : string) (text : option string) (control : string) : Call TNum.

(** A call of any result type, as recorded in the history. *)
Definition AnyCall : Type := sigT Call.
Definition any {t} (c : Call t) : AnyCall := existT t c.

(** The library as the server sees it: given the calls made so far, a call
    either returns a value of its type or throws. *)
Definition Library : Type := forall t, list AnyCall -> Call t -> Thrown + den t.

End AutoIt.

(* ================================================================== *)
(** * src/tools: the operation registry *)
(* ================================================================== *)

(** A validated tool request: the name of a registered tool with the
    arguments its schema lets through (defaults already filled in). *)
Module Request.
Inductive t :=
| mouseMove (x y speed : Z)
| mouseClick (button : MouseButton) (x y : option Z) (clicks speed : Z)
| mouseClickDrag (button : MouseButton) (x1 y1 x2 y2 speed : Z)
| mouseDown (button : MouseButton)
| mouseUp (button : MouseButton)
| mouseGetPos
| mouseGetCursor
| mouseWheel (direction : WheelDirection) (clicks : Z)
| send (text : string) (mode : Z)
| clipGet (bufSize : option Z)
| clipPut (text : string)
| autoItSetOption (option : string) (value : Z)
| opt (option : string) (value : Z)
| toolTip (text : string) (x y : option Z)
| winActivate (title : string) (text : option string)
| winActivateByHandle (handle : Z)
| winActive (title text : string)
| winClose (title : string) (text : option string)
| winExists (title : string) (text : option string)
| winGetHandle (title : string) (text : option string)
| winGetPos (title : string) (text : option string)
| winGetText (title : string) (text : option string) (bufSize : option Z)
| winGetTitle (title : string) (text : option string) (bufSize : option Z)
| winMove (title : string) (text : option string) (x y : Z) (width height : option Z)
| winSetState (title : string) (text : option string) (flags : Z)
| winWait (title : string) (text : option string) (timeout : option Z)
| winWaitActive (title : string) (text : option string) (timeout : option Z)
| winWaitClose (title : string) (text : option string) (timeout : option Z)
| run (program : string) (workingDir : option string) (showFlag : option Z)
| runWait (program : string) (workingDir : option string) (showFlag : option Z)
| runAs (user domain password : string) (logonFlag : Z) (program : string) (workingDir : option string) (showFlag : option Z)
| runAsWait (user domain password : string) (logonFlag : Z) (program : string) (workingDir : option string) (showFlag : option Z)
| processExists (process : string)
| processClose (process : string)
| processSetPriority (process : string) (priority : Z)
| processWait (process : string) (timeout : option Z)
| processWaitClose (process : string) (timeout : option Z)
| shutdown (flags : Z)
| controlClick (title : string) (text : option string) (control : string) (button : MouseButton) (clicks : Z) (x y : option Z)
| controlClickByHandle (windowHandle controlHandle : Z) (button : MouseButton) (clicks : Z) (x y : option Z)
| controlCommand (title : string) (text : option string) (control command : string) (extra : option string) (bufSize : option Z)
| controlGetText (title : string) (text : option string) (control : string) (bufSize : option Z)
| controlSetText (title : string) (text : option string) (control controlText : string)
| controlSend (title : string) (text : option string) (control sendText : string) (mode : option Z)
| controlFocus (title : string) (text : option string) (control : string)
| controlGetHandle (windowHandle : Z) (control : string)
| controlGetPos (title : string) (text : option string) (control : string)
| controlMove (title : string) (text : option string) (control : string) (x y : Z) (width height : option Z)
| controlShow (title : string) (text : option string) (control : string)
| controlHide (title : string) (text : option string) (control : string).
End Request.

Module Tools.

(** What a handler can touch: the logger and the automation library (seen
    through the calls made so far). *)
Record World := mkWorld { log : Logger.t; calls : list AutoIt.AnyCall }.

#[global] Instance World_log : HasLog World := {|
  the_log := log;
  with_log l w := mkWorld l (calls w)
|}.

Section Registry.

Variable lib : AutoIt.Library.

(** [await autoIt.f(args)] *)
Definition autoIt {t} (c : AutoIt.Call t) : M World (AutoIt.den t) :=
  fun w =>
    let w' := mkWorld (log w) (calls w ++ [AutoIt.any c]) in
    match lib t (calls w) c with
    | inl e => (Throw e, w')
    | inr a => (Return a, w')
    end.

(** The [catch] block every handler ends with:
    [log.error('<name> failed', error);
     return createErrorResponse(error instanceof Error ? error : String(error));] *)
Definition failed (name : string) (error : Thrown) : M World CallToolResult :=
  log_error (name +:+ " failed") >>
  ret (createErrorResponse (error_or_string error)).

(** ** src/tools/mouse.ts *)

Definition mouseMove (x y speed : Z) : M World CallToolResult :=
  try_catch
    (log_verbose "mouseMove called" >>
     autoIt AutoIt.init >>
     let* result := autoIt (AutoIt.mouseMove x y speed) in
     ret (createToolResponse
            [Lit "Mouse moved to ("; Val (num x); Lit ", "; Val (num y);
             Lit ") with result: "; Val (num result)]))
    (failed "mouseMove").

Definition mouseClick (button : MouseButton) (x y : option Z) (clicks speed : Z)
  : M World CallToolResult :=
  try_catch
    (log_verbose "mouseClick called" >>
     autoIt AutoIt.init >>
     let* result := autoIt (AutoIt.mouseClick button x y clicks speed) in
     ret (createToolResponse
            [Lit "Mouse clicked "; Val (MouseButton_string button); Lit " button ";
             Val (num clicks); Lit " time(s) with result: "; Val (num result)]))
    (failed "mouseClick").

Definition mouseClickDrag (button : MouseButton) (x1 y1 x2 y2 speed : Z)
  : M World CallToolResult :=
  try_catch
    (log_verbose "mouseClickDrag called" >>
     autoIt AutoIt.init >>
     let* result := autoIt (AutoIt.mouseClickDrag button x1 y1 x2 y2 speed) in
     ret (createToolResponse
            [Lit "Mouse dragged from ("; Val (num x1); Lit ", "; Val (num y1);
             Lit ") to ("; Val (num x2); Lit ", "; Val (num y2);
             Lit ") with result: "; Val (num result)]))
    (failed "mouseClickDrag").

Definition mouseDown (button : MouseButton) : M World CallToolResult :=
  try_catch
    (log_verbose "mouseDown called" >>
     autoIt AutoIt.init >>
     autoIt (AutoIt.mouseDown button) >>
     ret (createToolResponse
            [Lit "Mouse "; Val (MouseButton_string button); Lit " button pressed down"]))
    (failed "mouseDown").

Definition mouseUp (button : MouseButton) : M World CallToolResult :=
  try_catch
    (log_verbose "mouseUp called" >>
     autoIt AutoIt.init >>
     autoIt (AutoIt.mouseUp button) >>
     ret (createToolResponse
            [Lit "Mouse "; Val (MouseButton_string button); Lit " button released"]))
    (failed "mouseUp").

Definition mouseGetPos : M World CallToolResult :=
  try_catch
    (log_verbose "mouseGetPos called" >>
     autoIt AutoIt.init >>
     let* position := autoIt AutoIt.mouseGetPos in
     log_verbose "mouseGetPos result" >>
     ret (createToolResponse
            [Lit "Mouse position: ("; Val (num (Point.x position)); Lit ", ";
             Val (num (Point.y position)); Lit ")"]))
    (failed "mouseGetPos").

Definition mouseGetCursor : M World CallToolResult :=
  try_catch
    (log_verbose "mouseGetCursor called" >>
     autoIt AutoIt.init >>
     let* cursor := autoIt AutoIt.mouseGetCursor in
     log_verbose "mouseGetCursor result" >>
     ret (createToolResponse [Lit "Mouse cursor type: "; Val (num cursor)]))
    (failed "mouseGetCursor").

Definition mouseWheel (direction : WheelDirection) (clicks : Z) : M World CallToolResult :=
  try_catch
    (log_verbose "mouseWheel called" >>
     autoIt AutoIt.init >>
     autoIt (AutoIt.mouseWheel direction clicks) >>
     ret (createToolResponse
            [Lit "Mouse wheel scrolled "; Val (WheelDirection_string direction); Lit " ";
             Val (num clicks); Lit " click(s)"]))
    (failed "mouseWheel").

(** ** src/tools/keyboard.ts *)

Definition send (text : string) (mode : Z) : M World CallToolResult :=
  try_catch
    (log_verbose "send called" >>
     autoIt AutoIt.init >>
     autoIt (AutoIt.send text mode) >>
     ret (createToolResponse
            [Lit ("Sent keystrokes: " +:+ dq); Val text; Lit (dq +:+ " with mode ");
             Val (num mode)]))
    (failed "send").

Definition clipGet (bufSize : option Z) : M World CallToolResult :=
  try_catch
    (log_verbose "clipGet called" >>
     autoIt AutoIt.init >>
     let* clipboardContent := autoIt (AutoIt.clipGet bufSize) in
     log_verbose "clipGet result" >>
     ret (createToolResponse
            [Lit ("Clipboard content: " +:+ dq); Val clipboardContent; Lit dq]))
    (failed "clipGet").

Definition clipPut (text : string) : M World CallToolResult :=
  try_catch
    (log_verbose "clipPut called" >>
     autoIt AutoIt.init >>
     autoIt (AutoIt.clipPut text) >>
     ret (createToolResponse
            [Lit ("Text set to clipboard: " +:+ dq); Val text; Lit dq]))
    (failed "clipPut").

Definition autoItSetOption (option : string) (value : Z) : M World CallToolResult :=
  try_catch
    (log_verbose "autoItSetOption called" >>
     autoIt AutoIt.init >>
     let* result := autoIt (AutoIt.autoItSetOption option value) in
     ret (createToolResponse
            [Lit ("AutoIt option " +:+ dq); Val option; Lit (dq +:+ " set to ");
             Val (num value); Lit " with result: "; Val (num result)]))
    (failed "autoItSetOption").

Definition opt (option : string) (value : Z) : M World CallToolResult :=
  try_catch
    (log_verbose "opt called" >>
     autoIt AutoIt.init >>
     let* result := autoIt (AutoIt.opt option value) in
     ret (createToolResponse
            [Lit ("AutoIt option " +:+ dq); Val option; Lit (dq +:+ " set to ");
             Val (num value); Lit " with result: "; Val (num result)]))
    (failed "opt").

Definition toolTip (text : string) (x y : option Z) : M World CallToolResult :=
  try_catch
    (log_verbose "toolTip called" >>
     autoIt AutoIt.init >>
     autoIt (AutoIt.toolTip text x y) >>
     let position :=
       match x, y with
       | Some xv, Some yv =>
           tpl [Lit " at position ("; Val (num xv); Lit ", "; Val (num yv); Lit ")"]
       | _, _ => ""
       end in
     ret (createToolResponse
            [Lit ("Tooltip displayed: " +:+ dq); Val text; Lit dq; Val position]))
    (failed "toolTip").

(** ** src/tools/window.ts *)

Definition winActivate (title : string) (text : option string) : M World CallToolResult :=
  try_catch
    (log_verbose "winActivate called" >>
     autoIt AutoIt.init >>
     let* result := autoIt (AutoIt.winActivate title text) in
     ret (createToolResponse
            [Lit ("Window " +:+ dq); Val title; Lit (dq +:+ " activated with result: ");
             Val (num result)]))
    (failed "winActivate").

Definition winActivateByHandle (handle : Z) : M World CallToolResult :=
  try_catch
    (log_verbose "winActivateByHandle called" >>
     autoIt AutoIt.init >>
     let* result := autoIt (AutoIt.winActivateByHandle handle) in
     ret (createToolResponse
            [Lit "Window with handle "; Val (num handle); Lit " activated with result: ";
             Val (num result)]))
    (failed "winActivateByHandle").

Definition winActive (title text : string) : M World CallToolResult :=
  try_catch
    (log_verbose "winActive called" >>
     autoIt AutoIt.init >>
     let* result := autoIt (AutoIt.winActive title text) in
     let isActive := result =? 1 in
     ret (createToolResponse
            [Lit ("Window " +:+ dq); Val title; Lit (dq +:+ " is ");
             Lit (if isActive then "active" else "not active")]))
    (failed "winActive").

Definition winClose (title : string) (text : option string) : M World CallToolResult :=
  try_catch
    (log_verbose "winClose called" >>
     autoIt AutoIt.init >>
     let* result := autoIt (AutoIt.winClose title text) in
     ret (createToolResponse
            [Lit ("Window " +:+ dq); Val title; Lit (dq +:+ " closed with result: ");
             Val (num result)]))
    (failed "winClose").

Definition winExists (title : string) (text : option string) : M World CallToolResult :=
  try_catch
    (log_verbose "winExists called" >>
     autoIt AutoIt.init >>
     let* result := autoIt (AutoIt.winExists title text) in
     let exists_ := result =? 1 in
     ret (createToolResponse
            [Lit ("Window " +:+ dq); Val title; Lit (dq +:+ " ");
             Lit (if exists_ then "exists" else "does not exist")]))
    (failed "winExists").

Definition winGetHandle (title : string) (text : option string) : M World CallToolResult :=
  try_catch
    (log_verbose "winGetHandle called" >>
     autoIt AutoIt.init >>
     let* handle := autoIt (AutoIt.winGetHandle title text) in
     log_verbose "winGetHandle result" >>
     ret (createToolResponse
            [Lit ("Window " +:+ dq); Val title; Lit (dq +:+ " handle: "); Val (num handle)]))
    (failed "winGetHandle").

Definition winGetPos (title : string) (text : option string) : M World CallToolResult :=
  try_catch
    (log_verbose "winGetPos called" >>
     autoIt AutoIt.init >>
     let* rect := autoIt (AutoIt.winGetPos title text) in
     log_verbose "winGetPos result" >>
     let width := Rect.right rect - Rect.left rect in
     let height := Rect.bottom rect - Rect.top rect in
     ret (createToolResponse
            [Lit ("Window " +:+ dq); Val title; Lit (dq +:+ " position: Left=");
             Val (num (Rect.left rect)); Lit ", Top="; Val (num (Rect.top rect));
             Lit ", Width="; Val (num width); Lit ", Height="; Val (num height)]))
    (failed "winGetPos").

Definition winGetText (title : string) (text : option string) (bufSize : option Z)
  : M World CallToolResult :=
  try_catch
    (log_verbose "winGetText called" >>
     autoIt AutoIt.init >>
     let* windowText := autoIt (AutoIt.winGetText title text bufSize) in
     log_verbose "winGetText result" >>
     ret (createToolResponse
            [Lit ("Window " +:+ dq); Val title; Lit (dq +:+ " text: " +:+ dq);
             Val windowText; Lit dq]))
    (failed "winGetText").

Definition winGetTitle (title : string) (text : option string) (bufSize : option Z)
  : M World CallToolResult :=
  try_catch
    (log_verbose "winGetTitle called" >>
     autoIt AutoIt.init >>
     let* windowTitle := autoIt (AutoIt.winGetTitle title text bufSize) in
     log_verbose "winGetTitle result" >>
     ret (createToolResponse
            [Lit ("Window " +:+ dq); Val title; Lit (dq +:+ " title: " +:+ dq);
             Val windowTitle; Lit dq]))
    (failed "winGetTitle").

(** [width && height ? ` and resized to ${width}x${height}` : ''] *)
Definition sizeInfo (width height : option Z) : string :=
  match width, height with
  | Some w, Some h =>
      if truthy_num width && truthy_num height
      then tpl [Lit " and resized to "; Val (num w); Lit "x"; Val (num h)]
      else ""
  | _, _ => ""
  end.

Definition winMove (title : string) (text : option string) (x y : Z)
    (width height : option Z) : M World CallToolResult :=
  try_catch
    (log_verbose "winMove called" >>
     autoIt AutoIt.init >>
     let* result := autoIt (AutoIt.winMove title text x y width height) in
     ret (createToolResponse
            [Lit ("Window " +:+ dq); Val title; Lit (dq +:+ " moved to ("); Val (num x);
             Lit ", "; Val (num y); Lit ")"; Val (sizeInfo width height);
             Lit " with result: "; Val (num result)]))
    (failed "winMove").

Definition winSetState (title : string) (text : option string) (flags : Z)
  : M World CallToolResult :=
  try_catch
    (log_verbose "winSetState called" >>
     autoIt AutoIt.init >>
     let* result := autoIt (AutoIt.winSetState title text flags) in
     ret (createToolResponse
            [Lit ("Window " +:+ dq); Val title; Lit (dq +:+ " state set to ");
             Val (num flags); Lit " with result: "; Val (num result)]))
    (failed "winSetState").

Definition winWait (title : string) (text : option string) (timeout : option Z)
  : M World CallToolResult :=
  try_catch
    (log_verbose "winWait called" >>
     autoIt AutoIt.init >>
     let* result := autoIt (AutoIt.winWait title text timeout) in
     let success := result =? 1 in
     ret (createToolResponse
            (if success
             then [Lit ("Window " +:+ dq); Val title;
                   Lit (dq +:+ " appeared within the timeout")]
             else [Lit ("Window " +:+ dq); Val title;
                   Lit (dq +:+ " did not appear within the timeout")])))
    (failed "winWait").

Definition winWaitActive (title : string) (text : option string) (timeout : option Z)
  : M World CallToolResult :=
  try_catch
    (log_verbose "winWaitActive called" >>
     autoIt AutoIt.init >>
     let* result := autoIt (AutoIt.winWaitActive title text timeout) in
     let success := result =? 1 in
     ret (createToolResponse
            (if success
             then [Lit ("Window " +:+ dq); Val title;
                   Lit (dq +:+ " became active within the timeout")]
             else [Lit ("Window " +:+ dq); Val title;
                   Lit (dq +:+ " did not become active within the timeout")])))
    (failed "winWaitActive").

Definition winWaitClose (title : string) (text : option string) (timeout : option Z)
  : M World CallToolResult :=
  try_catch
    (log_verbose "winWaitClose called" >>
     autoIt AutoIt.init >>
     let* result := autoIt (AutoIt.winWaitClose title text timeout) in
     let success := result =? 1 in
     ret (createToolResponse
            (if success
             then [Lit ("Window " +:+ dq); Val title;
                   Lit (dq +:+ " closed within the timeout")]
             else [Lit ("Window " +:+ dq); Val title;
                   Lit (dq +:+ " did not close within the timeout")])))
    (failed "winWaitClose").

(** ** src/tools/process.ts *)

Definition run (program : string) (workingDir : option string) (showFlag : option Z)
  : M World CallToolResult :=
  try_catch
    (log_verbose "run called" >>
     autoIt AutoIt.init >>
     let* result := autoIt (AutoIt.run program workingDir showFlag) in
     ret (createToolResponse
            [Lit ("Program " +:+ dq); Val program;
             Lit (dq +:+ " started with process ID: "); Val (num result)]))
    (failed "run").

Definition runWait (program : string) (workingDir : option string) (showFlag : option Z)
  : M World CallToolResult :=
  try_catch
    (log_verbose "runWait called" >>
     autoIt AutoIt.init >>
     let* result := autoIt (AutoIt.runWait program workingDir showFlag) in
     ret (createToolResponse
            [Lit ("Program " +:+ dq); Val program;
             Lit (dq +:+ " completed with exit code: "); Val (num result)]))
    (failed "runWait").

Definition runAs (user domain password : string) (logonFlag : Z) (program : string)
    (workingDir : option string) (showFlag : option Z) : M World CallToolResult :=
  try_catch
    (log_verbose "runAs called" >>
     autoIt AutoIt.init >>
     let* result :=
       autoIt (AutoIt.runAs user domain password logonFlag program workingDir showFlag) in
     ret (createToolResponse
            [Lit ("Program " +:+ dq); Val program; Lit (dq +:+ " started as user " +:+ dq);
             Val user; Lit (dq +:+ " with process ID: "); Val (num result)]))
    (failed "runAs").

Definition runAsWait (user domain password : string) (logonFlag : Z) (program : string)
    (workingDir : option string) (showFlag : option Z) : M World CallToolResult :=
  try_catch
    (log_verbose "runAsWait called" >>
     autoIt AutoIt.init >>
     let* result :=
       autoIt (AutoIt.runAsWait user domain password logonFlag program workingDir showFlag) in
     ret (createToolResponse
            [Lit ("Program " +:+ dq); Val program;
             Lit (dq +:+ " completed as user " +:+ dq);
             Val user; Lit (dq +:+ " with exit code: "); Val (num result)]))
    (failed "runAsWait").

Definition processExists (process : string) : M World CallToolResult :=
  try_catch
    (log_verbose "processExists called" >>
     autoIt AutoIt.init >>
     let* result := autoIt (AutoIt.processExists process) in
     let exists_ := negb (result =? 0) in
     ret (createToolResponse
            (if exists_
             then [Lit ("Process " +:+ dq); Val process; Lit (dq +:+ " exists with PID: ");
                   Val (num result)]
             else [Lit ("Process " +:+ dq); Val process; Lit (dq +:+ " does not exist")])))
    (failed "processExists").

Definition processClose (process : string) : M World CallToolResult :=
  try_catch
    (log_verbose "processClose called" >>
     autoIt AutoIt.init >>
     let* result := autoIt (AutoIt.processClose process) in
     let success := result =? 1 in
     ret (createToolResponse
            (if success
             then [Lit ("Process " +:+ dq); Val process; Lit (dq +:+ " closed successfully")]
             else [Lit ("Failed to close process " +:+ dq); Val process; Lit dq])))
    (failed "processClose").

Definition processSetPriority (process : string) (priority : Z) : M World CallToolResult :=
  try_catch
    (log_verbose "processSetPriority called" >>
     autoIt AutoIt.init >>
     let* result := autoIt (AutoIt.processSetPriority process priority) in
     let success := result =? 1 in
     ret (createToolResponse
            (if success
             then [Lit ("Priority for process " +:+ dq); Val process; Lit (dq +:+ " set to ");
                   Val (num priority)]
             else [Lit ("Failed to set priority for process " +:+ dq); Val process; Lit dq])))
    (failed "processSetPriority").

Definition processWait (process : string) (timeout : option Z) : M World CallToolResult :=
  try_catch
    (log_verbose "processWait called" >>
     autoIt AutoIt.init >>
     let* result := autoIt (AutoIt.processWait process timeout) in
     let success := negb (result =? 0) in
     ret (createToolResponse
            (if success
             then [Lit ("Process " +:+ dq); Val process; Lit (dq +:+ " exists with PID: ");
                   Val (num result)]
             else [Lit ("Timed out waiting for process " +:+ dq); Val process; Lit dq])))
    (failed "processWait").

Definition processWaitClose (process : string) (timeout : option Z)
  : M World CallToolResult :=
  try_catch
    (log_verbose "processWaitClose called" >>
     autoIt AutoIt.init >>
     let* result := autoIt (AutoIt.processWaitClose process timeout) in
     let success := result =? 1 in
     ret (createToolResponse
            (if success
             then [Lit ("Process " +:+ dq); Val process;
                   Lit (dq +:+ " closed within the timeout")]
             else [Lit ("Timed out waiting for process " +:+ dq); Val process;
                   Lit (dq +:+ " to close")])))
    (failed "processWaitClose").

Definition shutdown (flags : Z) : M World CallToolResult :=
  try_catch
    (log_verbose "shutdown called" >>
     autoIt AutoIt.init >>
     let* result := autoIt (AutoIt.shutdown flags) in
     let success := result =? 1 in
     ret (createToolResponse
            (if success
             then [Lit "System shutdown initiated with flags: "; Val (num flags)]
             else [Lit "Failed to initiate system shutdown"])))
    (failed "shutdown").

(** ** src/tools/control.ts *)

Definition controlClick (title : string) (text : option string) (control : string)
    (button : MouseButton) (clicks : Z) (x y : option Z) : M World CallToolResult :=
  try_catch
    (log_verbose "controlClick called" >>
     autoIt AutoIt.init >>
     let* result := autoIt (AutoIt.controlClick title text control button clicks x y) in
     let success := result =? 1 in
     ret (createToolResponse
            (if success
             then [Lit ("Clicked on control " +:+ dq); Val control;
                   Lit (dq +:+ " in window " +:+ dq); Val title; Lit dq]
             else [Lit ("Failed to click on control " +:+ dq); Val control;
                   Lit (dq +:+ " in window " +:+ dq); Val title; Lit dq])))
    (failed "controlClick").

Definition controlClickByHandle (windowHandle controlHandle : Z) (button : MouseButton)
    (clicks : Z) (x y : option Z) : M World CallToolResult :=
  try_catch
    (log_verbose "controlClickByHandle called" >>
     autoIt AutoIt.init >>
     let* result :=
       autoIt (AutoIt.controlClickByHandle windowHandle controlHandle button clicks x y) in
     let success := result =? 1 in
     ret (createToolResponse
            (if success
             then [Lit "Clicked on control handle "; Val (num controlHandle);
                   Lit " in window handle "; Val (num windowHandle)]
             else [Lit "Failed to click on control handle "; Val (num controlHandle);
                   Lit " in window handle "; Val (num windowHandle)])))
    (failed "controlClickByHandle").

Definition controlCommand (title : string) (text : option string) (control command : string)
    (extra : option string) (bufSize : option Z) : M World CallToolResult :=
  try_catch
    (log_verbose "controlCommand called" >>
     autoIt AutoIt.init >>
     let* result := autoIt (AutoIt.controlCommand title text control command extra bufSize) in
     log_verbose "controlCommand result" >>
     ret (createToolResponse
            [Lit ("Command " +:+ dq); Val command; Lit (dq +:+ " sent to control " +:+ dq);
             Val control; Lit (dq +:+ " with result: "); Val result]))
    (failed "controlCommand").

Definition controlGetText (title : string) (text : option string) (control : string)
    (bufSize : option Z) : M World CallToolResult :=
  try_catch
    (log_verbose "controlGetText called" >>
     autoIt AutoIt.init >>
     let* controlText := autoIt (AutoIt.controlGetText title text control bufSize) in
     log_verbose "controlGetText result" >>
     ret (createToolResponse
            [Lit ("Text from control " +:+ dq); Val control; Lit (dq +:+ ": " +:+ dq);
             Val controlText; Lit dq]))
    (failed "controlGetText").

Definition controlSetText (title : string) (text : option string)
    (control controlText : string) : M World CallToolResult :=
  try_catch
    (log_verbose "controlSetText called" >>
     autoIt AutoIt.init >>
     let* result := autoIt (AutoIt.controlSetText title text control controlText) in
     let success := result =? 1 in
     ret (createToolResponse
            (if success
             then [Lit ("Text set in control " +:+ dq); Val control; Lit (dq +:+ " to " +:+ dq);
                   Val controlText; Lit dq]
             else [Lit ("Failed to set text in control " +:+ dq); Val control; Lit dq])))
    (failed "controlSetText").

Definition controlSend (title : string) (text : option string) (control sendText : string)
    (mode : option Z) : M World CallToolResult :=
  try_catch
    (log_verbose "controlSend called" >>
     autoIt AutoIt.init >>
     let* result := autoIt (AutoIt.controlSend title text control sendText mode) in
     let success := result =? 1 in
     ret (createToolResponse
            (if success
             then [Lit ("Keystrokes " +:+ dq); Val sendText;
                   Lit (dq +:+ " sent to control " +:+ dq); Val control; Lit dq]
             else [Lit ("Failed to send keystrokes to control " +:+ dq); Val control; Lit dq])))
    (failed "controlSend").

Definition controlFocus (title : string) (text : option string) (control : string)
  : M World CallToolResult :=
  try_catch
    (log_verbose "controlFocus called" >>
     autoIt AutoIt.init >>
     let* result := autoIt (AutoIt.controlFocus title text control) in
     let success := result =? 1 in
     ret (createToolResponse
            (if success
             then [Lit ("Focus set to control " +:+ dq); Val control; Lit dq]
             else [Lit ("Failed to set focus to control " +:+ dq); Val control; Lit dq])))
    (failed "controlFocus").

Definition controlGetHandle (windowHandle : Z) (control : string) : M World CallToolResult :=
  try_catch
    (log_verbose "controlGetHandle called" >>
     autoIt AutoIt.init >>
     let* handle := autoIt (AutoIt.controlGetHandle windowHandle control) in
     log_verbose "controlGetHandle result" >>
     ret (createToolResponse
            [Lit ("Control " +:+ dq); Val control; Lit (dq +:+ " handle: "); Val (num handle)]))
    (failed "controlGetHandle").

Definition controlGetPos (title : string) (text : option string) (control : string)
  : M World CallToolResult :=
  try_catch
    (log_verbose "controlGetPos called" >>
     autoIt AutoIt.init >>
     let* rect := autoIt (AutoIt.controlGetPos title text control) in
     log_verbose "controlGetPos result" >>
     let width := Rect.right rect - Rect.left rect in
     let height := Rect.bottom rect - Rect.top rect in
     ret (createToolResponse
            [Lit ("Control " +:+ dq); Val control; Lit (dq +:+ " position: Left=");
             Val (num (Rect.left rect)); Lit ", Top="; Val (num (Rect.top rect));
             Lit ", Width="; Val (num width); Lit ", Height="; Val (num height)]))
    (failed "controlGetPos").

Definition controlMove (title : string) (text : option string) (control : string)
    (x y : Z) (width height : option Z) : M World CallToolResult :=
  try_catch
    (log_verbose "controlMove called" >>
     autoIt AutoIt.init >>
     let* result := autoIt (AutoIt.controlMove title text control x y width height) in
     let success := result =? 1 in
     ret (createToolResponse
            (if success
             then [Lit ("Control " +:+ dq); Val control; Lit (dq +:+ " moved to (");
                   Val (num x); Lit ", "; Val (num y); Lit ")"; Val (sizeInfo width height)]
             else [Lit ("Failed to move control " +:+ dq); Val control; Lit dq])))
    (failed "controlMove").

Definition controlShow (title : string) (text : option string) (control : string)
  : M World CallToolResult :=
  try_catch
    (log_verbose "controlShow called" >>
     autoIt AutoIt.init >>
     let* result := autoIt (AutoIt.controlShow title text control) in
     let success := result =? 1 in
     ret (createToolResponse
            (if success
             then [Lit ("Control " +:+ dq); Val control; Lit (dq +:+ " shown")]
             else [Lit ("Failed to show control " +:+ dq); Val control; Lit dq])))
    (failed "controlShow").

Definition controlHide (title : string) (text : option string) (control : string)
  : M World CallToolResult :=
  try_catch
    (log_verbose "controlHide called" >>
     autoIt AutoIt.init >>
     let* result := autoIt (AutoIt.controlHide title text control) in
     let success := result =? 1 in
     ret (createToolResponse
            (if success
             then [Lit ("Control " +:+ dq); Val control; Lit (dq +:+ " hidden")]
             else [Lit ("Failed to hide control " +:+ dq); Val control; Lit dq])))
    (failed "controlHide").

(** ** src/tools/index.ts: the registry *)

(** The name a tool is registered under ([server.tool(name, schema, handler)]). *)
Definition tool_name (r : Request.t) : string :=
  match r with
  | Request.mouseMove _ _ _ => "mouseMove"
  | Request.mouseClick _ _ _ _ _ => "mouseClick"
  | Request.mouseClickDrag _ _ _ _ _ _ => "mouseClickDrag"
  | Request.mouseDown _ => "mouseDown"
  | Request.mouseUp _ => "mouseUp"
  | Request.mouseGetPos => "mouseGetPos"
  | Request.mouseGetCursor => "mouseGetCursor"
  | Request.mouseWheel _ _ => "mouseWheel"
  | Request.send _ _ => "send"
  | Request.clipGet _ => "clipGet"
  | Request.clipPut _ => "clipPut"
  | Request.autoItSetOption _ _ => "autoItSetOption"
  | Request.opt _ _ => "opt"
  | Request.toolTip _ _ _ => "toolTip"
  | Request.winActivate _ _ => "winActivate"
  | Request.winActivateByHandle _ => "winActivateByHandle"
  | Request.winActive _ _ => "winActive"
  | Request.winClose _ _ => "winClose"
  | Request.winExists _ _ => "winExists"
  | Request.winGetHandle _ _ => "winGetHandle"
  | Request.winGetPos _ _ => "winGetPos"
  | Request.winGetText _ _ _ => "winGetText"
  | Request.winGetTitle _ _ _ => "winGetTitle"
  | Request.winMove _ _ _ _ _ _ => "winMove"
  | Request.winSetState _ _ _ => "winSetState"
  | Request.winWait _ _ _ => "winWait"
  | Request.winWaitActive _ _ _ => "winWaitActive"
  | Request.winWaitClose _ _ _ => "winWaitClose"
  | Request.run _ _ _ => "run"
  | Request.runWait _ _ _ => "runWait"
  | Request.runAs _ _ _ _ _ _ _ => "runAs"
  | Request.runAsWait _ _ _ _ _ _ _ => "runAsWait"
  | Request.processExists _ => "processExists"
  | Request.processClose _ => "processClose"
  | Request.processSetPriority _ _ => "processSetPriority"
  | Request.processWait _ _ => "processWait"
  | Request.processWaitClose _ _ => "processWaitClose"
  | Request.shutdown _ => "shutdown"
  | Request.controlClick _ _ _ _ _ _ _ => "controlClick"
  | Request.controlClickByHandle _ _ _ _ _ _ => "controlClickByHandle"
  | Request.controlCommand _ _ _ _ _ _ => "controlCommand"
  | Request.controlGetText _ _ _ _ => "controlGetText"
  | Request.controlSetText _ _ _ _ => "controlSetText"
  | Request.controlSend _ _ _ _ _ => "controlSend"
  | Request.controlFocus _ _ _ => "controlFocus"
  | Request.controlGetHandle _ _ => "controlGetHandle"
  | Request.controlGetPos _ _ _ => "controlGetPos"
  | Request.controlMove _ _ _ _ _ _ _ => "controlMove"
  | Request.controlShow _ _ _ => "controlShow"
  | Request.controlHide _ _ _ => "controlHide"
  end.

(** The handler registered under the request's name, applied to its arguments. *)
Definition handle (r : Request.t) : M World CallToolResult :=
  match r with
  | Request.mouseMove x y speed => mouseMove x y speed
  | Request.mouseClick button x y clicks speed => mouseClick button x y clicks speed
  | Request.mouseClickDrag button x1 y1 x2 y2 speed => mouseClickDrag button x1 y1 x2 y2 speed
  | Request.mouseDown button => mouseDown button
  | Request.mouseUp button => mouseUp button
  | Request.mouseGetPos => mouseGetPos
  | Request.mouseGetCursor => mouseGetCursor
  | Request.mouseWheel direction clicks => mouseWheel direction clicks
  | Request.send text mode => send text mode
  | Request.clipGet bufSize => clipGet bufSize
  | Request.clipPut text => clipPut text
  | Request.autoItSetOption option value => autoItSetOption option value
  | Request.opt option value => opt option value
  | Request.toolTip text x y => toolTip text x y
  | Request.winActivate title text => winActivate title text
  | Request.winActivateByHandle handle => winActivateByHandle handle
  | Request.winActive title text => winActive title text
  | Request.winClose title text => winClose title text
  | Request.winExists title text => winExists title text
  | Request.winGetHandle title text => winGetHandle title text
  | Request.winGetPos title text => winGetPos title text
  | Request.winGetText title text bufSize => winGetText title text bufSize
  | Request.winGetTitle title text bufSize => winGetTitle title text bufSize
  | Request.winMove title text x y width height => winMove title text x y width height
  | Request.winSetState title text flags => winSetState title text flags
  | Request.winWait title text timeout => winWait title text timeout
  | Request.winWaitActive title text timeout => winWaitActive title text timeout
  | Request.winWaitClose title text timeout => winWaitClose title text timeout
  | Request.run program workingDir showFlag => run program workingDir showFlag
  | Request.runWait program workingDir showFlag => runWait program workingDir showFlag
  | Request.runAs user domain password logonFlag program workingDir showFlag => runAs user domain password logonFlag program workingDir showFlag
  | Request.runAsWait user domain password logonFlag program workingDir showFlag => runAsWait user domain password logonFlag program workingDir showFlag
  | Request.processExists process => processExists process
  | Request.processClose process => processClose process
  | Request.processSetPriority process priority => processSetPriority process priority
  | Request.processWait process timeout => processWait process timeout
  | Request.processWaitClose process timeout => processWaitClose process timeout
  | Request.shutdown flags => shutdown flags
  | Request.controlClick title text control button clicks x y => controlClick title text control button clicks x y
  | Request.controlClickByHandle windowHandle controlHandle button clicks x y => controlClickByHandle windowHandle controlHandle button clicks x y
  | Request.controlCommand title text control command extra bufSize => controlCommand title text control command extra bufSize
  | Request.controlGetText title text control bufSize => controlGetText title text control bufSize
  | Request.controlSetText title text control controlText => controlSetText title text control controlText
  | Request.controlSend title text control sendText mode => controlSend title text control sendText mode
  | Request.controlFocus title text control => controlFocus title text control
  | Request.controlGetHandle windowHandle control => controlGetHandle windowHandle control
  | Request.controlGetPos title text control => controlGetPos title text control
  | Request.controlMove title text control x y width height => controlMove title text control x y width height
  | Request.controlShow title text control => controlShow title text control
  | Request.controlHide title text control => controlHide title text control
  end.

End Registry.

(** The library call a request is delegated to. *)
Definition delegated (r : Request.t) : AutoIt.AnyCall :=
  match r with
  | Request.mouseMove x y speed => AutoIt.any (AutoIt.mouseMove x y speed)
  | Request.mouseClick button x y clicks speed => AutoIt.any (AutoIt.mouseClick button x y clicks speed)
  | Request.mouseClickDrag button x1 y1 x2 y2 speed => AutoIt.any (AutoIt.mouseClickDrag button x1 y1 x2 y2 speed)
  | Request.mouseDown button => AutoIt.any (AutoIt.mouseDown button)
  | Request.mouseUp button => AutoIt.any (AutoIt.mouseUp button)
  | Request.mouseGetPos => AutoIt.any (AutoIt.mouseGetPos)
  | Request.mouseGetCursor => AutoIt.any (AutoIt.mouseGetCursor)
  | Request.mouseWheel direction clicks => AutoIt.any (AutoIt.mouseWheel direction clicks)
  | Request.send text mode => AutoIt.any (AutoIt.send text mode)
  | Request.clipGet bufSize => AutoIt.any (AutoIt.clipGet bufSize)
  | Request.clipPut text => AutoIt.any (AutoIt.clipPut text)
  | Request.autoItSetOption option value => AutoIt.any (AutoIt.autoItSetOption option value)
  | Request.opt option value => AutoIt.any (AutoIt.opt option value)
  | Request.toolTip text x y => AutoIt.any (AutoIt.toolTip text x y)
  | Request.winActivate title text => AutoIt.any (AutoIt.winActivate title text)
  | Request.winActivateByHandle handle => AutoIt.any (AutoIt.winActivateByHandle handle)
  | Request.winActive title text => AutoIt.any (AutoIt.winActive title text)
  | Request.winClose title text => AutoIt.any (AutoIt.winClose title text)
  | Request.winExists title text => AutoIt.any (AutoIt.winExists title text)
  | Request.winGetHandle title text => AutoIt.any (AutoIt.winGetHandle title text)
  | Request.winGetPos title text => AutoIt.any (AutoIt.winGetPos title text)
  | Request.winGetText title text bufSize => AutoIt.any (AutoIt.winGetText title text bufSize)
  | Request.winGetTitle title text bufSize => AutoIt.any (AutoIt.winGetTitle title text bufSize)
  | Request.winMove title text x y width height => AutoIt.any (AutoIt.winMove title text x y width height)
  | Request.winSetState title text flags => AutoIt.any (AutoIt.winSetState title text flags)
  | Request.winWait title text timeout => AutoIt.any (AutoIt.winWait title text timeout)
  | Request.winWaitActive title text timeout => AutoIt.any (AutoIt.winWaitActive title text timeout)
  | Request.winWaitClose title text timeout => AutoIt.any (AutoIt.winWaitClose title text timeout)
  | Request.run program workingDir showFlag => AutoIt.any (AutoIt.run program workingDir showFlag)
  | Request.runWait program workingDir showFlag => AutoIt.any (AutoIt.runWait program workingDir showFlag)
  | Request.runAs user domain password logonFlag program workingDir showFlag => AutoIt.any (AutoIt.runAs user domain password logonFlag program workingDir showFlag)
  | Request.runAsWait user domain password logonFlag program workingDir showFlag => AutoIt.any (AutoIt.runAsWait user domain password logonFlag program workingDir showFlag)
  | Request.processExists process => AutoIt.any (AutoIt.processExists process)
  | Request.processClose process => AutoIt.any (AutoIt.processClose process)
  | Request.processSetPriority process priority => AutoIt.any (AutoIt.processSetPriority process priority)
  | Request.processWait process timeout => AutoIt.any (AutoIt.processWait process timeout)
  | Request.processWaitClose process timeout => AutoIt.any (AutoIt.processWaitClose process timeout)
  | Request.shutdown flags => AutoIt.any (AutoIt.shutdown flags)
  | Request.controlClick title text control button clicks x y => AutoIt.any (AutoIt.controlClick title text control button clicks x y)
  | Request.controlClickByHandle windowHandle controlHandle button clicks x y => AutoIt.any (AutoIt.controlClickByHandle windowHandle controlHandle button clicks x y)
  | Request.controlCommand title text control command extra bufSize => AutoIt.any (AutoIt.controlCommand title text control command extra bufSize)
  | Request.controlGetText title text control bufSize => AutoIt.any (AutoIt.controlGetText title text control bufSize)
  | Request.controlSetText title text control controlText => AutoIt.any (AutoIt.controlSetText title text control controlText)
  | Request.controlSend title text control sendText mode => AutoIt.any (AutoIt.controlSend title text control sendText mode)
  | Request.controlFocus title text control => AutoIt.any (AutoIt.controlFocus title text control)
  | Request.controlGetHandle windowHandle control => AutoIt.any (AutoIt.controlGetHandle windowHandle control)
  | Request.controlGetPos title text control => AutoIt.any (AutoIt.controlGetPos title text control)
  | Request.controlMove title text control x y width height => AutoIt.any (AutoIt.controlMove title text control x y width height)
  | Request.controlShow title text control => AutoIt.any (AutoIt.controlShow title text control)
  | Request.controlHide title text control => AutoIt.any (AutoIt.controlHide title text control)
  end.



(** What the library answers while a request is handled in world [w]: the
    fault thrown by [init] or by the delegated call, or the value the
    delegated call returns. *)
Definition answer (lib : AutoIt.Library) (r : Request.t) (w : World)
  : Thrown + {t : AutoIt.RTy & AutoIt.den t} :=
  match lib AutoIt.TVoid (calls w) AutoIt.init with
  | inl e => inl e
  | inr _ =>
      match delegated r with
      | existT t c =>
          match lib t (calls w ++ [AutoIt.any AutoIt.init])%list c with
          | inl e => inl e
          | inr a => inr (existT t a)
          end
      end
  end.

(** The number in an answer, if it is one. *)
Definition number (a : Thrown + {t : AutoIt.RTy & AutoIt.den t}) : option Z :=
  match a with
  | inr (existT t v) =>
      match t return AutoIt.den t -> option Z with
      | AutoIt.TNum => fun n => Some n
      | _ => fun _ => None
      end v
  | inl _ => None
  end.




(** The calls made on the library between world [w] and world [w']. *)
Definition calls_made (w w' : World) (made : list AutoIt.AnyCall) : Prop :=
  calls w' = (calls w ++ made)%list.

End Tools.

(* ================================================================== *)
(** * Node.js: file system, paths and buffers *)
(* ================================================================== *)

Module Node.

(** [fs.Stats]: only [isDirectory()] is asked. *)
Record Stats := mkStats { isDirectory : bool }.

(** A [Buffer]: the bytes of a file. *)
Definition Buffer : Type := list Byte.byte.

Inductive Encoding := utf8 | base64.

(** The platform functions the resource handlers call.  [fs] calls either
    return or throw; the others are total. *)
Record Api := mkApi {
  fs_stat : string -> Thrown + Stats;
  fs_readdir : string -> Thrown + list string;
  fs_readFile : string -> Thrown + Buffer;
  path_join : string -> string -> string;
  path_extname : string -> string;
  Buffer_toString : Encoding -> Buffer -> string;
  toLowerCase : string -> string
}.

End Node.

(* ================================================================== *)
(** * src/resources/index.ts *)
(* ================================================================== *)

Module Resources.

(** A variable bound by a URI template: [string | string[]]. *)
Inductive Variable_ :=
| One (s : string)
| Many (l : list string).

(** [Array.prototype.join(sep)] on strings *)
Fixpoint join (sep : string) (l : list string) : string :=
  match l with
  | [] => ""
  | [s] => s
  | s :: rest => s +:+ sep +:+ join sep rest
  end.

(** [String(v)]: an array is joined with commas. *)
Definition String_ (v : Variable_) : string :=
  match v with
  | One s => s
  | Many l => join "," l
  end.

(** Truthiness of an optional template variable: [undefined] and ['']
    are falsy, an array is an object and is truthy. *)
Definition truthy_var (v : option Variable_) : bool :=
  match v with
  | None => false
  | Some (One s) => truthy_str s
  | Some (Many _) => true
  end.

(** One item of [contents]: either [text] or [blob] is present. *)
Inductive Body :=
| text (s : string)
| blob (s : string).

Record Content := mkContent { uri : string; body : Body; mimeType : string }.

Record ReadResourceResult := mkRead { contents : list Content }.

(** The entries built while listing a directory. *)
Record Entry := mkEntry { entry_uri : string; entry_name : string; description : string }.

(** The object literal [mimeTypes] of [getMimeType]. *)
Definition mimeTypes : gmap string string :=
  list_to_map [
    (".txt", "text/plain");
    (".html", "text/html");
    (".css", "text/css");
    (".js", "application/javascript");
    (".ts", "application/typescript");
    (".json", "application/json");
    (".xml", "application/xml");
    (".md", "text/markdown");
    (".csv", "text/csv");
    (".png", "image/png");
    (".jpg", "image/jpeg");
    (".jpeg", "image/jpeg");
    (".gif", "image/gif");
    (".svg", "image/svg+xml");
    (".pdf", "application/pdf");
    (".doc", "application/msword");
    (".docx", "application/vnd.openxmlformats-officedocument.wordprocessingml.document");
    (".xls", "application/vnd.ms-excel");
    (".xlsx", "application/vnd.openxmlformats-officedocument.spreadsheetml.sheet");
    (".ppt", "application/vnd.ms-powerpoint");
    (".pptx", "application/vnd.openxmlformats-officedocument.presentationml.presentation");
    (".zip", "application/zip");
    (".rar", "application/x-rar-compressed");
    (".7z", "application/x-7z-compressed");
    (".tar", "application/x-tar");
    (".gz", "application/gzip")
  ].

(** [getMimeType(extension)]: [mimeTypes[extension] || 'application/octet-stream'].
    The argument is a result of [path.extname], that is [''] or a suffix
    that starts with a dot, so the lookup only ever sees own properties. *)
Definition getMimeType (extension : string) : string :=
  match mimeTypes !! extension with
  | Some m => if truthy_str m then m else "application/octet-stream"
  | None => "application/octet-stream"
  end.

(** The array literal tested with [.includes(extension)]. *)
Definition textExtensions : list string :=
  [".txt"; ".md"; ".js"; ".ts"; ".html"; ".css"; ".json"; ".xml";
   ".csv"; ".log"; ".ini"; ".cfg"; ".conf"; ".py"; ".c"; ".cpp";
   ".h"; ".java"; ".sh"; ".bat"; ".ps1"].

(** [fullPath.replace(/\\/g, '/')] *)
Fixpoint backslashes_to_slashes (s : string) : string :=
  match s with
  | EmptyString => EmptyString
  | String c rest =>
      String (if decide (c = Ascii.ascii_of_nat 92) then Ascii.ascii_of_nat 47 else c)
             (backslashes_to_slashes rest)
  end.

Section Handlers.

Variable node : Node.Api.
Variable lib : AutoIt.Library.

(** [await Promise.all(list.map(async x => f x))]; the callbacks are
    started in order and the first failure in that order is the one
    reported. *)
Fixpoint Promise_all {A B} (f : A -> M Tools.World B) (l : list A) : M Tools.World (list B) :=
  match l with
  | [] => ret []
  | a :: rest =>
      let* b := f a in
      let* bs := Promise_all f rest in
      ret (b :: bs)
  end.

(** The read callback of the ['file'] resource ([file://{path*}]). *)
Definition file (uri_href : string) (path : Variable_) : M Tools.World ReadResourceResult :=
  try_catch
    (let filePath := match path with Many l => join "/" l | One s => s end in
     log_verbose "Reading file resource" >>
     let* stats := lift (Node.fs_stat node filePath) in
     if Node.isDirectory stats then
       let* files := lift (Node.fs_readdir node filePath) in
       let* resources :=
         Promise_all
           (fun file =>
              let fullPath := Node.path_join node filePath file in
              let* fileStats := lift (Node.fs_stat node fullPath) in
              ret (mkEntry (tpl [Lit "file://"; Val (backslashes_to_slashes fullPath)])
                           file
                           (if Node.isDirectory fileStats then "Directory" else "File")))
           files in
       ret (mkRead [mkContent uri_href
                      (text (tpl [Lit "Directory: "; Val filePath; Lit (String (Ascii.ascii_of_nat 10) EmptyString);
                                  Val (join (String (Ascii.ascii_of_nat 10) EmptyString) files)]))
                      "text/plain"])
     else
       let* content := lift (Node.fs_readFile node filePath) in
       let extension := Node.toLowerCase node (Node.path_extname node filePath) in
       let isTextFile := bool_decide (extension ∈ textExtensions) in
       if isTextFile then
         ret (mkRead [mkContent uri_href
                        (text (Node.Buffer_toString node Node.utf8 content))
                        (getMimeType extension)])
       else
         ret (mkRead [mkContent uri_href
                        (blob (Node.Buffer_toString node Node.base64 content))
                        (getMimeType extension)]))
    (fun error =>
       log_error "Error reading file resource" >>
       throw (ThrownError (new_Error
                (tpl [Lit "Failed to read file: "; Val (message_or_string error)])))).

(** [params.window ? String(params.window) : undefined] *)
Definition windowName (window : option Variable_) : option string :=
  match window with
  | Some v => if truthy_var window then Some (String_ v) else None
  | None => None
  end.

(** [if (windowName)] *)
Definition named (windowName : option string) : option string :=
  match windowName with
  | Some n => if truthy_str n then Some n else None
  | None => None
  end.

(** The read callback of the ['screenshot'] resource
    ([screenshot://{window?}]).  The half-second pause after the activation
    has no counterpart here. *)
Definition screenshot (uri_href : string) (window : option Variable_)
  : M Tools.World ReadResourceResult :=
  try_catch
    (Tools.autoIt lib AutoIt.init >>
     let windowName := windowName window in
     log_verbose "Taking screenshot" >>
     match named windowName with
     | Some name =>
         let* windowExists := Tools.autoIt lib (AutoIt.winExists name None) in
         if truthy_num (Some windowExists) then
           Tools.autoIt lib (AutoIt.winActivate name None) >> ret tt
         else
           throw (ThrownError (new_Error
                    (tpl [Lit ("Window " +:+ dq); Val name; Lit (dq +:+ " not found")])))
     | None => ret tt
     end >>
     ret (mkRead [mkContent uri_href
                    (text (tpl [Lit "Screenshot of ";
                                Val (match named windowName with
                                     | Some n => n
                                     | None => "full screen"
                                     end);
                                Lit " would be captured here"]))
                    "text/plain"]))
    (fun error =>
       log_error "Error taking screenshot" >>
       throw (ThrownError (new_Error
                (tpl [Lit "Failed to take screenshot: "; Val (message_or_string error)])))).

End Handlers.

(** The result the screenshot handler returns when it returns. *)
Definition placeholder (uri_href what : string) : ReadResourceResult :=
  mkRead [mkContent uri_href
            (text ("Screenshot of " +:+ what +:+ " would be captured here"))
            "text/plain"].

(** [filePath] and [extension] as the file handler computes them. *)
Definition filePath (path : Variable_) : string :=
  match path with
  | Many l => join "/" l
  | One s => s
  end.

Definition extension (node : Node.Api) (path : Variable_) : string :=
  Node.toLowerCase node (Node.path_extname node (filePath path)).

(** The text extensions [getMimeType] has no entry for. *)
Definition untyped_text_extensions : list string :=
  [".log"; ".ini"; ".cfg"; ".conf"; ".py"; ".c"; ".cpp"; ".h"; ".java"; ".sh"; ".bat"; ".ps1"].

End Resources.

(* ================================================================== *)
(** * JSON values and their text *)
(* ================================================================== *)

(** What [JSON.parse] can produce and what a [JSONRPCMessage] is made of.
    The cast [as JSONRPCMessage] in the sources checks nothing, so any
    value may reach the message callback. *)
#[warnings="-register-all"]
Inductive Json :=
| JNull
| JBool (b : bool)
| JNumber (n : Z)
| JString (s : string)
| JArray (items : list Json)
| JObject (members : list (string * Json)).

(** An induction principle that reaches the values inside arrays and
    objects. *)
Fixpoint Json_nested_ind (P : Json -> Prop)
    (Hnull : P JNull) (Hbool : forall b, P (JBool b)) (Hnum : forall n, P (JNumber n))
    (Hstr : forall s, P (JString s))
    (Harr : forall items, Forall P items -> P (JArray items))
    (Hobj : forall members, Forall (fun kv => P (snd kv)) members -> P (JObject members))
    (v : Json) {struct v} : P v :=
  match v with
  | JNull => Hnull
  | JBool b => Hbool b
  | JNumber n => Hnum n
  | JString s => Hstr s
  | JArray items =>
      Harr items
        ((fix all (l : list Json) : Forall P l :=
            match l with
            | [] => Forall_nil_2 P
            | x :: rest =>
                Forall_cons_2 P x rest
                  (Json_nested_ind P Hnull Hbool Hnum Hstr Harr Hobj x) (all rest)
            end) items)
  | JObject members =>
      Hobj members
        ((fix all (l : list (string * Json)) : Forall (fun kv => P (snd kv)) l :=
            match l with
            | [] => Forall_nil_2 _
            | kv :: rest =>
                Forall_cons_2 (fun kv => P (snd kv)) kv rest
                  (Json_nested_ind P Hnull Hbool Hnum Hstr Harr Hobj (snd kv)) (all rest)
            end) members)
  end.

(** A model of the platform's [JSON.stringify] and [JSON.parse] on these
    values, with strings as byte sequences.  The adapter's listeners take
    the codec as a parameter; this one is the codec the round trip of a
    message is proved on.  Numbers with a fraction or an exponent and [\u] escapes above
    U+007F are outside of it. *)
Module JsonText.

Definition chr (n : nat) : Ascii.ascii := Ascii.ascii_of_nat n.
Definition str1 (n : nat) : string := String (chr n) EmptyString.

Definition code (c : Ascii.ascii) : nat := Ascii.nat_of_ascii c.

Definition hex_digit (n : nat) : Ascii.ascii :=
  if (n <? 10)%nat then chr (48 + n) else chr (87 + n).

(** The two-character escapes: the character after the backslash. *)
Definition short_escape (n : nat) : option nat :=
  if (n =? 34)%nat then Some 34%nat        (* quote *)
  else if (n =? 92)%nat then Some 92%nat   (* backslash *)
  else if (n =? 8)%nat then Some 98%nat    (* b *)
  else if (n =? 12)%nat then Some 102%nat  (* f *)
  else if (n =? 10)%nat then Some 110%nat  (* n *)
  else if (n =? 13)%nat then Some 114%nat  (* r *)
  else if (n =? 9)%nat then Some 116%nat   (* t *)
  else None.

(** [QuoteJSONString] on one character *)
Definition escape_char (c : Ascii.ascii) : string :=
  let n := code c in
  match short_escape n with
  | Some e => String (chr 92) (str1 e)
  | None =>
      if (n <? 32)%nat
      then String (chr 92) (String (chr 117) (String (chr 48) (String (chr 48)
             (String (hex_digit (n / 16)) (String (hex_digit (n mod 16)) EmptyString)))))
      else String c EmptyString
  end.

Fixpoint escape (s : string) : string :=
  match s with
  | EmptyString => EmptyString
  | String c rest => escape_char c +:+ escape rest
  end.

Definition quote (s : string) : string := dq +:+ escape s +:+ dq.

(** [JSON.stringify(value)] *)
Fixpoint stringify (v : Json) : string :=
  match v with
  | JNull => "null"
  | JBool true => "true"
  | JBool false => "false"
  | JNumber n => num n
  | JString s => quote s
  | JArray items =>
      "[" +:+
      (fix elements (l : list Json) : string :=
         match l with
         | [] => "]"
         | [x] => stringify x +:+ "]"
         | x :: rest => stringify x +:+ "," +:+ elements rest
         end) items
  | JObject members =>
      "{" +:+
      (fix pairs (l : list (string * Json)) : string :=
         match l with
         | [] => "}"
         | [(k, x)] => quote k +:+ ":" +:+ stringify x +:+ "}"
         | (k, x) :: rest => quote k +:+ ":" +:+ stringify x +:+ "," +:+ pairs rest
         end) members
  end.

(** The text after the opening bracket of an array and after the opening
    brace of an object, as [stringify] builds it. *)
Fixpoint elements (l : list Json) : string :=
  match l with
  | [] => "]"
  | [x] => stringify x +:+ "]"
  | x :: rest => stringify x +:+ "," +:+ elements rest
  end.

Fixpoint pairs (l : list (string * Json)) : string :=
  match l with
  | [] => "}"
  | [(k, x)] => quote k +:+ ":" +:+ stringify x +:+ "}"
  | (k, x) :: rest => quote k +:+ ":" +:+ stringify x +:+ "," +:+ pairs rest
  end.

Definition is_ws (c : Ascii.ascii) : bool :=
  let n := code c in
  (n =? 32)%nat || (n =? 9)%nat || (n =? 10)%nat || (n =? 13)%nat.

Fixpoint skip_ws (s : string) : string :=
  match s with
  | String c rest => if is_ws c then skip_ws rest else s
  | EmptyString => EmptyString
  end.

Definition is_digit (c : Ascii.ascii) : bool :=
  let n := code c in (48 <=? n)%nat && (n <=? 57)%nat.

(** The longest prefix made of digits and minus signs, and what follows. *)
Fixpoint number_token (s : string) : string * string :=
  match s with
  | String c rest =>
      if is_digit c || (code c =? 45)%nat
      then let (tok, r) := number_token rest in (String c tok, r)
      else (EmptyString, s)
  | EmptyString => (EmptyString, EmptyString)
  end.

(** A JSON number without fraction and exponent. *)
Definition parse_number (s : string) : option (Z * string) :=
  let (tok, rest) := number_token s in
  match NilZero.int_of_string tok with
  | Some d =>
      let n := Z.of_int d in
      if bool_decide (num n = tok) || bool_decide (tok = "-0")
      then match rest with
           | String c _ =>
               if (code c =? 46)%nat || (code c =? 101)%nat || (code c =? 69)%nat
               then None else Some (n, rest)
           | EmptyString => Some (n, rest)
           end
      else None
  | None => None
  end.

Definition hex_value (c : Ascii.ascii) : option nat :=
  let n := code c in
  if (48 <=? n)%nat && (n <=? 57)%nat then Some (n - 48)%nat
  else if (97 <=? n)%nat && (n <=? 102)%nat then Some (n - 87)%nat
  else if (65 <=? n)%nat && (n <=? 70)%nat then Some (n - 55)%nat
  else None.

(** The character a two-character escape stands for. *)
Definition unescape (n : nat) : option nat :=
  if (n =? 34)%nat then Some 34%nat
  else if (n =? 92)%nat then Some 92%nat
  else if (n =? 47)%nat then Some 47%nat
  else if (n =? 98)%nat then Some 8%nat
  else if (n =? 102)%nat then Some 12%nat
  else if (n =? 110)%nat then Some 10%nat
  else if (n =? 114)%nat then Some 13%nat
  else if (n =? 116)%nat then Some 9%nat
  else None.

(** The characters of a string up to its closing quote. *)
Fixpoint parse_chars (s : string) : option (string * string) :=
  match s with
  | EmptyString => None
  | String c rest =>
      if (code c =? 34)%nat then Some (EmptyString, rest)
      else if (code c =? 92)%nat then
        match rest with
        | String e rest1 =>
            match unescape (code e) with
            | Some n =>
                match parse_chars rest1 with
                | Some (str, r) => Some (String (chr n) str, r)
                | None => None
                end
            | None =>
                if (code e =? 117)%nat then
                  match rest1 with
                  | String h1 (String h2 (String h3 (String h4 rest2))) =>
                      match hex_value h1, hex_value h2, hex_value h3, hex_value h4 with
                      | Some a, Some b, Some c3, Some d =>
                          let n := (((a * 16 + b) * 16 + c3) * 16 + d)%nat in
                          if (n <? 128)%nat then
                            match parse_chars rest2 with
                            | Some (str, r) => Some (String (chr n) str, r)
                            | None => None
                            end
                          else None
                      | _, _, _, _ => None
                      end
                  | _ => None
                  end
                else None
            end
        | EmptyString => None
        end
      else if (code c <? 32)%nat then None
      else
        match parse_chars rest with
        | Some (str, r) => Some (String c str, r)
        | None => None
        end
  end.

(** [s] without the prefix [p], if it starts with it. *)
Fixpoint strip_prefix (p s : string) : option string :=
  match p with
  | EmptyString => Some s
  | String a p' =>
      match s with
      | String b s' => if Ascii.eqb a b then strip_prefix p' s' else None
      | EmptyString => None
      end
  end.

(** A literal name, after its first character. *)
Definition keyword (rest_of_name : string) (v : Json) (s : string) : option (Json * string) :=
  match strip_prefix rest_of_name s with
  | Some rest => Some (v, rest)
  | None => None
  end.

(** A value, the items of an array after its bracket and the members of an
    object after its brace, by recursive descent. *)
Fixpoint parse_value (fuel : nat) (s : string) : option (Json * string) :=
  match fuel with
  | O => None
  | S fuel =>
      match skip_ws s with
      | EmptyString => None
      | String c rest =>
          let n := code c in
          if (n =? 110)%nat then keyword "ull" JNull rest
          else if (n =? 116)%nat then keyword "rue" (JBool true) rest
          else if (n =? 102)%nat then keyword "alse" (JBool false) rest
          else if (n =? 34)%nat then
            match parse_chars rest with
            | Some (str, r) => Some (JString str, r)
            | None => None
            end
          else if (n =? 91)%nat then
            match skip_ws rest with
            | String c1 r1 =>
                if (code c1 =? 93)%nat then Some (JArray [], r1)
                else match parse_items fuel rest with
                     | Some (items, r) => Some (JArray items, r)
                     | None => None
                     end
            | EmptyString => None
            end
          else if (n =? 123)%nat then
            match skip_ws rest with
            | String c1 r1 =>
                if (code c1 =? 125)%nat then Some (JObject [], r1)
                else match parse_members fuel rest with
                     | Some (members, r) => Some (JObject members, r)
                     | None => None
                     end
            | EmptyString => None
            end
          else
            match parse_number (String c rest) with
            | Some (z, r) => Some (JNumber z, r)
            | None => None
            end
      end
  end
with parse_items (fuel : nat) (s : string) : option (list Json * string) :=
  match fuel with
  | O => None
  | S fuel =>
      match parse_value fuel s with
      | Some (v, r) =>
          match skip_ws r with
          | String c r1 =>
              if (code c =? 44)%nat then
                match parse_items fuel r1 with
                | Some (vs, r2) => Some (v :: vs, r2)
                | None => None
                end
              else if (code c =? 93)%nat then Some ([v], r1)
              else None
          | EmptyString => None
          end
      | None => None
      end
  end
with parse_members (fuel : nat) (s : string) : option (list (string * Json) * string) :=
  match fuel with
  | O => None
  | S fuel =>
      match skip_ws s with
      | String q r0 =>
          if (code q =? 34)%nat then
            match parse_chars r0 with
            | Some (key, r) =>
                match skip_ws r with
                | String colon r1 =>
                    if (code colon =? 58)%nat then
                      match parse_value fuel r1 with
                      | Some (v, r2) =>
                          match skip_ws r2 with
                          | String c r3 =>
                              if (code c =? 44)%nat then
                                match parse_members fuel r3 with
                                | Some (ms, r4) => Some ((key, v) :: ms, r4)
                                | None => None
                                end
                              else if (code c =? 125)%nat then Some ([(key, v)], r3)
                              else None
                          | EmptyString => None
                          end
                      | None => None
                      end
                    else None
                | EmptyString => None
                end
            | None => None
            end
          else None
      | EmptyString => None
      end
  end.

(** The [SyntaxError] [JSON.parse] throws. *)
Definition SyntaxError : Thrown :=
  ThrownError (mkError "SyntaxError" "Unexpected token in JSON").

(** [JSON.parse(text)] *)
Definition parse (s : string) : Thrown + Json :=
  match parse_value (S (String.length s)) s with
  | Some (v, rest) =>
      match skip_ws rest with
      | EmptyString => inr v
      | String _ _ => inl SyntaxError
      end
  | None => inl SyntaxError
  end.

(** What may follow a value inside a text: nothing, a comma, or a closing
    bracket or brace. *)
Definition delimited (rest : string) : Prop :=
  match rest with
  | EmptyString => True
  | String c _ => code c = 44%nat \/ code c = 93%nat \/ code c = 125%nat
  end.

(** The characters a number is written with. *)
Definition number_char (c : Ascii.ascii) : bool := is_digit c || (code c =? 45)%nat.

(** The fuel [parse_value] needs to read the text of a value back, and
    [parse_items] and [parse_members] for the rest of an array or object. *)
Fixpoint need (v : Json) : nat :=
  match v with
  | JArray items =>
      S ((fix go (l : list Json) : nat :=
            match l with
            | [] => O
            | x :: rest => S (Nat.max (need x) (go rest))
            end) items)
  | JObject members =>
      S ((fix go (l : list (string * Json)) : nat :=
            match l with
            | [] => O
            | kv :: rest => S (Nat.max (need (snd kv)) (go rest))
            end) members)
  | _ => 1%nat
  end.

Fixpoint need_items (l : list Json) : nat :=
  match l with
  | [] => O
  | x :: rest => S (Nat.max (need x) (need_items rest))
  end.

Fixpoint need_members (l : list (string * Json)) : nat :=
  match l with
  | [] => O
  | kv :: rest => S (Nat.max (need (snd kv)) (need_members rest))
  end.

(** Reading back what [stringify] wrote for [v], with enough fuel. *)
Definition reads_back (v : Json) : Prop :=
  forall fuel rest,
    (need v <= fuel)%nat ->
    delimited rest ->
    parse_value fuel (stringify v +:+ rest) = Some (v, rest).

End JsonText.

(* ================================================================== *)
(** * src/server/server.ts *)
(* ================================================================== *)

Module Server.

(** A socket handed over by the listener, known by its identity. *)
Definition WebSocket : Type := nat.

(** An inbound frame ([RawData]); what is kept is [data.toString()]. *)
Definition RawData : Type := string.

(** How a promise returned by [send] ends. *)
Inductive Settlement :=
| Resolved
| Rejected (reason : Thrown).

(** A promise: already settled, or waiting for the completion callback of
    the socket write, which is handed the write's error if there is one. *)
Inductive Promise :=
| Settled (s : Settlement)
| Pending (on_write_complete : option Error -> Settlement).

(** [class WebSocketServerTransport]: the fields of an instance.  A
    callback is a function of the protocol layer, seen through whether it
    returns or throws. *)
Record WebSocketServerTransport := mkTransport {
  ws : option WebSocket;
  sessionId : string;
  onclose : option (unit -> Thrown + unit);
  onerror : option (Error -> Thrown + unit);
  onmessage : option (Json -> Thrown + unit)
}.

(** What an adapter does to the outside: calls on its socket and calls of
    the callbacks. *)
Inductive Effect :=
| ws_send (socket : WebSocket) (data : string)
| ws_close (socket : WebSocket)
| called_onmessage (message : Json)
| called_onerror (error : Error)
| called_onclose.

(** One adapter at work. *)
Record State := mkState {
  this : WebSocketServerTransport;
  effects : list Effect;
  log : Logger.t
}.

#[global] Instance State_log : HasLog State := {|
  the_log := log;
  with_log l s := mkState (this s) (effects s) l
|}.

Definition emit (e : Effect) : M State unit :=
  modify (fun s => mkState (this s) (effects s ++ [e]) (log s)).

(** [this.ws = v] *)
Definition set_ws (v : option WebSocket) : M State unit :=
  modify (fun s =>
            let t := this s in
            mkState (mkTransport v (sessionId t) (onclose t) (onerror t) (onmessage t))
                    (effects s) (log s)).

(** The constructor's assignments.  [sessionId] is the outcome of
    [Math.random().toString(36).substring(2, 15)]. *)
Definition new_ (socket : WebSocket) (random_id : string) : WebSocketServerTransport :=
  mkTransport (Some socket) random_id None None None.

(** [this.onmessage?.(message)] *)
Definition call_onmessage (message : Json) : M State unit :=
  let* s := get in
  match onmessage (this s) with
  | Some f => emit (called_onmessage message) >> lift (f message)
  | None => ret tt
  end.

(** [this.onerror?.(error)] *)
Definition call_onerror (error : Error) : M State unit :=
  let* s := get in
  match onerror (this s) with
  | Some f => emit (called_onerror error) >> lift (f error)
  | None => ret tt
  end.

(** [this.onclose?.()] *)
Definition call_onclose : M State unit :=
  let* s := get in
  match onclose (this s) with
  | Some f => emit called_onclose >> lift (f tt)
  | None => ret tt
  end.

(** The write callback of [send]:
    [(error?: Error) => { if (error) reject(error) else resolve() }] *)
Definition settle_send (error : option Error) : Settlement :=
  match error with
  | Some e => Rejected (ThrownError e)
  | None => Resolved
  end.

Section Adapter.

(** The platform's JSON codec. *)
Variable JSON_stringify : Json -> string.
Variable JSON_parse : string -> Thrown + Json.

(** The listener of the socket's ['message'] event. *)
Definition on_message (data : RawData) : M State unit :=
  try_catch
    (let* message := lift (JSON_parse data) in
     call_onmessage message)
    (fun error =>
       call_onerror (new_Error (tpl [Lit "Failed to parse message: "; Val (String_of error)]))).

(** The listener of the socket's ['close'] event. *)
Definition on_close : M State unit :=
  set_ws None >>
  call_onclose.

(** The listener of the socket's ['error'] event. *)
Definition on_error (error : Error) : M State unit :=
  call_onerror error.

(** [async start()] *)
Definition start : M State unit :=
  log_info "WebSocket transport started".

(** [async send(message)]: the promise the call returns. *)
Definition send (message : Json) : M State Promise :=
  let* s := get in
  match ws (this s) with
  | None => ret (Settled (Rejected (ThrownError (new_Error "WebSocket not connected"))))
  | Some socket =>
      emit (ws_send socket (JSON_stringify message)) >>
      ret (Pending settle_send)
  end.

(** [async close()] *)
Definition close : M State unit :=
  let* s := get in
  match ws (this s) with
  | Some socket =>
      emit (ws_close socket) >>
      set_ws None
  | None => ret tt
  end.

(** What can happen to an adapter: an event of its socket or a call of one
    of its methods by the protocol layer. *)
Inductive Step :=
| SocketMessage (data : RawData)
| SocketClose
| SocketError (error : Error)
| CallStart
| CallSend (message : Json)
| CallClose.

Definition step (st : Step) : M State unit :=
  match st with
  | SocketMessage data => on_message data
  | SocketClose => on_close
  | SocketError error => on_error error
  | CallStart => start
  | CallSend message => send message >> ret tt
  | CallClose => close
  end.

(** A run: the steps in order.  An exception that escapes a listener is
    uncaught and ends the run. *)
Fixpoint run (steps : list Step) : M State unit :=
  match steps with
  | [] => ret tt
  | st :: rest => step st >> run rest
  end.

End Adapter.

Definition is_called_onclose (e : Effect) : bool :=
  match e with called_onclose => true | _ => false end.

Definition is_called_onerror (e : Effect) : bool :=
  match e with called_onerror _ => true | _ => false end.

Definition is_called_onmessage (e : Effect) : bool :=
  match e with called_onmessage _ => true | _ => false end.

Definition is_SocketClose (st : Step) : bool :=
  match st with SocketClose => true | _ => false end.

(** How often a kind of effect or step occurs. *)
Definition count {A} (p : A -> bool) (l : list A) : nat :=
  length (List.filter p l).

(** ** The transport selector *)

(** [interface ServerConfig].  The declared type of [transport] is
    ['stdio' | 'websocket']; the value comes from the command line, so it
    is any string here, as the last branch of [setupServer] expects. *)
Record ServerConfig := mkConfig {
  name : string;
  version : string;
  transport : string;
  port : option Z
}.

(** What the selector and the start-up code do to the process: objects
    they create (known by identity) and calls on them. *)
Inductive Sys :=
| new_McpServer (server : nat) (name version : string)
| registerAllTools (server : nat)
| registerAllResources (server : nat)
| registerAllPrompts (server : nat)
| new_StdioServerTransport (transport : nat)
| new_WebSocketServerTransport (transport : nat) (socket : WebSocket)
| server_connect (server transport : nat)
| createHttpServer (httpServer : nat)
| new_WebSocketServer (wss httpServer : nat)
| wss_on_connection (wss : nat)
| httpServer_listen (httpServer : nat) (port : Z).

(** The process: the logger, the objects created so far, the adapters
    among them, the ['connection'] listeners (per HTTP server, the
    [McpServer] the listener's closure captured) and what was done. *)
Record Runtime := mkRuntime {
  rt_log : Logger.t;
  next_object : nat;
  adapters : gmap nat WebSocketServerTransport;
  connection_listeners : gmap nat nat;
  sys : list Sys
}.

#[global] Instance Runtime_log : HasLog Runtime := {|
  the_log := rt_log;
  with_log l r := let 'mkRuntime _ n ads ls done := r in mkRuntime l n ads ls done
|}.

Definition boot : Runtime := mkRuntime Logger.initial 0 ∅ ∅ [].

(** [new C(...)]: a fresh identity. *)
Definition fresh : M Runtime nat :=
  fun r =>
    let 'mkRuntime lg n ads ls done := r in
    (Return n, mkRuntime lg (S n) ads ls done).

Definition did (e : Sys) : M Runtime unit :=
  modify (fun r =>
            let 'mkRuntime lg n ads ls done := r in
            mkRuntime lg n ads ls (done ++ [e])).

Definition store_adapter (id : nat) (t : WebSocketServerTransport) : M Runtime unit :=
  modify (fun r =>
            let 'mkRuntime lg n ads ls done := r in
            mkRuntime lg n (<[id := t]> ads) ls done).

Definition listen_for_connections (httpServer server : nat) : M Runtime unit :=
  modify (fun r =>
            let 'mkRuntime lg n ads ls done := r in
            mkRuntime lg n ads (<[httpServer := server]> ls) done).

(** The result of [setupServer]: [{ server, httpServer? }]. *)
Record Setup := mkSetup { server : nat; httpServer : option nat }.

Section Selector.

(** [server.connect(transport)] of the protocol SDK returns or throws. *)
Variable connect_result : nat -> nat -> Thrown + unit.

(** The session identifiers [Math.random] yields, by object identity. *)
Variable random_id : nat -> string.

(** [new McpServer({ name, version }, { capabilities })] *)
Definition McpServer (name version : string) : M Runtime nat :=
  let* server := fresh in
  did (new_McpServer server name version) >>
  ret server.

(** [await server.connect(transport)] *)
Definition connect (server transport : nat) : M Runtime unit :=
  did (server_connect server transport) >>
  lift (connect_result server transport).

(** The listener of the ['connection'] event; [server] is the variable of
    [setupServer] its closure captured. *)
Definition on_connection (server : nat) (socket : WebSocket) : M Runtime unit :=
  log_info "New WebSocket connection" >>
  let* transport := fresh in
  store_adapter transport (new_ socket (random_id transport)) >>
  did (new_WebSocketServerTransport transport socket) >>
  connect server transport.

(** [setupServer(config)] *)
Definition setupServer (config : ServerConfig) : M Runtime Setup :=
  let* server := McpServer (name config) (version config) in
  if decide (transport config = "stdio") then
    log_info "Using stdio transport" >>
    let* transport := fresh in
    did (new_StdioServerTransport transport) >>
    connect server transport >>
    ret (mkSetup server None)
  else if decide (transport config = "websocket") then
    log_info (tpl [Lit "Using WebSocket transport on port ";
                   Val (match port config with Some p => num p | None => "undefined" end)]) >>
    let* httpServer := fresh in
    did (createHttpServer httpServer) >>
    let* wss := fresh in
    did (new_WebSocketServer wss httpServer) >>
    did (wss_on_connection wss) >>
    listen_for_connections httpServer server >>
    did (httpServer_listen httpServer
           (match port config with
            | Some p => if truthy_num (Some p) then p else 3000
            | None => 3000
            end)) >>
    ret (mkSetup server (Some httpServer))
  else
    throw (ThrownError (new_Error
             (tpl [Lit "Unsupported transport: "; Val (transport config)]))).

(** The listening server accepts a connection: its ['connection']
    listener, if one is registered, is called with the new socket. *)
Definition accept (httpServer : nat) (socket : WebSocket) : M Runtime unit :=
  let* r := get in
  match connection_listeners r !! httpServer with
  | Some server => on_connection server socket
  | None => ret tt
  end.

Fixpoint accept_all (httpServer : nat) (sockets : list WebSocket) : M Runtime unit :=
  match sockets with
  | [] => ret tt
  | socket :: rest => accept httpServer socket >> accept_all httpServer rest
  end.

End Selector.

(** The sessions: for every [server.connect(transport)], the transport
    and the message-handling core it was attached to, in order. *)
Definition sessions (l : list Sys) : list (nat * nat) :=
  omap (fun e => match e with
                 | server_connect server transport => Some (transport, server)
                 | _ => None
                 end) l.

Definition is_new_McpServer (e : Sys) : bool :=
  match e with new_McpServer _ _ _ => true | _ => false end.

(** What accepting [sockets] one after the other leaves in the trace when
    the listener captured [core] and the next free identity is [n]. *)
Fixpoint accepted (core n : nat) (sockets : list WebSocket) : list Sys :=
  match sockets with
  | [] => []
  | socket :: rest =>
      new_WebSocketServerTransport n socket :: server_connect core n
        :: accepted core (S n) rest
  end.

(** The reading of C1 as written: after [setupServer] in socket mode, the
    sessions of the accepted connections are attached to pairwise distinct
    cores. *)
Definition core_per_session : Prop :=
  forall (connect_result : nat -> nat -> Thrown + unit) (random_id : nat -> string)
         (config : ServerConfig) (sockets : list WebSocket)
         (setup : Setup) (h : nat) (r1 r2 : Runtime),
    transport config = "websocket" ->
    setupServer connect_result config boot = (Return setup, r1) ->
    httpServer setup = Some h ->
    accept_all connect_result random_id h sockets r1 = (Return tt, r2) ->
    NoDup (map snd (sessions (sys r2))).

(** An effect that opens a network or stream resource. *)
Definition opens_resource (e : Sys) : bool :=
  match e with
  | new_StdioServerTransport _ | new_WebSocketServerTransport _ _
  | server_connect _ _ | createHttpServer _ | new_WebSocketServer _ _
  | wss_on_connection _ | httpServer_listen _ _ => true
  | new_McpServer _ _ _ | registerAllTools _ | registerAllResources _
  | registerAllPrompts _ => false
  end.

End Server.

(* ================================================================== *)
(** * src/index.ts *)
(* ================================================================== *)

Module Index.

Import Server.

(** [s.startsWith(prefix)] *)
Definition startsWith (prefix s : string) : bool := String.prefix prefix s.

(** [s.split('=')], with the piece in progress carried along. *)
Fixpoint split_eq (piece : string -> string) (s : string) : list string :=
  match s with
  | EmptyString => [piece EmptyString]
  | String c rest =>
      if decide (c = Ascii.ascii_of_nat 61)
      then piece EmptyString :: split_eq (fun t => t) rest
      else split_eq (fun t => piece (String c t)) rest
  end.

Definition split (s : string) : list string := split_eq (fun t => t) s.

(** [args.find(arg => arg.startsWith(prefix))] *)
Definition find_arg (prefix : string) (args : list string) : option string :=
  List.find (startsWith prefix) args.

(** [transportArg ? transportArg.split('=')[1] : 'stdio'].  An argument
    that starts with [--transport=] always has a second piece. *)
Definition transport_of (args : list string) : string :=
  match find_arg "--transport=" args with
  | Some transportArg => default "undefined" (split transportArg !! 1%nat)
  | None => "stdio"
  end.

(** [if (verboseArg) log.setLevel(0) else log.setLevel(2)] *)
Definition level_of (args : list string) : Z :=
  match List.find (fun arg => bool_decide (arg = "--verbose")) args with
  | Some _ => 0
  | None => 2
  end.

Section Start.

Variable connect_result : nat -> nat -> Thrown + unit.

(** [async function startServer()]; [transport] and [port] are the
    module-level constants computed from the command line. *)
Definition startServer (transport : string) (port : string) : M Runtime unit :=
  try_catch
    (let* server := McpServer "Windows Desktop Automation" "1.0.0" in
     did (registerAllTools server) >>
     did (registerAllResources server) >>
     did (registerAllPrompts server) >>
     (if decide (transport = "stdio") then
        log_info "Using stdio transport" >>
        let* transportInstance := fresh in
        did (new_StdioServerTransport transportInstance) >>
        connect connect_result server transportInstance
      else if decide (transport = "websocket") then
        log_info (tpl [Lit "Using WebSocket transport on port "; Val port]) >>
        log_error "WebSocket transport not fully implemented yet" >>
        process_exit 1
      else
        throw (ThrownError (new_Error (tpl [Lit "Unsupported transport: "; Val transport])))) >>
     log_info "Server started successfully")
    (fun error =>
       log_error "Failed to start server" >>
       process_exit 1).

(** The module body: read the command line, set the log level, start.
    [port] stands for [`${port}`], the port argument after [parseInt].
    The start-up banner goes to the console only and is left out. *)
Definition main (args : list string) (port : string) : M Runtime unit :=
  modify (fun r => with_log (Logger.setLevel (level_of args) (the_log r)) r) >>
  startServer (transport_of args) port.

End Start.

End Index.

(* ================================================================== *)
(** * src/prompts/index.ts *)
(* ================================================================== *)

Module Prompts.

(** A message of a prompt result: [{ role, content: { type, text } }]. *)
Record PromptMessage := mkMessage { role : string; content : TextContent }.

(** [GetPromptResult] *)
Record GetPromptResult := mkPrompt {
  description : Template;
  messages : list PromptMessage
}.

(** [z.enum(['activate', 'close', 'minimize', 'maximize'])] *)
Inductive Action := activate | close | minimize | maximize.

(** [z.enum(['fullscreen', 'window', 'region'])] *)
Inductive Target := fullscreen | window | region.

Definition Target_string (t : Target) : string :=
  match t with
  | fullscreen => "fullscreen"
  | window => "window"
  | region => "region"
  end.

(** [`${value}`] for an optional string *)
Definition shown (value : option string) : string :=
  match value with
  | Some s => s
  | None => "undefined"
  end.

(** The prompt callbacks run on the logger alone. *)
#[global] Instance Logger_log : HasLog Logger.t := {|
  the_log := fun l => l;
  with_log := fun l _ => l
|}.

Definition findWindow (windowTitle : string) (action : Action) : M Logger.t GetPromptResult :=
  log_verbose "findWindow prompt called" >>
  let actionDescription :=
    match action with
    | activate => "activate (bring to front)"
    | close => "close"
    | minimize => "minimize"
    | maximize => "maximize"
    end in
  ret (mkPrompt
         [Lit ("Find a window with title " +:+ dq); Val windowTitle; Lit (dq +:+ " and ");
          Val actionDescription; Lit " it"]
         [mkMessage "user"
            (mkText "text"
               [Lit ("I need to find a window with the title " +:+ dq); Val windowTitle;
                Lit (dq +:+ " and "); Val actionDescription;
                Lit " it. Can you help me with the steps to do this using AutoIt functions?"])]).

Definition windowInfo (windowTitle : string) : M Logger.t GetPromptResult :=
  log_verbose "windowInfo prompt called" >>
  ret (mkPrompt
         [Lit ("Get information about a window with title " +:+ dq); Val windowTitle; Lit dq]
         [mkMessage "user"
            (mkText "text"
               [Lit ("I need to get information about a window with the title " +:+ dq);
                Val windowTitle;
                Lit (dq +:+ ". Can you help me retrieve details like its position, size, state, and text content using AutoIt functions?")])]).

Definition nl : string := String (Ascii.ascii_of_nat 10) EmptyString.

Definition fillForm (windowTitle formFields : string) : M Logger.t GetPromptResult :=
  log_verbose "fillForm prompt called" >>
  ret (mkPrompt
         [Lit ("Fill out a form in window " +:+ dq); Val windowTitle; Lit dq]
         [mkMessage "user"
            (mkText "text"
               [Lit ("I need to fill out a form in a window with the title " +:+ dq);
                Val windowTitle;
                Lit (dq +:+ ". The form has the following fields that need to be filled:"
                     +:+ nl +:+ nl);
                Val formFields;
                Lit (nl +:+ nl +:+
                     "Can you help me automate filling out this form using AutoIt functions?")])]).

Definition submitForm (windowTitle submitButtonText : string) : M Logger.t GetPromptResult :=
  log_verbose "submitForm prompt called" >>
  ret (mkPrompt
         [Lit ("Submit a form in window " +:+ dq); Val windowTitle; Lit dq]
         [mkMessage "user"
            (mkText "text"
               [Lit ("I need to submit a form in a window with the title " +:+ dq);
                Val windowTitle; Lit (dq +:+ " by clicking the " +:+ dq);
                Val submitButtonText;
                Lit (dq +:+ " button. Can you help me automate this using AutoIt functions?")])]).

Definition automateTask (taskDescription repetitions : string) : M Logger.t GetPromptResult :=
  log_verbose "automateTask prompt called" >>
  ret (mkPrompt
         [Lit "Automate a repetitive task: "; Val taskDescription]
         [mkMessage "user"
            (mkText "text"
               [Lit "I need to automate the following repetitive task "; Val repetitions;
                Lit (" times:" +:+ nl +:+ nl); Val taskDescription;
                Lit (nl +:+ nl +:+
                     "Can you help me create an automation script using AutoIt functions to accomplish this?")])]).

Definition monitorWindow (windowTitle condition : string) : M Logger.t GetPromptResult :=
  log_verbose "monitorWindow prompt called" >>
  ret (mkPrompt
         [Lit ("Monitor window " +:+ dq); Val windowTitle; Lit (dq +:+ " for condition: ");
          Val condition]
         [mkMessage "user"
            (mkText "text"
               [Lit ("I need to monitor a window with the title " +:+ dq); Val windowTitle;
                Lit (dq +:+ " and wait until the following condition is met: ");
                Val condition;
                Lit ". Can you help me create an automation script using AutoIt functions to accomplish this?"])]).

Definition takeScreenshot (target : Target) (windowTitle : option string)
  : M Logger.t GetPromptResult :=
  log_verbose "takeScreenshot prompt called" >>
  let promptText :=
    match target with
    | fullscreen => "I need to take a screenshot of the entire screen."
    | window =>
        match windowTitle with
        | Some title =>
            if truthy_str title
            then tpl [Lit ("I need to take a screenshot of a window with the title " +:+ dq);
                      Val title; Lit (dq +:+ ".")]
            else "I need to take a screenshot."
        | None => "I need to take a screenshot."
        end
    | region => "I need to take a screenshot of a specific region of the screen."
    end in
  ret (mkPrompt
         [Lit "Take a screenshot of ";
          Val (match target with
               | window => tpl [Lit ("window " +:+ dq); Val (shown windowTitle); Lit dq]
               | _ => Target_string target
               end)]
         [mkMessage "user"
            (mkText "text"
               [Val promptText; Lit " Can you help me do this using AutoIt functions?"])]).

(** A validated prompt request: the registered name with its arguments. *)
Inductive Request :=
| get_findWindow (windowTitle : string) (action : Action)
| get_windowInfo (windowTitle : string)
| get_fillForm (windowTitle formFields : string)
| get_submitForm (windowTitle submitButtonText : string)
| get_automateTask (taskDescription repetitions : string)
| get_monitorWindow (windowTitle condition : string)
| get_takeScreenshot (target : Target) (windowTitle : option string).

Definition prompt_name (r : Request) : string :=
  match r with
  | get_findWindow _ _ => "findWindow"
  | get_windowInfo _ => "windowInfo"
  | get_fillForm _ _ => "fillForm"
  | get_submitForm _ _ => "submitForm"
  | get_automateTask _ _ => "automateTask"
  | get_monitorWindow _ _ => "monitorWindow"
  | get_takeScreenshot _ _ => "takeScreenshot"
  end.

(** The callback registered under the request's name, applied to its
    arguments. *)
Definition get_prompt (r : Request) : M Logger.t GetPromptResult :=
  match r with
  | get_findWindow windowTitle action => findWindow windowTitle action
  | get_windowInfo windowTitle => windowInfo windowTitle
  | get_fillForm windowTitle formFields => fillForm windowTitle formFields
  | get_submitForm windowTitle submitButtonText => submitForm windowTitle submitButtonText
  | get_automateTask taskDescription repetitions => automateTask taskDescription repetitions
  | get_monitorWindow windowTitle condition => monitorWindow windowTitle condition
  | get_takeScreenshot target windowTitle => takeScreenshot target windowTitle
  end.

(** The wire text of the messages of a prompt result. *)
Definition message_texts (p : GetPromptResult) : list string :=
  map (fun m => tpl (text (content m))) (messages p).

End Prompts.
(* ================================================================== *)
(** * zod: the parameter schemas of src/utils/types.ts *)
(* ================================================================== *)

(** The fragment of the validation library the [schemas] object is built
    from.  A schema reads a raw argument, [None] standing for [undefined]
    (a key the caller left out), and gives the parsed value or the issue it
    found. *)
Module Zod.

Inductive Issue := invalid_type | too_small | too_big | invalid_enum_value.

Definition Schema (A : Type) : Type := option Json -> Issue + A.

(** [z.number()] *)
Definition number : Schema Z :=
  fun raw =>
    match raw with
    | Some (JNumber n) => inr n
    | _ => inl invalid_type
    end.

(** [z.string()] *)
Definition string_ : Schema string :=
  fun raw =>
    match raw with
    | Some (JString s) => inr s
    | _ => inl invalid_type
    end.

(** [.min(bound)] on a number schema *)
Definition min (bound : Z) (s : Schema Z) : Schema Z :=
  fun raw =>
    match s raw with
    | inr n => if n <? bound then inl too_small else inr n
    | inl issue => inl issue
    end.

(** [.max(bound)] on a number schema *)
Definition max (bound : Z) (s : Schema Z) : Schema Z :=
  fun raw =>
    match s raw with
    | inr n => if bound <? n then inl too_big else inr n
    | inl issue => inl issue
    end.

(** [z.enum(values)], read into [A] by [read]. *)
Definition enum {A} (read : string -> option A) : Schema A :=
  fun raw =>
    match raw with
    | Some (JString s) =>
        match read s with
        | Some a => inr a
        | None => inl invalid_enum_value
        end
    | _ => inl invalid_type
    end.

(** [.optional()]: [undefined] passes as it is. *)
Definition optional {A} (s : Schema A) : Schema (option A) :=
  fun raw =>
    match raw with
    | None => inr None
    | Some _ =>
        match s raw with
        | inr a => inr (Some a)
        | inl issue => inl issue
        end
    end.

(** [.default(value)]: [undefined] is replaced by [value] before the
    inner schema parses; what comes out is then never [undefined]. *)
Definition default_ {A} (value : Json) (s : Schema (option A)) : Schema A :=
  fun raw =>
    let data := match raw with None => value | Some v => v end in
    match s (Some data) with
    | inr (Some a) => inr a
    | inr None => inl invalid_type
    | inl issue => inl issue
    end.

End Zod.

(** The [schemas] object. *)
Module Schemas.

Definition read_button (s : string) : option MouseButton :=
  if decide (s = "left") then Some ButtonLeft
  else if decide (s = "right") then Some ButtonRight
  else if decide (s = "middle") then Some ButtonMiddle
  else None.

Definition windowTitle : Zod.Schema string := Zod.string_.
Definition windowText : Zod.Schema (option string) := Zod.optional Zod.string_.
Definition mouseButton : Zod.Schema MouseButton :=
  Zod.default_ (JString "left") (Zod.optional (Zod.enum read_button)).
Definition mouseSpeed : Zod.Schema Z :=
  Zod.default_ (JNumber 10) (Zod.optional (Zod.max 100 (Zod.min 1 Zod.number))).
Definition mouseX : Zod.Schema Z := Zod.number.
Definition mouseY : Zod.Schema Z := Zod.number.
Definition mouseClicks : Zod.Schema Z :=
  Zod.default_ (JNumber 1) (Zod.optional (Zod.min 1 Zod.number)).
Definition controlName : Zod.Schema string := Zod.string_.
Definition controlText : Zod.Schema string := Zod.string_.
Definition processName : Zod.Schema string := Zod.string_.
Definition processTimeout : Zod.Schema (option Z) := Zod.optional Zod.number.
Definition handle : Zod.Schema Z := Zod.number.
Definition bufferSize : Zod.Schema (option Z) := Zod.optional Zod.number.

End Schemas.
(** The five logging methods of [Logger] under one name each, to speak
    about sequences of calls. *)
Module LoggerCalls.

Inductive Method := Verbose | Debug | Info | Warn | Error_.

(** The [LogLevel] a method compares the logger's level with. *)
Definition rank (m : Method) : Z :=
  match m with
  | Verbose => Logger.VERBOSE
  | Debug => Logger.DEBUG
  | Info => Logger.INFO
  | Warn => Logger.WARN
  | Error_ => Logger.ERROR
  end.

(** The line a method writes when it writes. *)
Definition line (m : Method) (message : string) : Logger.Stream * string :=
  match m with
  | Verbose => (Logger.ConsoleLog, "[VERBOSE] " +:+ message)
  | Debug => (Logger.ConsoleLog, "[DEBUG] " +:+ message)
  | Info => (Logger.ConsoleLog, "[INFO] " +:+ message)
  | Warn => (Logger.ConsoleWarn, "[WARN] " +:+ message)
  | Error_ => (Logger.ConsoleError, "[ERROR] " +:+ message)
  end.

(** [log.<method>(message)] *)
Definition call (m : Method) (message : string) : Logger.t -> Logger.t :=
  match m with
  | Verbose => Logger.verbose message
  | Debug => Logger.debug message
  | Info => Logger.info message
  | Warn => Logger.warn message
  | Error_ => Logger.error message
  end.

(** The calls of a list, one after the other. *)
Definition calls (l : list (Method * string)) (lg : Logger.t) : Logger.t :=
  foldl (fun lg c => call (fst c) (snd c) lg) lg l.

End LoggerCalls.
(** The calls an adapter makes on its socket, among its effects. *)
Module Wire.

Import Server.

Definition is_socket_call (e : Effect) : bool :=
  match e with
  | ws_send _ _ | ws_close _ => true
  | _ => false
  end.

Definition socket_calls (l : list Effect) : list Effect := List.filter is_socket_call l.

End Wire.
(** Command-line arguments of the form [--name=value]. *)
Module Args.

(** The text of [s] before its first ['=']. *)
Fixpoint until_eq (s : string) : string :=
  match s with
  | EmptyString => EmptyString
  | String c rest =>
      if decide (c = Ascii.ascii_of_nat 61) then EmptyString else String c (until_eq rest)
  end.

End Args.

(* ================================================================== *)
(** * Sample environments *)
(* ================================================================== *)

Module Sample.

(** A library in which every call returns, numbers being [n]. *)
Definition answering (n : Z) : AutoIt.Library :=
  fun t _ _ =>
    match t return Thrown + AutoIt.den t with
    | AutoIt.TVoid => inr tt
    | AutoIt.TNum => inr n
    | AutoIt.TStr => inr "text"
    | AutoIt.TRect => inr (Rect.mk 0 0 800 600)
    | AutoIt.TPoint => inr (Point.mk 10 20)
    end.

(** A library whose [clipGet] throws [e]; every other call returns. *)
Definition failing_clipGet (e : Thrown) : AutoIt.Library :=
  fun t h c =>
    match c with
    | AutoIt.clipGet _ => inl e
    | _ => answering 1 t h c
    end.

(** A world at verbose level in which nothing has happened yet. *)
Definition world : Tools.World := Tools.mkWorld (Logger.mk Logger.VERBOSE []) [].

(** The suffix of a path from its last dot, or [''] without a dot. *)
Fixpoint extname (s : string) : string :=
  match s with
  | EmptyString => EmptyString
  | String c rest =>
      match extname rest with
      | EmptyString => if decide (c = Ascii.ascii_of_nat 46) then s else EmptyString
      | e => e
      end
  end.

(** [toLowerCase] on the letters A to Z. *)
Fixpoint lower (s : string) : string :=
  match s with
  | EmptyString => EmptyString
  | String c rest =>
      let n := Ascii.nat_of_ascii c in
      String (if (65 <=? n)%nat && (n <=? 90)%nat then Ascii.ascii_of_nat (n + 32) else c)
             (lower rest)
  end.

(** A file system with one directory, [C:/logs], and a file at every
    other path, and buffers shown byte by byte whatever the encoding. *)
Definition node : Node.Api :=
  Node.mkApi
    (fun p => inr (Node.mkStats (bool_decide (p = "C:/logs"))))
    (fun _ => inr ["server.log"; "old"])
    (fun _ => inr [Byte.x6f; Byte.x6b])
    (fun a b => a +:+ "/" +:+ b)
    extname
    (fun _ b => String.string_of_list_byte b)
    lower.

(** An adapter on socket [7] to which the protocol layer has attached
    callbacks that return. *)
Definition attached : Server.State :=
  Server.mkState
    (Server.mkTransport (Some 7%nat) "k3x9q0"
       (Some (fun _ => inr tt)) (Some (fun _ => inr tt)) (Some (fun _ => inr tt)))
    [] Logger.initial.

(** A request in the protocol's wire format. *)
Definition request : Json :=
  JObject [("jsonrpc", JString "2.0"); ("id", JNumber 1);
           ("method", JString "tools/call");
           ("params", JObject [("name", JString "winActivate");
                               ("arguments", JObject [("title", JString "Notepad")])])].

(** A [server.connect] that always returns, and session identifiers. *)
Definition connects : nat -> nat -> Thrown + unit := fun _ _ => inr tt.
Definition session_ids : nat -> string := fun n => "s" +:+ num (Z.of_nat n).

End Sample.

(* ================================================================== *)
(** * Further sample environments *)
(* ================================================================== *)

Module Fixtures.

(** The fault of a path that does not exist. *)
Definition ENOENT : Thrown :=
  ThrownError (mkError "Error" "ENOENT: no such file or directory").

(** The fault of an entry that may not be looked at. *)
Definition EACCES : Thrown :=
  ThrownError (mkError "Error" "EACCES: permission denied").

(** The file system of [Sample.node], except that [C:/missing] does not
    exist, the entry [old] of [C:/logs] cannot be looked at and
    [C:/locked.txt] cannot be read. *)
Definition node : Node.Api :=
  Node.mkApi
    (fun p =>
       if decide (p = "C:/missing") then inl ENOENT
       else if decide (p = "C:/logs/old") then inl EACCES
       else inr (Node.mkStats (bool_decide (p = "C:/logs"))))
    (fun _ => inr ["server.log"; "old"])
    (fun p => if decide (p = "C:/locked.txt") then inl EACCES else inr [Byte.x6f; Byte.x6b])
    (fun a b => a +:+ "/" +:+ b)
    Sample.extname
    (fun _ b => String.string_of_list_byte b)
    Sample.lower.

(** An adapter on socket [7] whose message callback throws and whose
    other callbacks return. *)
Definition refusing : Server.State :=
  Server.mkState
    (Server.mkTransport (Some 7%nat) "k3x9q0"
       (Some (fun _ => inr tt)) (Some (fun _ => inr tt))
       (Some (fun _ => inl (ThrownValue "busy"))))
    [] Logger.initial.

End Fixtures.

(* ================================================================== *)
(** * The operation registry: envelopes *)
(* ================================================================== *)

Create HintDb handlers.
#[global] Hint Unfold Tools.mouseMove Tools.mouseClick Tools.mouseClickDrag Tools.mouseDown Tools.mouseUp Tools.mouseGetPos Tools.mouseGetCursor Tools.mouseWheel Tools.send Tools.clipGet Tools.clipPut Tools.autoItSetOption Tools.opt Tools.toolTip Tools.winActivate Tools.winActivateByHandle Tools.winActive Tools.winClose Tools.winExists Tools.winGetHandle Tools.winGetPos Tools.winGetText Tools.winGetTitle Tools.winMove Tools.winSetState Tools.winWait Tools.winWaitActive Tools.winWaitClose Tools.run Tools.runWait Tools.runAs Tools.runAsWait Tools.processExists Tools.processClose Tools.processSetPriority Tools.processWait Tools.processWaitClose Tools.shutdown Tools.controlClick Tools.controlClickByHandle Tools.controlCommand Tools.controlGetText Tools.controlSetText Tools.controlSend Tools.controlFocus Tools.controlGetHandle Tools.controlGetPos Tools.controlMove Tools.controlShow Tools.controlHide : handlers.

Section ToolEnvelopes.

Variable lib : AutoIt.Library.

(** The common body of the handlers, run: the log line, [init], the
    delegated call, and then either the [catch] block or the rest. *)
Lemma tool_body (called nm : string) (t : AutoIt.RTy) (c : AutoIt.Call t)
    (k : AutoIt.den t -> M Tools.World CallToolResult) (w : Tools.World) :
  let lg := Logger.verbose called (Tools.log w) in
  let w1 := Tools.mkWorld lg (Tools.calls w ++ [AutoIt.any AutoIt.init])%list in
  let w2 := Tools.mkWorld lg (Tools.calls w ++ [AutoIt.any AutoIt.init; AutoIt.any c])%list in
  try_catch (log_verbose called >> Tools.autoIt lib AutoIt.init >>
             let* a := Tools.autoIt lib c in k a) (Tools.failed nm) w =
  match lib AutoIt.TVoid (Tools.calls w) AutoIt.init with
  | inl e => Tools.failed nm e w1
  | inr _ =>
      match lib t (Tools.calls w ++ [AutoIt.any AutoIt.init])%list c with
      | inl e => Tools.failed nm e w2
      | inr a => try_catch (k a) (Tools.failed nm) w2
      end
  end.
Proof.
  destruct w as [lg cs].
  unfold try_catch, bind, log_verbose, modify, Tools.autoIt, ret; cbn.
  destruct (lib AutoIt.TVoid cs AutoIt.init) as [e|[]]; cbn; [reflexivity|].
  rewrite <- app_assoc; cbn.
  destruct (lib t _ c); reflexivity.
Qed.

(** Opens a request up to the two answers of the library. *)
Ltac open_handler r w :=
  destruct r; cbn [Tools.handle Tools.delegated]; autounfold with handlers;
  rewrite tool_body; unfold AutoIt.any; cbv zeta;
  (destruct (lib AutoIt.TVoid (Tools.calls w) AutoIt.init) as [?e|[]];
   [| match goal with |- context [lib ?t ?h ?c] => destruct (lib t h c) as [?e|?a] end]).

(** Whatever the library does, a handler returns: the error envelope of
    the fault when [init] or the delegated call throws, an envelope
    without the error flag otherwise. *)
Lemma handle_returns (r : Request.t) (w : Tools.World) :
  exists env w', Tools.handle lib r w = (Return env, w') /\
    match Tools.answer lib r w with
    | inl fault => env = createErrorResponse (error_or_string fault)
    | inr _ => isError env = None
    end.
Proof.
  unfold Tools.answer.
  open_handler r w; do 2 eexists; split; reflexivity.
Qed.

(** The text of an error envelope is ["Error: "] followed by the message. *)
Lemma error_envelope (fault : Thrown) :
  isError (createErrorResponse (error_or_string fault)) = Some true /\
  texts (createErrorResponse (error_or_string fault))
    = ["Error: " +:+ message_or_string fault].
Proof. destruct fault; split; reflexivity. Qed.

(** C3. Every handler invocation returns exactly one envelope and lets no
    exception out: the outcome is a [Return] for every library, request and
    world.  When [init] or the delegated call throws, the envelope carries
    the error flag and its text is ["Error: "] followed by the fault's
    message (its string form when the fault is not an [Error]); for
    [clipGet] and a fault that reads ["access denied"] the text is
    ["Error: access denied"]. *)
Theorem handler_returns_one_envelope (r : Request.t) (w : Tools.World) :
  exists env w',
    Tools.handle lib r w = (Return env, w') /\
    (forall fault, Tools.answer lib r w = inl fault ->
       isError env = Some true /\
       texts env = ["Error: " +:+ message_or_string fault]) /\
    (forall bufSize fault,
       r = Request.clipGet bufSize ->
       Tools.answer lib r w = inl fault ->
       message_or_string fault = "access denied" ->
       isError env = Some true /\ texts env = ["Error: access denied"]).
Proof.
  destruct (handle_returns r w) as (env & w' & Hrun & Hans).
  exists env, w'. split; [exact Hrun|].
  assert (Hfault : forall fault, Tools.answer lib r w = inl fault ->
            isError env = Some true /\
            texts env = ["Error: " +:+ message_or_string fault]).
  { intros fault Hf. rewrite Hf in Hans. subst env. apply error_envelope. }
  split; [exact Hfault|].
  intros bufSize fault _ Hf Hmsg.
  destruct (Hfault fault Hf) as [Hflag Htext].
  split; [exact Hflag|]. rewrite Htext, Hmsg. reflexivity.
Qed.

End ToolEnvelopes.

(** C3, on a library whose [clipGet] throws the string ["access denied"]. *)
Lemma handler_returns_one_envelope_witness :
  exists env w',
    Tools.handle (Sample.failing_clipGet (ThrownValue "access denied"))
                 (Request.clipGet None) Sample.world = (Return env, w') /\
    isError env = Some true /\ texts env = ["Error: access denied"].
Proof.
  destruct (handler_returns_one_envelope
              (Sample.failing_clipGet (ThrownValue "access denied"))
              (Request.clipGet None) Sample.world) as (env & w' & Hrun & _ & Hclip).
  exists env, w'. split; [exact Hrun|].
  apply (Hclip None (ThrownValue "access denied")); reflexivity.
Defined.

(** The two examples of handler output the specification gives. *)
Example winActivate_Notepad_activated :
  exists env w',
    Tools.handle (Sample.answering 1) (Request.winActivate "Notepad" None) Sample.world
      = (Return env, w') /\
    texts env = ["Window " +:+ dq +:+ "Notepad" +:+ dq +:+ " activated with result: 1"] /\
    isError env = None.
Proof. do 2 eexists. repeat split. Qed.

Example processExists_notepad_absent :
  exists env w',
    Tools.handle (Sample.answering 0) (Request.processExists "notepad.exe") Sample.world
      = (Return env, w') /\
    texts env = ["Process " +:+ dq +:+ "notepad.exe" +:+ dq +:+ " does not exist"] /\
    isError env = None.
Proof. do 2 eexists. repeat split. Qed.




Section ToolPhrasing.

Variables lib1 lib2 : AutoIt.Library.



End ToolPhrasing.


(* ================================================================== *)
(** * The resources *)
(* ================================================================== *)

Section ScreenshotResource.

Variable lib : AutoIt.Library.
Variable uri : string.
Variable window : option Resources.Variable_.
Variable w : Tools.World.

(** C9. Once [init] has returned, the screenshot handler does one of three
    things.  With a window name for which [winExists] returns a number
    other than [0], it calls [winActivate] on that name and, when that
    returns, returns one text item, the placeholder.  With a window name
    for which [winExists] returns [0], it throws (["Failed to take
    screenshot: Window ... not found"]) without activating anything.
    Without a window name it asks for no window at all and returns the
    placeholder for the full screen. *)
Theorem screenshot_by_window_name :
  lib AutoIt.TVoid (Tools.calls w) AutoIt.init = inr tt ->
  let exists_ name := AutoIt.winExists name None in
  let activate name := AutoIt.winActivate name None in
  let asked := (Tools.calls w ++ [AutoIt.any AutoIt.init])%list in
  (forall name code result,
     Resources.named (Resources.windowName window) = Some name ->
     lib AutoIt.TNum asked (exists_ name) = inr code ->
     code <> 0 ->
     lib AutoIt.TNum (asked ++ [AutoIt.any (exists_ name)])%list (activate name) = inr result ->
     exists w',
       Resources.screenshot lib uri window w = (Return (Resources.placeholder uri name), w') /\
       Tools.calls_made w w' [AutoIt.any AutoIt.init; AutoIt.any (exists_ name);
                      AutoIt.any (activate name)]) /\
  (forall name,
     Resources.named (Resources.windowName window) = Some name ->
     lib AutoIt.TNum asked (exists_ name) = inr 0 ->
     exists w',
       Resources.screenshot lib uri window w
         = (Throw (ThrownError (new_Error
              ("Failed to take screenshot: Window " +:+ dq +:+ name +:+ dq +:+ " not found"))),
            w') /\
       Tools.calls_made w w' [AutoIt.any AutoIt.init; AutoIt.any (exists_ name)]) /\
  (Resources.named (Resources.windowName window) = None ->
     exists w',
       Resources.screenshot lib uri window w = (Return (Resources.placeholder uri "full screen"), w') /\
       Tools.calls_made w w' [AutoIt.any AutoIt.init]).
Proof.
  intros Hinit exists_ activate asked. subst exists_ activate asked.
  unfold Tools.calls_made, Resources.placeholder. destruct w as [lg cs]. cbn in *.
  unfold Resources.screenshot, try_catch, bind, Tools.autoIt, log_verbose, log_error,
    modify, throw, ret. cbn. rewrite Hinit. cbn.
  split; [|split].
  - intros name code result Hname Hex Hne Hact. rewrite Hname. cbn.
    rewrite Hex. cbn.
    destruct (Z.eqb_spec code 0) as [->|_]; [contradiction|]. cbn.
    rewrite <- !app_assoc. cbn. rewrite <- !app_assoc in Hact. cbn in Hact.
    rewrite Hact. cbn.
    eexists. split; reflexivity.
  - intros name Hname Hex. rewrite Hname. cbn. rewrite Hex. cbn.
    rewrite <- !app_assoc. cbn.
    eexists. split; [unfold dq; cbn; reflexivity | reflexivity].
  - intros Hname. rewrite Hname. cbn.
    eexists. split; reflexivity.
Qed.

End ScreenshotResource.

(** C9, on the window ["Notepad"] and a library for which it exists. *)
Lemma screenshot_by_window_name_witness :
  exists w',
    Resources.screenshot (Sample.answering 1) "screenshot://Notepad"
      (Some (Resources.One "Notepad")) Sample.world
    = (Return (Resources.placeholder "screenshot://Notepad" "Notepad"), w') /\
    Tools.calls_made Sample.world w'
      [AutoIt.any AutoIt.init; AutoIt.any (AutoIt.winExists "Notepad" None);
       AutoIt.any (AutoIt.winActivate "Notepad" None)].
Proof.
  destruct (screenshot_by_window_name (Sample.answering 1) "screenshot://Notepad"
              (Some (Resources.One "Notepad")) Sample.world eq_refl) as [Hnamed _].
  apply (Hnamed "Notepad" 1 1); [reflexivity | reflexivity | lia | reflexivity].
Defined.

Section FileResource.

Variable node : Node.Api.
Variable uri : string.
Variable path : Resources.Variable_.
Variable w : Tools.World.

Abbreviation filePath := (Resources.filePath path).
Abbreviation extension := (Resources.extension node path).

(** C10. For a path that is not a directory and can be read, the file
    resource returns exactly one content item.  It has a [text] field (the
    bytes as UTF-8) when the lower-cased extension is in the text list and
    a [blob] field (the bytes as base64) otherwise; its MIME type is the
    table's entry for the extension, [application/octet-stream] when there
    is none, which is the case for [.log], [.ini], [.bat] and the other
    text extensions the table does not list. *)
Theorem file_content_by_extension (content : Node.Buffer) :
  Node.fs_stat node filePath = inr (Node.mkStats false) ->
  Node.fs_readFile node filePath = inr content ->
  (exists w',
     Resources.file node uri path w =
       (Return (Resources.mkRead
                  [Resources.mkContent uri
                     (if bool_decide (extension ∈ Resources.textExtensions)
                      then Resources.text (Node.Buffer_toString node Node.utf8 content)
                      else Resources.blob (Node.Buffer_toString node Node.base64 content))
                     (Resources.getMimeType extension)]),
        w')) /\
  (Resources.mimeTypes !! extension = None ->
     Resources.getMimeType extension = "application/octet-stream") /\
  (extension ∈ Resources.untyped_text_extensions ->
     exists w',
       Resources.file node uri path w =
         (Return (Resources.mkRead
                    [Resources.mkContent uri
                       (Resources.text (Node.Buffer_toString node Node.utf8 content))
                       "application/octet-stream"]),
          w')).
Proof.
  intros Hstat Hread.
  assert (Hrun : exists w',
     Resources.file node uri path w =
       (Return (Resources.mkRead
                  [Resources.mkContent uri
                     (if bool_decide (extension ∈ Resources.textExtensions)
                      then Resources.text (Node.Buffer_toString node Node.utf8 content)
                      else Resources.blob (Node.Buffer_toString node Node.base64 content))
                     (Resources.getMimeType extension)]),
        w')).
  { unfold Resources.file, try_catch, bind, log_verbose, modify, lift, ret.
    fold filePath.
    rewrite Hstat. cbn. rewrite Hread. cbn.
    fold extension.
    destruct (bool_decide (extension ∈ Resources.textExtensions)); eexists; reflexivity. }
  split; [exact Hrun|]. split.
  - intros Hnone. unfold Resources.getMimeType. rewrite Hnone. reflexivity.
  - intros Hin. destruct Hrun as [w' Hrun]. exists w'. rewrite Hrun.
    unfold Resources.untyped_text_extensions in Hin.
    repeat (apply elem_of_cons in Hin; destruct Hin as [->|Hin]);
      try reflexivity.
    apply elem_of_nil in Hin. contradiction.
Qed.

End FileResource.

(** C10, on [C:/app/SERVER.LOG]: text, served as [application/octet-stream]. *)
Lemma file_content_by_extension_witness :
  exists w',
    Resources.file Sample.node "file:///C:/app/SERVER.LOG"
      (Resources.Many ["C:"; "app"; "SERVER.LOG"]) Sample.world =
      (Return (Resources.mkRead
                 [Resources.mkContent "file:///C:/app/SERVER.LOG"
                    (Resources.text "ok") "application/octet-stream"]),
       w').
Proof.
  destruct (file_content_by_extension Sample.node "file:///C:/app/SERVER.LOG"
              (Resources.Many ["C:"; "app"; "SERVER.LOG"]) Sample.world
              [Byte.x6f; Byte.x6b] eq_refl eq_refl) as (_ & _ & Hlog).
  apply Hlog. apply (bool_decide_unpack _). vm_compute. exact I.
Defined.

(* ================================================================== *)
(** * The JSON codec model: parsing undoes printing *)
(* ================================================================== *)

Section JsonRoundTrip.

Import JsonText.

(** Texts are built by appending to known prefixes; let [cbn] see through. *)
Local Arguments String.append : simpl nomatch.

(** Decides the tests on known characters that [cbn] leaves alone, and
    moves on through white-space skipping and appends. *)
Ltac known_char :=
  match goal with
  | |- context [is_ws ?c] =>
      let b := eval vm_compute in (is_ws c) in
      match b with
      | true => change (is_ws c) with true
      | false => change (is_ws c) with false
      end
  | |- context [Nat.eqb (code ?c) ?n] =>
      let b := eval vm_compute in (Nat.eqb (code c) n) in
      match b with
      | true => change (Nat.eqb (code c) n) with true
      | false => change (Nat.eqb (code c) n) with false
      end
  end.

Ltac known_chars :=
  cbn [String.append skip_ws];
  repeat (known_char; cbv iota; cbn [String.append skip_ws]).

(** Uses a fact about a text after bringing it to the same form. *)
Ltac read H := cbn [String.append] in H; rewrite H.

Lemma append_assoc (a b c : string) : (a +:+ b) +:+ c = a +:+ (b +:+ c).
Proof. induction a as [|x a IH]; cbn; [reflexivity | rewrite IH; reflexivity]. Qed.

Lemma length_append (a b : string) :
  String.length (a +:+ b) = (String.length a + String.length b)%nat.
Proof. induction a as [|x a IH]; cbn; [reflexivity | rewrite IH; reflexivity]. Qed.

Lemma stringify_array (items : list Json) :
  stringify (JArray items) = "[" +:+ elements items.
Proof. reflexivity. Qed.

Lemma stringify_object (members : list (string * Json)) :
  stringify (JObject members) = "{" +:+ pairs members.
Proof. reflexivity. Qed.

(** ** Strings *)

Lemma parse_chars_escape (s rest : string) (q : Ascii.ascii) :
  code q = 34%nat ->
  parse_chars (escape s +:+ String q rest) = Some (s, rest).
Proof.
  intros Hq. induction s as [|c s IH].
  - cbn. rewrite Hq. reflexivity.
  - cbn [escape]. rewrite append_assoc.
    destruct c as [[] [] [] [] [] [] [] []];
      match goal with
      | |- context [escape_char ?c] =>
          let e := eval vm_compute in (escape_char c) in
          change (escape_char c) with e
      end;
      cbn; rewrite IH; reflexivity.
Qed.

Lemma parse_chars_quote (s rest : string) :
  exists body, quote s +:+ rest = String (chr 34) body /\
               parse_chars body = Some (s, rest).
Proof.
  exists (escape s +:+ String (chr 34) rest). split.
  - unfold quote. rewrite !append_assoc. reflexivity.
  - apply parse_chars_escape. reflexivity.
Qed.

(** ** Numbers *)

Lemma number_token_all (tok rest : string) :
  Forall (fun c => number_char c = true) (String.list_ascii_of_string tok) ->
  match rest with
  | EmptyString => True
  | String c _ => number_char c = false
  end ->
  number_token (tok +:+ rest) = (tok, rest).
Proof.
  intros Htok Hrest. induction tok as [|c tok IH]; cbn.
  - destruct rest as [|c r]; [reflexivity|]. cbn.
    unfold number_char in Hrest. rewrite Hrest. reflexivity.
  - cbn in Htok. apply Forall_cons in Htok as [Hc Htok].
    unfold number_char in Hc. rewrite Hc, (IH Htok). reflexivity.
Qed.

Lemma uint_chars (d : Decimal.uint) :
  Forall (fun c => number_char c = true) (String.list_ascii_of_string (NilEmpty.string_of_uint d)).
Proof. induction d; cbn; constructor; try assumption; reflexivity. Qed.

Lemma num_chars (n : Z) :
  Forall (fun c => number_char c = true) (String.list_ascii_of_string (num n)).
Proof.
  unfold num, NilZero.string_of_int, NilZero.string_of_uint.
  destruct n as [|p|p]; cbn [Z.to_int].
  - repeat constructor.
  - destruct (Pos.to_uint p) eqn:Hp; try apply uint_chars. repeat constructor.
  - constructor; [reflexivity|].
    destruct (Pos.to_uint p) eqn:Hp; try apply uint_chars. repeat constructor.
Qed.

Lemma int_of_num (n : Z) : NilZero.int_of_string (num n) = Some (Z.to_int n).
Proof.
  unfold num. apply NilZero.isi.
  - destruct n as [|p|p]; cbn; try discriminate.
    intros H. injection H as H. exact (Unsigned.to_uint_nonnil p H).
  - destruct n as [|p|p]; cbn; try discriminate.
    intros H. injection H as H. exact (Unsigned.to_uint_nonnil p H).
Qed.

Lemma parse_number_num (n : Z) (rest : string) :
  delimited rest -> parse_number (num n +:+ rest) = Some (n, rest).
Proof.
  intros Hrest. unfold parse_number.
  rewrite (number_token_all (num n) rest (num_chars n)).
  - rewrite int_of_num, DecimalZ.of_to.
    rewrite bool_decide_eq_true_2 by reflexivity. cbn [orb].
    destruct rest as [|c r]; [reflexivity|]. cbn in Hrest.
    destruct Hrest as [-> | [-> | ->]]; reflexivity.
  - destruct rest as [|c r]; [exact I|]. cbn in Hrest. unfold number_char, is_digit.
    destruct Hrest as [-> | [-> | ->]]; reflexivity.
Qed.

(** The text of a number starts with a digit or a minus sign. *)
Lemma num_head (n : Z) :
  exists c body, num n = String c body /\ number_char c = true.
Proof.
  pose proof (num_chars n) as Hall.
  destruct (num n) as [|c body] eqn:Hn.
  - exfalso. pose proof (int_of_num n) as Hint. rewrite Hn in Hint. discriminate.
  - cbn in Hall. apply Forall_cons in Hall as [Hc _]. eauto.
Qed.

(** ** Values *)

Lemma number_char_dispatch (c : Ascii.ascii) :
  number_char c = true ->
  is_ws c = false /\
  (code c =? 110)%nat = false /\ (code c =? 116)%nat = false /\
  (code c =? 102)%nat = false /\ (code c =? 34)%nat = false /\
  (code c =? 91)%nat = false /\ (code c =? 123)%nat = false /\
  (code c =? 93)%nat = false /\ (code c =? 125)%nat = false.
Proof.
  destruct c as [[] [] [] [] [] [] [] []]; intros H; try discriminate H;
    repeat split; reflexivity.
Qed.

(** The text of a value starts with a character that is neither white
    space nor a closing bracket or brace. *)
Lemma stringify_head (v : Json) (tail : string) :
  exists c body,
    stringify v +:+ tail = String c body /\
    is_ws c = false /\ (code c =? 93)%nat = false /\ (code c =? 125)%nat = false.
Proof.
  destruct v as [|[]|n|s|items|members]; try (do 2 eexists; repeat split; fail).
  destruct (num_head n) as (c & body & Hn & Hc).
  destruct (number_char_dispatch c Hc) as (Hws & _ & _ & _ & _ & _ & _ & H93 & H125).
  cbn [stringify]. rewrite Hn. exists c, (body +:+ tail). repeat split; assumption.
Qed.

Lemma delimited_comma (rest : string) : delimited ("," +:+ rest).
Proof. left. reflexivity. Qed.

Lemma delimited_bracket (rest : string) : delimited ("]" +:+ rest).
Proof. right. left. reflexivity. Qed.

Lemma delimited_brace (rest : string) : delimited ("}" +:+ rest).
Proof. right. right. reflexivity. Qed.

Lemma items_read_back (items : list Json) :
  Forall reads_back items ->
  items <> [] ->
  forall fuel rest,
    (need_items items <= fuel)%nat ->
    parse_items fuel (elements items +:+ rest) = Some (items, rest).
Proof.
  induction 1 as [|x l Hx Hl IH]; [congruence|]. intros _ fuel rest Hfuel.
  destruct fuel as [|fuel]; [cbn in Hfuel; lia|].
  cbn [need_items] in Hfuel.
  destruct l as [|y l'].
  - cbn [elements parse_items]. rewrite append_assoc.
    pose proof (Hx fuel ("]" +:+ rest) ltac:(lia) (delimited_bracket rest)) as Hv.
    known_chars. read Hv. known_chars. reflexivity.
  - change (elements (x :: y :: l')) with (stringify x +:+ "," +:+ elements (y :: l')).
    cbn [parse_items]. rewrite !append_assoc.
    pose proof (Hx fuel ("," +:+ elements (y :: l') +:+ rest) ltac:(lia)
                  (delimited_comma _)) as Hv.
    known_chars. read Hv. known_chars.
    rewrite IH by (try discriminate; cbn [need_items] in *; lia).
    reflexivity.
Qed.

Lemma members_read_back (members : list (string * Json)) :
  Forall (fun kv => reads_back (snd kv)) members ->
  members <> [] ->
  forall fuel rest,
    (need_members members <= fuel)%nat ->
    parse_members fuel (pairs members +:+ rest) = Some (members, rest).
Proof.
  induction 1 as [|[k x] l Hx Hl IH]; [congruence|]. intros _ fuel rest Hfuel.
  destruct fuel as [|fuel]; [cbn in Hfuel; lia|].
  cbn [need_members snd] in Hfuel. cbn [snd] in Hx.
  destruct l as [|y l'].
  - cbn [pairs parse_members]. rewrite !append_assoc.
    destruct (parse_chars_quote k (":" +:+ stringify x +:+ "}" +:+ rest))
      as (body & -> & Hkey).
    pose proof (Hx fuel ("}" +:+ rest) ltac:(lia) (delimited_brace rest)) as Hv.
    known_chars. read Hkey. known_chars. read Hv. known_chars. reflexivity.
  - change (pairs ((k, x) :: y :: l'))
      with (quote k +:+ ":" +:+ stringify x +:+ "," +:+ pairs (y :: l')).
    cbn [parse_members]. rewrite !append_assoc.
    destruct (parse_chars_quote k (":" +:+ stringify x +:+ "," +:+ pairs (y :: l') +:+ rest))
      as (body & -> & Hkey).
    pose proof (Hx fuel ("," +:+ pairs (y :: l') +:+ rest) ltac:(lia)
                  (delimited_comma _)) as Hv.
    known_chars. read Hkey. known_chars. read Hv. known_chars.
    rewrite IH by (try discriminate; cbn [need_members] in *; lia).
    reflexivity.
Qed.

Lemma need_array (items : list Json) : need (JArray items) = S (need_items items).
Proof. reflexivity. Qed.

Lemma need_object (members : list (string * Json)) :
  need (JObject members) = S (need_members members).
Proof. reflexivity. Qed.

Lemma value_reads_back (v : Json) : reads_back v.
Proof.
  induction v as [| b | n | s | items IH | members IH] using Json_nested_ind;
    intros fuel rest Hfuel Hrest;
    (destruct fuel as [|fuel]; [cbn in Hfuel; lia|]).
  - reflexivity.
  - destruct b; reflexivity.
  - cbn [stringify parse_value].
    destruct (num_head n) as (c & body & Hn & Hc).
    destruct (number_char_dispatch c Hc)
      as (Hws & H110 & H116 & H102 & H34 & H91 & H123 & _ & _).
    rewrite Hn. cbn [String.append skip_ws]. rewrite Hws, H110, H116, H102, H34, H91, H123.
    change (String c (body +:+ rest)) with (String c body +:+ rest).
    rewrite <- Hn, (parse_number_num n rest Hrest). reflexivity.
  - cbn [stringify parse_value].
    destruct (parse_chars_quote s rest) as (body & -> & Hbody).
    known_chars. read Hbody. reflexivity.
  - rewrite stringify_array. rewrite need_array in Hfuel.
    destruct items as [|x items']; [reflexivity|].
    assert (Hhead : exists c body,
               elements (x :: items') +:+ rest = String c body /\
               is_ws c = false /\ (code c =? 93)%nat = false).
    { destruct items' as [|y items''].
      - cbn [elements]. rewrite append_assoc.
        destruct (stringify_head x ("]" +:+ rest)) as (c1 & b1 & -> & Hws & H93 & _).
        eauto.
      - change (elements (x :: y :: items''))
          with (stringify x +:+ "," +:+ elements (y :: items'')).
        rewrite !append_assoc.
        destruct (stringify_head x ("," +:+ elements (y :: items'') +:+ rest))
          as (c1 & b1 & -> & Hws & H93 & _).
        eauto. }
    destruct Hhead as (c1 & b1 & Hel & Hws & H93).
    pose proof (items_read_back (x :: items') IH ltac:(discriminate) fuel rest ltac:(lia))
      as Hitems.
    cbn [parse_value]. rewrite append_assoc. known_chars.
    rewrite Hitems, Hel. cbn [skip_ws]. rewrite Hws, H93. reflexivity.
  - rewrite stringify_object. rewrite need_object in Hfuel.
    destruct members as [|[k x] members']; [reflexivity|].
    assert (Hhead : exists body,
               pairs ((k, x) :: members') +:+ rest = String (chr 34) body).
    { destruct members' as [|y members''].
      - cbn [pairs]. unfold quote. rewrite !append_assoc. eexists. reflexivity.
      - change (pairs ((k, x) :: y :: members''))
          with (quote k +:+ ":" +:+ stringify x +:+ "," +:+ pairs (y :: members'')).
        unfold quote. rewrite !append_assoc. eexists. reflexivity. }
    destruct Hhead as (b1 & Hel).
    pose proof (members_read_back ((k, x) :: members') IH ltac:(discriminate) fuel rest
                  ltac:(lia)) as Hmembers.
    cbn [parse_value]. rewrite append_assoc. known_chars.
    rewrite Hmembers, Hel. known_chars. reflexivity.
Qed.

Lemma append_nil_r (s : string) : s +:+ EmptyString = s.
Proof. induction s as [|c s IH]; cbn; [reflexivity | rewrite IH; reflexivity]. Qed.

(** The text of a value is long enough to serve as fuel. *)
Lemma need_le_length (v : Json) : (need v <= String.length (stringify v))%nat.
Proof.
  induction v as [| b | n | s | items IH | members IH] using Json_nested_ind.
  - cbn. lia.
  - destruct b; cbn; lia.
  - destruct (num_head n) as (c & body & Hn & _). cbn [stringify need].
    rewrite Hn. cbn. lia.
  - cbn [stringify need]. unfold quote. rewrite !length_append. cbn. lia.
  - rewrite stringify_array, need_array. cbn [String.append String.length].
    apply le_n_S.
    induction IH as [|x l Hx Hl IHl]; [cbn; lia|].
    destruct l as [|y l'].
    + cbn [need_items elements]. rewrite length_append. cbn. lia.
    + change (elements (x :: y :: l')) with (stringify x +:+ "," +:+ elements (y :: l')).
      cbn [need_items] in *. rewrite !length_append. cbn [String.length]. lia.
  - rewrite stringify_object, need_object. cbn [String.append String.length].
    apply le_n_S.
    induction IH as [|[k x] l Hx Hl IHl]; [cbn; lia|]. cbn [snd] in Hx.
    destruct l as [|y l'].
    + cbn [need_members pairs snd]. rewrite !length_append. cbn. lia.
    + change (pairs ((k, x) :: y :: l'))
        with (quote k +:+ ":" +:+ stringify x +:+ "," +:+ pairs (y :: l')).
      cbn [need_members snd] in *. rewrite !length_append. cbn [String.length]. lia.
Qed.

(** [JSON.parse(JSON.stringify(v))] is [v], for every value of the model. *)
Theorem parse_stringify (v : Json) : parse (stringify v) = inr v.
Proof.
  unfold parse.
  pose proof (value_reads_back v (S (String.length (stringify v))) EmptyString) as Hread.
  rewrite append_nil_r in Hread. rewrite Hread; [reflexivity| |exact I].
  pose proof (need_le_length v). lia.
Qed.

End JsonRoundTrip.

(* ================================================================== *)
(** * The socket transport adapter *)
(* ================================================================== *)

Section AdapterFacts.

Import Server.

Variable JSON_stringify : Json -> string.
Variable JSON_parse : string -> Thrown + Json.

Abbreviation step := (Server.step JSON_stringify JSON_parse).
Abbreviation run := (Server.run JSON_stringify JSON_parse).
Abbreviation send := (Server.send JSON_stringify).
Abbreviation on_message := (Server.on_message JSON_parse).

(** Unfolds the adapter's code down to the state it works on. *)
Ltac adapter :=
  unfold Server.step, Server.on_message, Server.on_close, Server.on_error,
    Server.start, Server.send, Server.close, Server.call_onmessage,
    Server.call_onerror, Server.call_onclose, Server.emit, Server.set_ws,
    log_info, try_catch, bind, get, modify, lift, throw, ret, with_log, the_log,
    Server.State_log in *;
  cbn in *.

(** Counts over the effects a step appended. *)
Ltac counting :=
  unfold count in *; cbn in *; rewrite ?List.filter_app, ?length_app; cbn; lia.

Lemma count_snoc {A} (p : A -> bool) (l : list A) (a : A) :
  count p (l ++ [a]) = (count p l + (if p a then 1 else 0))%nat.
Proof.
  unfold count. rewrite List.filter_app, length_app. cbn.
  destruct (p a); reflexivity.
Qed.

(** A step never changes the callbacks or the session identifier, and it
    either leaves the socket reference alone or clears it. *)
Lemma step_keeps (st : Step) (s : State) :
  let s' := snd (step st s) in
  onclose (this s') = onclose (this s) /\
  onerror (this s') = onerror (this s) /\
  onmessage (this s') = onmessage (this s) /\
  sessionId (this s') = sessionId (this s) /\
  (ws (this s') = ws (this s) \/ ws (this s') = None).
Proof.
  destruct s as [[sock sid oc oe om] eff lg].
  destruct st; adapter.
  - destruct (JSON_parse data) as [e|m]; cbn.
    + destruct oe as [f|]; cbn; [destruct (f _)|]; cbn; auto 10.
    + destruct om as [g|]; cbn; [destruct (g m) as [e|[]]|]; cbn; auto 10.
      destruct oe as [f|]; cbn; [destruct (f _)|]; cbn; auto 10.
  - destruct oc as [f|]; cbn; [destruct (f tt)|]; cbn; auto 10.
  - destruct oe as [f|]; cbn; [destruct (f error)|]; cbn; auto 10.
  - auto 10.
  - destruct sock; cbn; auto 10.
  - destruct sock; cbn; auto 10.
Qed.

(** Closed is for good: no step sets the socket reference again. *)
Lemma closed_stays_closed (steps : list Step) (s : State) :
  ws (this s) = None -> ws (this (snd (run steps s))) = None.
Proof.
  revert s. induction steps as [|st rest IH]; intros s Hclosed; [exact Hclosed|].
  cbn [Server.run]. unfold bind.
  pose proof (step_keeps st s) as (_ & _ & _ & _ & Hws). cbn zeta in Hws.
  destruct (step st s) as [[[]|e|n] s1] eqn:Hstep; cbn in *;
    try (destruct Hws as [Hws|Hws]; congruence).
  apply IH. destruct Hws as [Hws|Hws]; congruence.
Qed.

(** [send] on a closed adapter: a rejected promise and nothing written. *)
Lemma send_when_closed (message : Json) (s : State) :
  ws (this s) = None ->
  send message s =
    (Return (Settled (Rejected (ThrownError (new_Error "WebSocket not connected")))), s).
Proof. intros Hclosed. adapter. rewrite Hclosed. reflexivity. Qed.

Lemma close_clears (s : State) : ws (this (snd (Server.close s))) = None.
Proof.
  destruct s as [[sock sid oc oe om] eff lg]. adapter. destruct sock; reflexivity.
Qed.

Lemma on_close_clears (s : State) : ws (this (snd (Server.on_close s))) = None.
Proof.
  destruct s as [[sock sid oc oe om] eff lg]. adapter.
  destruct oc as [f|]; cbn; [destruct (f tt)|]; reflexivity.
Qed.

(** C4. A frame that does not parse: the error callback is called once,
    with an error that names the parse failure, the message callback is
    not called, and the adapter's fields, its socket reference among them,
    are as before.  When the error callback returns, the next frame is
    parsed and delivered as usual. *)
Theorem malformed_frame_reported_once (s : State) (data : RawData) (fault : Thrown)
    (report : Error -> Thrown + unit) :
  JSON_parse data = inl fault ->
  onerror (this s) = Some report ->
  let error := new_Error ("Failed to parse message: " +:+ String_of fault) in
  let s' := snd (on_message data s) in
  effects s' = (effects s ++ [called_onerror error])%list /\
  count is_called_onerror (effects s') = S (count is_called_onerror (effects s)) /\
  count is_called_onmessage (effects s') = count is_called_onmessage (effects s) /\
  this s' = this s /\
  (forall data' message deliver,
     report error = inr tt ->
     JSON_parse data' = inr message ->
     onmessage (this s) = Some deliver ->
     deliver message = inr tt ->
     run [SocketMessage data; SocketMessage data'] s =
       (Return tt,
        mkState (this s)
                (effects s ++ [called_onerror error; called_onmessage message])
                (log s))).
Proof.
  intros Hparse Hreport error s'. subst s' error.
  destruct s as [[sock sid oc oe om] eff lg]. cbn in Hreport. subst oe.
  assert (Hrun : on_message data (mkState (mkTransport sock sid oc (Some report) om) eff lg)
          = (match report (new_Error ("Failed to parse message: " +:+ String_of fault)) with
             | inl e => Throw e
             | inr a => Return a
             end,
             mkState (mkTransport sock sid oc (Some report) om)
                     (eff ++ [called_onerror
                                (new_Error ("Failed to parse message: " +:+ String_of fault))])
                     lg)).
  { adapter. rewrite Hparse. cbn. destruct (report _); reflexivity. }
  rewrite Hrun. cbn [snd effects this].
  split; [reflexivity|]. split; [rewrite count_snoc; cbn; lia|].
  split; [rewrite count_snoc; cbn; lia|]. split; [reflexivity|].
  intros data' message deliver Hret Hparse' Hdeliver Hok. cbn in Hdeliver. subst om.
  cbn [Server.run Server.step]. unfold bind at 1. rewrite Hrun, Hret.
  adapter. rewrite Hparse'. cbn. rewrite Hok. cbn.
  rewrite <- app_assoc. reflexivity.
Qed.

(** C5. After [close()], and after the socket's close event, every [send]
    returns a rejected promise and writes nothing, whatever happened in
    between.  On an open adapter [send] hands the JSON text of the message
    to the socket and returns a promise that stays pending until the write
    completes: it resolves when the write reports no error and rejects
    with the write's error otherwise. *)
Theorem send_rejects_once_closed (s : State) (message : Json) :
  (forall steps,
     let closed := snd (run steps (snd (Server.close s))) in
     send message closed =
       (Return (Settled (Rejected (ThrownError (new_Error "WebSocket not connected")))),
        closed)) /\
  (forall steps,
     let closed := snd (run steps (snd (Server.on_close s))) in
     send message closed =
       (Return (Settled (Rejected (ThrownError (new_Error "WebSocket not connected")))),
        closed)) /\
  (forall socket,
     ws (this s) = Some socket ->
     send message s =
       (Return (Pending settle_send),
        mkState (this s) (effects s ++ [ws_send socket (JSON_stringify message)]) (log s)) /\
     settle_send None = Resolved /\
     (forall e, settle_send (Some e) = Rejected (ThrownError e))).
Proof.
  split; [|split].
  - intros steps closed. apply send_when_closed. subst closed.
    apply closed_stays_closed, close_clears.
  - intros steps closed. apply send_when_closed. subst closed.
    apply closed_stays_closed, on_close_clears.
  - intros socket Hopen. split; [|split; [reflexivity|intros e; reflexivity]].
    adapter. rewrite Hopen. reflexivity.
Qed.

(** One step that returns adds one close-callback call if it is the
    socket's close event, and none otherwise. *)
Lemma step_counts_onclose (st : Step) (s s1 : State) (notify : unit -> Thrown + unit) :
  onclose (this s) = Some notify ->
  step st s = (Return tt, s1) ->
  count is_called_onclose (effects s1) =
    (count is_called_onclose (effects s) + (if is_SocketClose st then 1 else 0))%nat.
Proof.
  destruct s as [[sock sid oc oe om] eff lg]. cbn. intros ->.
  destruct st; adapter.
  - destruct (JSON_parse data) as [e|m]; cbn.
    + destruct oe as [f|]; cbn; [destruct (f _)|]; cbn; intros; simplify_eq; counting.
    + destruct om as [g|]; cbn; [destruct (g m) as [e|[]]|]; cbn;
        try (destruct oe as [f|]; cbn; [destruct (f _)|]; cbn);
        intros; simplify_eq; counting.
  - destruct (notify tt); cbn; intros; simplify_eq; counting.
  - destruct oe as [f|]; cbn; [destruct (f error)|]; cbn; intros; simplify_eq; counting.
  - intros; simplify_eq; counting.
  - destruct sock; cbn; intros; simplify_eq; counting.
  - destruct sock; cbn; intros; simplify_eq; counting.
Qed.

(** Over a run that returns, the close callback is called once per close
    event of the socket; calls of [close()] add nothing. *)
Lemma run_counts_onclose (steps : list Step) :
  forall (s s' : State) (notify : unit -> Thrown + unit),
    onclose (this s) = Some notify ->
    run steps s = (Return tt, s') ->
    count is_called_onclose (effects s') =
      (count is_called_onclose (effects s) + count is_SocketClose steps)%nat.
Proof.
  induction steps as [|st rest IH]; intros s s' notify Hreg Hrun.
  - cbn in Hrun. unfold ret in Hrun. simplify_eq. unfold count at 3. cbn. lia.
  - cbn [Server.run] in Hrun. unfold bind in Hrun.
    destruct (step st s) as [[[]|e|n] s1] eqn:Hstep; try discriminate.
    pose proof (step_keeps st s) as (Hoc & _). rewrite Hstep in Hoc. cbn in Hoc.
    rewrite (IH s1 s' notify); [|congruence|exact Hrun].
    rewrite (step_counts_onclose st s s1 notify Hreg Hstep).
    unfold count at 4. cbn [List.filter]. destruct (is_SocketClose st); cbn;
      unfold count; lia.
Qed.

(** A run that returns and contains the socket's close event ends closed. *)
Lemma run_closes (steps : list Step) :
  forall (s s' : State),
    (0 < count is_SocketClose steps)%nat ->
    run steps s = (Return tt, s') ->
    ws (this s') = None.
Proof.
  induction steps as [|st rest IH]; intros s s' Hpos Hrun.
  - unfold count in Hpos. cbn in Hpos. lia.
  - cbn [Server.run] in Hrun. unfold bind in Hrun.
    destruct (step st s) as [[[]|e|n] s1] eqn:Hstep; try discriminate.
    destruct (is_SocketClose st) eqn:Hst.
    + destruct st; try discriminate. cbn [Server.step] in Hstep.
      pose proof (on_close_clears s) as Hc. rewrite Hstep in Hc. cbn in Hc.
      pose proof (closed_stays_closed rest s1 Hc) as Hc'. rewrite Hrun in Hc'. exact Hc'.
    + apply (IH s1 s'); [|exact Hrun].
      unfold count in *. cbn [List.filter] in Hpos. rewrite Hst in Hpos. exact Hpos.
Qed.

(** C6. In a run in which the socket's close event occurs once, the close
    callback is called exactly once, however often and wherever [close()]
    is called; at the end the socket reference is cleared, and it stays
    cleared: after any further steps [send] still rejects. *)
Theorem close_callback_exactly_once (steps : list Step) (s s' : State)
    (notify : unit -> Thrown + unit) :
  onclose (this s) = Some notify ->
  count is_SocketClose steps = 1%nat ->
  run steps s = (Return tt, s') ->
  count is_called_onclose (effects s') = S (count is_called_onclose (effects s)) /\
  ws (this s') = None /\
  (forall more message,
     let later := snd (run more s') in
     ws (this later) = None /\
     send message later =
       (Return (Settled (Rejected (ThrownError (new_Error "WebSocket not connected")))),
        later)).
Proof.
  intros Hreg Hone Hrun.
  assert (Hclosed : ws (this s') = None).
  { apply (run_closes steps s s'); [lia|exact Hrun]. }
  split; [|split; [exact Hclosed|]].
  - rewrite (run_counts_onclose steps s s' notify Hreg Hrun), Hone. lia.
  - intros more message later. subst later.
    pose proof (closed_stays_closed more s' Hclosed) as Hlater.
    split; [exact Hlater|]. apply send_when_closed, Hlater.
Qed.

(** The adapter adds nothing to the codec: for any codec whose [parse]
    undoes [stringify] on a message, what [send] writes for it is a frame
    from which the inbound listener delivers that same message. *)
Lemma frame_parses_back_any_codec (sender receiver : State) (message : Json)
    (socket : WebSocket) (deliver : Json -> Thrown + unit) :
  ws (this sender) = Some socket ->
  JSON_parse (JSON_stringify message) = inr message ->
  onmessage (this receiver) = Some deliver ->
  exists frame,
    effects (snd (send message sender)) = (effects sender ++ [ws_send socket frame])%list /\
    exists rest,
      effects (snd (on_message frame receiver))
        = (effects receiver ++ called_onmessage message :: rest)%list /\
      count is_called_onmessage rest = 0%nat /\
      (deliver message = inr tt -> rest = []).
Proof.
  intros Hopen Hcodec Hdeliver.
  exists (JSON_stringify message). split.
  - adapter. rewrite Hopen. reflexivity.
  - destruct receiver as [[sock sid oc oe om] eff lg]. cbn in Hdeliver. subst om.
    adapter. rewrite Hcodec. cbn.
    destruct (deliver message) as [e|[]]; cbn.
    + destruct oe as [f|]; cbn.
      * destruct (f _); cbn; rewrite <- app_assoc; eexists; (split; [reflexivity|]);
          (split; [reflexivity|discriminate]).
      * exists []. split; [reflexivity|]. split; [reflexivity|discriminate].
    + exists []. split; [reflexivity|]. split; reflexivity.
Qed.

End AdapterFacts.

(** C7. Round trip: for every message, the frame [send] writes on an open
    adapter is the JSON text of the message, and the inbound listener of an
    adapter that is handed this frame parses it and calls the message
    callback with a value equal to the message sent, once; the error
    callback is not called when the message callback returns. *)
Theorem sent_frame_parses_back (sender receiver : Server.State) (message : Json)
    (socket : Server.WebSocket) (deliver : Json -> Thrown + unit) :
  Server.ws (Server.this sender) = Some socket ->
  Server.onmessage (Server.this receiver) = Some deliver ->
  exists frame,
    frame = JsonText.stringify message /\
    Server.effects (snd (Server.send JsonText.stringify message sender))
      = (Server.effects sender ++ [Server.ws_send socket frame])%list /\
    exists rest,
      Server.effects (snd (Server.on_message JsonText.parse frame receiver))
        = (Server.effects receiver ++ Server.called_onmessage message :: rest)%list /\
      Server.count Server.is_called_onmessage rest = 0%nat /\
      (deliver message = inr tt -> rest = []).
Proof.
  intros Hopen Hdeliver.
  destruct (frame_parses_back_any_codec JsonText.stringify JsonText.parse
              sender receiver message socket deliver Hopen
              (parse_stringify message) Hdeliver)
    as (frame & Hsent & Hgot).
  exists (JsonText.stringify message).
  assert (Hframe : frame = JsonText.stringify message).
  { unfold Server.send, Server.emit, bind, get, modify, ret in Hsent.
    rewrite Hopen in Hsent. cbn in Hsent.
    apply app_inv_head in Hsent. injection Hsent as ->. reflexivity. }
  subst frame. split; [reflexivity|]. split; [exact Hsent | exact Hgot].
Qed.

(** C4, on the frame [{not json] and the sample adapter. *)
Lemma malformed_frame_reported_once_witness :
  Server.effects (snd (Server.on_message JsonText.parse "{not json" Sample.attached)) =
    [Server.called_onerror
       (new_Error "Failed to parse message: SyntaxError: Unexpected token in JSON")] /\
  Server.this (snd (Server.on_message JsonText.parse "{not json" Sample.attached)) =
    Server.this Sample.attached.
Proof.
  destruct (malformed_frame_reported_once JsonText.stringify JsonText.parse Sample.attached
              "{not json" JsonText.SyntaxError (fun _ => inr tt) eq_refl eq_refl)
    as (Heff & _ & _ & Hthis & _).
  split; [exact Heff | exact Hthis].
Defined.

(** C5, on the sample adapter, which is open on socket [7]. *)
Lemma send_rejects_once_closed_witness :
  Server.send JsonText.stringify Sample.request Sample.attached =
    (Return (Server.Pending Server.settle_send),
     Server.mkState (Server.this Sample.attached)
       [Server.ws_send 7%nat (JsonText.stringify Sample.request)]
       (Server.log Sample.attached)).
Proof.
  destruct (send_rejects_once_closed JsonText.stringify JsonText.parse Sample.attached
              Sample.request) as (_ & _ & Hopen).
  destruct (Hopen 7%nat eq_refl) as [Hsend _]. exact Hsend.
Defined.

(** C6, on a run that sends, calls [close()] and then sees the socket's
    close event. *)
Lemma close_callback_exactly_once_witness :
  exists s',
    Server.run JsonText.stringify JsonText.parse
      [Server.CallSend Sample.request; Server.CallClose; Server.SocketClose]
      Sample.attached = (Return tt, s') /\
    Server.count Server.is_called_onclose (Server.effects s') = 1%nat /\
    Server.ws (Server.this s') = None.
Proof.
  eexists. split; [reflexivity|].
  destruct (close_callback_exactly_once JsonText.stringify JsonText.parse
              [Server.CallSend Sample.request; Server.CallClose; Server.SocketClose]
              Sample.attached _ (fun _ => inr tt) eq_refl eq_refl eq_refl)
    as (Hcount & Hclosed & _).
  split; [exact Hcount | exact Hclosed].
Defined.

(** C7, on the sample request. *)
Lemma sent_frame_parses_back_witness :
  Server.effects (snd (Server.send JsonText.stringify Sample.request Sample.attached)) =
    [Server.ws_send 7%nat (JsonText.stringify Sample.request)] /\
  Server.effects (snd (Server.on_message JsonText.parse
                         (JsonText.stringify Sample.request) Sample.attached)) =
    [Server.called_onmessage Sample.request].
Proof.
  destruct (sent_frame_parses_back Sample.attached Sample.attached Sample.request
              7%nat (fun _ => inr tt) eq_refl eq_refl)
    as (frame & -> & Hsent & rest & Hgot & _ & Hrest).
  split; [exact Hsent|].
  rewrite Hgot, (Hrest eq_refl). reflexivity.
Defined.

(* ================================================================== *)
(** * The transport selector and the start-up *)
(* ================================================================== *)

Section SelectorFacts.

Import Server.

Variable connect_result : nat -> nat -> Thrown + unit.
Variable random_id : nat -> string.

Abbreviation setupServer := (Server.setupServer connect_result).
Abbreviation accept_all := (Server.accept_all connect_result random_id).

(** Unfolds the selector's code down to the runtime it works on. *)
Ltac selector :=
  unfold Server.setupServer, Server.accept, Server.on_connection, Server.connect,
    Server.McpServer, Server.fresh, Server.did, Server.store_adapter,
    Server.listen_for_connections, log_info, log_error,
    try_catch, bind, get, modify, lift, throw, ret, process_exit,
    with_log, the_log, Server.Runtime_log in *;
  cbn in *.

Lemma sessions_app (l1 l2 : list Sys) :
  sessions (l1 ++ l2) = (sessions l1 ++ sessions l2)%list.
Proof. unfold sessions. apply omap_app. Qed.

Lemma sessions_accepted (core n : nat) (sockets : list WebSocket) :
  sessions (accepted core n sockets) =
    zip (seq n (length sockets)) (replicate (length sockets) core).
Proof.
  revert n. induction sockets as [|socket rest IH]; intros n; [reflexivity|].
  cbn. f_equal. apply IH.
Qed.

Lemma count_accepted (core n : nat) (sockets : list WebSocket) :
  count is_new_McpServer (accepted core n sockets) = 0%nat.
Proof.
  revert n. induction sockets as [|socket rest IH]; intros n; [reflexivity|].
  unfold count in *. cbn. apply IH.
Qed.

(** Accepting connections one after the other: each gets a fresh adapter
    on its socket, connected to the core the listener captured; adapters
    that exist already are left alone. *)
Lemma accept_all_trace (h core : nat) (sockets : list WebSocket) :
  forall r r2,
    connection_listeners r !! h = Some core ->
    accept_all h sockets r = (Return tt, r2) ->
    sys r2 = (sys r ++ accepted core (next_object r) sockets)%list /\
    (forall t, (t < next_object r)%nat -> adapters r2 !! t = adapters r !! t) /\
    (forall i socket, sockets !! i = Some socket ->
       adapters r2 !! (next_object r + i)%nat
         = Some (new_ socket (random_id (next_object r + i)%nat))).
Proof.
  induction sockets as [|socket rest IH]; intros r r2 Hl Hrun.
  - cbn in Hrun. unfold ret in Hrun. simplify_eq. split; [|split].
    + cbn. rewrite app_nil_r. reflexivity.
    + reflexivity.
    + intros i socket Hi. rewrite lookup_nil in Hi. discriminate.
  - cbn [Server.accept_all] in Hrun. unfold bind at 1 in Hrun.
    destruct (accept connect_result random_id h socket r) as [[[]|e|n] r1] eqn:Hacc;
      try discriminate.
    destruct r as [lg n ads ls sy]. selector. rewrite Hl in Hacc. cbn in Hacc.
    destruct (connect_result core n) as [e|[]]; cbn in Hacc; try discriminate.
    simplify_eq.
    match type of Hrun with
    | Server.accept_all _ _ _ _ ?r1 = _ =>
        destruct (IH r1 r2 Hl Hrun) as (Hsys & Hold & Hnew)
    end.
    cbn in Hsys, Hold, Hnew. split; [|split].
    + rewrite Hsys. rewrite <- !app_assoc. reflexivity.
    + intros t Ht. rewrite Hold by lia. apply lookup_insert_ne. lia.
    + intros [|i] sock Hi; cbn in Hi.
      * simplify_eq. rewrite Nat.add_0_r. rewrite Hold by lia.
        apply lookup_insert_eq.
      * replace (n + S i)%nat with (S n + i)%nat by lia. apply Hnew. exact Hi.
Qed.

(** [setupServer] in socket mode, from a runtime in which nothing has been
    done yet. *)
Lemma setupServer_websocket (config : ServerConfig) (r : Runtime) :
  transport config = "websocket" ->
  sys r = [] ->
  exists r1 listening,
    setupServer config r =
      (Return (mkSetup (next_object r) (Some (S (next_object r)))), r1) /\
    connection_listeners r1 !! S (next_object r) = Some (next_object r) /\
    next_object r1 = S (S (S (next_object r))) /\
    adapters r1 = adapters r /\
    sys r1 = [new_McpServer (next_object r) (name config) (version config);
              createHttpServer (S (next_object r));
              new_WebSocketServer (S (S (next_object r))) (S (next_object r));
              wss_on_connection (S (S (next_object r)));
              httpServer_listen (S (next_object r)) listening].
Proof.
  intros Hws Hsys. destruct r as [lg n ads ls sy]. cbn in Hsys. subst sy.
  unfold Server.setupServer. rewrite Hws.
  destruct (decide ("websocket" = "stdio")) as [Hbad|_]; [discriminate Hbad|].
  destruct (decide ("websocket" = "websocket")) as [_|Hbad]; [|contradiction].
  unfold Server.McpServer, Server.fresh, Server.did, Server.listen_for_connections,
    log_info, bind, modify, ret, with_log, the_log, Server.Runtime_log.
  cbn -[insert].
  do 2 eexists. split; [reflexivity|]. cbn -[insert lookup].
  split; [apply lookup_insert_eq|]. repeat split.
Qed.

(** C1 as written fails: the connections on sockets [7] and [8] are both
    attached to the one [McpServer] that [setupServer] created. *)
Lemma sessions_share_the_core : ~ core_per_session.
Proof.
  intros claim.
  pose (config := mkConfig "automation" "1.0.0" "websocket" None).
  pose (r1 := snd (Server.setupServer Sample.connects config boot)).
  pose (r2 := snd (Server.accept_all Sample.connects Sample.session_ids 1 [7%nat; 8%nat] r1)).
  assert (Hsess : sessions (sys r2) = [(3%nat, 0%nat); (4%nat, 0%nat)])
    by (vm_compute; reflexivity).
  assert (Hnodup : NoDup (map snd (sessions (sys r2)))).
  { apply (claim Sample.connects Sample.session_ids config [7%nat; 8%nat]
                 (mkSetup 0 (Some 1%nat)) 1%nat r1 r2);
      [reflexivity | vm_compute; reflexivity | reflexivity | vm_compute; reflexivity]. }
  rewrite Hsess in Hnodup. cbn in Hnodup.
  apply NoDup_cons in Hnodup as [Hnotin _]. apply Hnotin. left.
Qed.

(** C1, as the code has it.  In socket mode [setupServer] creates one
    [McpServer] and returns it with the listening HTTP server.  Every
    connection accepted afterwards gets one new adapter of its own, on its
    own socket, and that adapter is connected to this one [McpServer]: the
    sessions are as many as the connections, their adapters are pairwise
    distinct, and their core is the same for all. *)
Theorem one_adapter_per_connection_one_core (config : ServerConfig) (r : Runtime)
    (sockets : list WebSocket) :
  transport config = "websocket" ->
  sys r = [] ->
  exists core h r1,
    setupServer config r = (Return (mkSetup core (Some h)), r1) /\
    forall r2,
      accept_all h sockets r1 = (Return tt, r2) ->
      count is_new_McpServer (sys r2) = 1%nat /\
      length (sessions (sys r2)) = length sockets /\
      map snd (sessions (sys r2)) = replicate (length sockets) core /\
      NoDup (map fst (sessions (sys r2))) /\
      (forall i socket,
         sockets !! i = Some socket ->
         exists t,
           map fst (sessions (sys r2)) !! i = Some t /\
           adapters r2 !! t = Some (new_ socket (random_id t))).
Proof.
  intros Hws Hsys.
  destruct (setupServer_websocket config r Hws Hsys)
    as (r1 & listening & Hsetup & Hl & Hnext & Hads & Hsys1).
  exists (next_object r), (S (next_object r)), r1. split; [exact Hsetup|].
  intros r2 Hacc.
  destruct (accept_all_trace _ _ sockets r1 r2 Hl Hacc) as (Hsys2 & _ & Hnew).
  assert (Hsess : sessions (sys r2) =
                  zip (seq (next_object r1) (length sockets))
                      (replicate (length sockets) (next_object r))).
  { rewrite Hsys2, sessions_app, Hsys1, sessions_accepted. reflexivity. }
  assert (Hfst : map fst (sessions (sys r2)) = seq (next_object r1) (length sockets)).
  { rewrite Hsess. apply fst_zip. rewrite length_seq, length_replicate. lia. }
  split; [|split; [|split; [|split]]].
  - rewrite Hsys2, Hsys1. unfold count. rewrite List.filter_app, length_app.
    fold (count is_new_McpServer (accepted (next_object r) (next_object r1) sockets)).
    rewrite count_accepted. reflexivity.
  - rewrite Hsess, length_zip, length_seq, length_replicate. lia.
  - rewrite Hsess. apply snd_zip. rewrite length_seq, length_replicate. lia.
  - rewrite Hfst. apply NoDup_seq.
  - intros i socket Hi. exists (next_object r1 + i)%nat. split.
    + rewrite Hfst. apply lookup_seq. split; [reflexivity|].
      apply lookup_lt_Some in Hi. exact Hi.
    + apply Hnew. exact Hi.
Qed.

End SelectorFacts.

(** C1 (amended), on the sockets [7] and [8]. *)
Lemma one_adapter_per_connection_one_core_witness :
  let config := Server.mkConfig "automation" "1.0.0" "websocket" (Some 3000) in
  let r1 := snd (Server.setupServer Sample.connects config Server.boot) in
  let r2 := snd (Server.accept_all Sample.connects Sample.session_ids 1
                   [7%nat; 8%nat] r1) in
  map snd (Server.sessions (Server.sys r2)) = [0%nat; 0%nat] /\
  NoDup (map fst (Server.sessions (Server.sys r2))).
Proof.
  intros config r1 r2.
  destruct (one_adapter_per_connection_one_core Sample.connects Sample.session_ids
              config Server.boot [7%nat; 8%nat] eq_refl eq_refl)
    as (core & h & r1' & Hsetup & Hafter).
  assert (Hrun : Server.setupServer Sample.connects config Server.boot
                 = (Return (Server.mkSetup 0 (Some 1%nat)), r1))
    by (vm_compute; reflexivity).
  rewrite Hrun in Hsetup. injection Hsetup as <- <- <-.
  destruct (Hafter r2) as (_ & _ & Hcores & Hdistinct & _);
    [vm_compute; reflexivity|].
  split; [exact Hcores | exact Hdistinct].
Defined.

Section StartFacts.

Import Server.

Variable connect_result : nat -> nat -> Thrown + unit.

(** C8. With a transport kind other than ["stdio"] and ["websocket"] the
    start-up creates the [McpServer], registers tools, resources and
    prompts on it, and then fails: nothing that opens a stream or a socket
    is done, the process exits with code [1], and that is the end of the
    run.  [setupServer] on such a kind throws the configuration error
    after having created the [McpServer] only. *)
Theorem unsupported_transport_exits (args : list string) (port : string) (r : Runtime) :
  Index.transport_of args <> "stdio" ->
  Index.transport_of args <> "websocket" ->
  (exists r',
     Index.main connect_result args port r = (Exit 1, r') /\
     sys r' = (sys r ++ [new_McpServer (next_object r) "Windows Desktop Automation" "1.0.0";
                         registerAllTools (next_object r);
                         registerAllResources (next_object r);
                         registerAllPrompts (next_object r)])%list /\
     Forall (fun e => opens_resource e = false) (drop (length (sys r)) (sys r'))) /\
  (forall config,
     transport config = Index.transport_of args ->
     exists r',
       Server.setupServer connect_result config r =
         (Throw (ThrownError (new_Error
                   ("Unsupported transport: " +:+ Index.transport_of args))), r') /\
       sys r' = (sys r ++ [new_McpServer (next_object r) (name config) (version config)])%list /\
       Forall (fun e => opens_resource e = false) (drop (length (sys r)) (sys r'))).
Proof.
  intros Hstdio Hws. destruct r as [lg n ads ls sy]. split.
  - unfold Index.main, Index.startServer.
    unfold Server.connect, Server.McpServer, Server.fresh, Server.did, log_info, log_error,
      try_catch, bind, get, modify, lift, throw, ret, process_exit, with_log, the_log,
      Server.Runtime_log.
    cbn.
    destruct (decide (Index.transport_of args = "stdio")) as [?|_]; [contradiction|].
    destruct (decide (Index.transport_of args = "websocket")) as [?|_]; [contradiction|].
    cbn. eexists. split; [reflexivity|]. cbn. split.
    + rewrite <- !app_assoc. reflexivity.
    + rewrite <- !app_assoc. rewrite drop_app_length. repeat constructor.
  - intros config Hcfg.
    unfold Server.setupServer, Server.connect, Server.McpServer, Server.fresh, Server.did,
      log_info, log_error, try_catch, bind, get, modify, lift, throw, ret, process_exit,
      with_log, the_log, Server.Runtime_log.
    cbn. rewrite Hcfg.
    destruct (decide (Index.transport_of args = "stdio")) as [?|_]; [contradiction|].
    destruct (decide (Index.transport_of args = "websocket")) as [?|_]; [contradiction|].
    cbn. eexists. split; [reflexivity|]. cbn. split; [reflexivity|].
    rewrite drop_app_length. repeat constructor.
Qed.

End StartFacts.

(** C8, on the command line [--transport=pipe]. *)
Lemma unsupported_transport_exits_witness :
  exists r',
    Index.main Sample.connects ["--transport=pipe"] "3000" Server.boot = (Exit 1, r') /\
    Forall (fun e => Server.opens_resource e = false) (Server.sys r').
Proof.
  destruct (unsupported_transport_exits Sample.connects ["--transport=pipe"] "3000"
              Server.boot) as [(r' & Hrun & _ & Hnone) _].
  - vm_compute. discriminate.
  - vm_compute. discriminate.
  - exists r'. split; [exact Hrun | exact Hnone].
Defined.

(* ================================================================== *)
(** * The operation registry: calls, log lines and wording *)
(* ================================================================== *)

Section ToolDiscipline.

Variable lib : AutoIt.Library.

(** Opens a request up to the two answers of the library. *)
Ltac open_request r :=
  destruct r; cbn [Tools.handle Tools.delegated Tools.tool_name];
  autounfold with handlers;
  rewrite !tool_body; unfold AutoIt.any; cbv zeta; cbn [Tools.calls Tools.log];
  (match goal with
   | |- context [lib AutoIt.TVoid ?h AutoIt.init] =>
       destruct (lib AutoIt.TVoid h AutoIt.init) as [?e|[]]
   end;
   [| match goal with |- context [lib ?t ?h ?c] => destruct (lib t h c) as [?e|?a] end]).

Ltac with_middle mid :=
  eexists _, _, mid; cbn;
  split; [reflexivity|]; cbn;
  split; [reflexivity|];
  split; [rewrite <- ?app_assoc; cbn; rewrite ?app_nil_r; reflexivity|].

(** X1. Every handler calls [init] first and then its own library
    function, once each and in this order, whatever was called before.
    When [init] throws, the library function of the request is not
    called.  No handler calls anything else. *)
Theorem handler_calls_init_then_delegate (r : Request.t) (w : Tools.World) :
  exists env w',
    Tools.handle lib r w = (Return env, w') /\
    Tools.calls_made w w'
      (match lib AutoIt.TVoid (Tools.calls w) AutoIt.init with
       | inl _ => [AutoIt.any AutoIt.init]
       | inr _ => [AutoIt.any AutoIt.init; Tools.delegated r]
       end).
Proof.
  unfold Tools.calls_made. destruct w as [lg cs].
  open_request r; do 2 eexists; split; reflexivity.
Qed.

(** X2. What a handler writes to the console.  It never changes the log
    level.  At the verbose level it first writes [[VERBOSE] <tool> called];
    the handlers that log their result then write [[VERBOSE] <tool> result],
    and only when the library call returned.  When [init] or the library
    call throws, the last line is [[ERROR] <tool> failed] on the error
    stream, unless the level is above [ERROR].  So at the default level a
    handler that succeeds writes nothing and one that fails writes that
    one line. *)
Theorem handler_console_lines (r : Request.t) (w : Tools.World) :
  let lv := Logger.level (Tools.log w) in
  exists env w' middle,
    Tools.handle lib r w = (Return env, w') /\
    Logger.level (Tools.log w') = lv /\
    Logger.console (Tools.log w') =
      (Logger.console (Tools.log w)
       ++ (if bool_decide (lv <= Logger.VERBOSE)
           then [(Logger.ConsoleLog, "[VERBOSE] " +:+ Tools.tool_name r +:+ " called")]
           else [])
       ++ middle
       ++ match Tools.answer lib r w with
          | inl _ =>
              if bool_decide (lv <= Logger.ERROR)
              then [(Logger.ConsoleError, "[ERROR] " +:+ Tools.tool_name r +:+ " failed")]
              else []
          | inr _ => []
          end)%list /\
    (middle = [] \/
     lv <= Logger.VERBOSE /\
     middle = [(Logger.ConsoleLog, "[VERBOSE] " +:+ Tools.tool_name r +:+ " result")] /\
     exists a, Tools.answer lib r w = inr a).
Proof.
  intros lv. subst lv. unfold Tools.answer.
  destruct w as [[lv out] cs].
  cbn [Tools.log Tools.calls Logger.level Logger.console].
  unfold Logger.VERBOSE, Logger.ERROR.
  destruct (decide (lv <= 0)) as [H0|H0]; destruct (decide (lv <= 4)) as [H4|H4];
    try lia;
    rewrite ?(bool_decide_eq_true_2 _ H0), ?(bool_decide_eq_false_2 _ H0),
      ?(bool_decide_eq_true_2 _ H4), ?(bool_decide_eq_false_2 _ H4);
    open_request r;
    unfold Tools.failed, try_catch, bind, log_error, log_verbose, modify, ret,
      Logger.verbose, Logger.error, Logger.write, Logger.VERBOSE, Logger.ERROR;
    cbn;
    rewrite ?(bool_decide_eq_true_2 _ H0), ?(bool_decide_eq_false_2 _ H0),
      ?(bool_decide_eq_true_2 _ H4), ?(bool_decide_eq_false_2 _ H4);
    cbn;
    first
      [ with_middle (@nil (Logger.Stream * string)); left; reflexivity
      | eexists _, _, [(Logger.ConsoleLog, _)]; cbn;
        split; [reflexivity|]; cbn;
        split; [reflexivity|];
        split; [rewrite <- ?app_assoc; cbn; reflexivity|];
        right; split; [lia|]; split; [reflexivity|]; eexists; reflexivity ].
Qed.

(** X3. The envelope of every handler, for a success as for a failure,
    has exactly one content item; its type is ["text"] and its text is not
    empty. *)
Theorem envelope_has_one_text_item (r : Request.t) (w : Tools.World) :
  exists env w' item,
    Tools.handle lib r w = (Return env, w') /\
    content env = [item] /\
    type item = "text" /\
    tpl (text item) <> "".
Proof.
  destruct w as [lg cs].
  open_request r;
    unfold Tools.failed, try_catch, bind, log_error, log_verbose, modify, ret; cbn;
    repeat match goal with
           | |- context [if ?b then _ else _] => destruct b
           end;
    do 3 eexists; (split; [reflexivity|]); cbn;
    (split; [reflexivity|]); (split; [reflexivity|]);
    intros Hempty; apply (f_equal String.length) in Hempty; cbn in Hempty;
    discriminate Hempty.
Qed.

(** X4. The logger has no influence on what a handler answers: with the
    same calls made so far, two runs that differ in the logger (its level,
    what it has written) return the same envelope and make the same calls
    on the library. *)
Theorem logger_does_not_influence_the_envelope (r : Request.t) (l1 l2 : Logger.t)
    (history : list AutoIt.AnyCall) :
  exists env w1 w2,
    Tools.handle lib r (Tools.mkWorld l1 history) = (Return env, w1) /\
    Tools.handle lib r (Tools.mkWorld l2 history) = (Return env, w2) /\
    Tools.calls w1 = Tools.calls w2.
Proof.
  open_request r;
    unfold Tools.failed, try_catch, bind, log_error, log_verbose, modify, ret; cbn;
    do 3 eexists; repeat split.
Qed.

End ToolDiscipline.

Section ToolEdges.

Variable lib : AutoIt.Library.
Variable w : Tools.World.

Abbreviation after_init := (Tools.calls w ++ [AutoIt.any AutoIt.init])%list.

(** Runs a handler whose two library calls return. *)
Ltac run_handler Hinit Hcall :=
  autounfold with handlers; rewrite tool_body; unfold AutoIt.any in *; cbv zeta;
  rewrite Hinit; cbn in Hcall |- *; rewrite Hcall;
  unfold try_catch, bind, log_verbose, modify, ret; cbn.

(** X5. [winMove] and [controlMove] hand [width] and [height] to the
    library as they are, but their text mentions the new size only when
    both are given and neither is [0]: the test is [width && height].  A
    resize to width [0] or height [0] is asked of the library and left out
    of the text. *)
Theorem resize_clause_needs_nonzero_size (title control : string) (text : option string)
    (x y : Z) (width height : option Z) (result : Z) :
  lib AutoIt.TVoid (Tools.calls w) AutoIt.init = inr tt ->
  (lib AutoIt.TNum after_init (AutoIt.winMove title text x y width height) = inr result ->
   exists env w',
     Tools.winMove lib title text x y width height w = (Return env, w') /\
     Tools.calls_made w w'
       [AutoIt.any AutoIt.init; AutoIt.any (AutoIt.winMove title text x y width height)] /\
     texts env =
       ["Window " +:+ dq +:+ title +:+ dq +:+ " moved to (" +:+ num x +:+ ", " +:+ num y
        +:+ ")" +:+ Tools.sizeInfo width height +:+ " with result: " +:+ num result]) /\
  (lib AutoIt.TNum after_init (AutoIt.controlMove title text control x y width height)
     = inr 1 ->
   exists env w',
     Tools.controlMove lib title text control x y width height w = (Return env, w') /\
     Tools.calls_made w w'
       [AutoIt.any AutoIt.init;
        AutoIt.any (AutoIt.controlMove title text control x y width height)] /\
     texts env =
       ["Control " +:+ dq +:+ control +:+ dq +:+ " moved to (" +:+ num x +:+ ", " +:+ num y
        +:+ ")" +:+ Tools.sizeInfo width height]) /\
  (Tools.sizeInfo width height = "" <->
   width = None \/ width = Some 0 \/ height = None \/ height = Some 0) /\
  (forall wv hv,
     width = Some wv -> height = Some hv -> wv <> 0 -> hv <> 0 ->
     Tools.sizeInfo width height = " and resized to " +:+ num wv +:+ "x" +:+ num hv).
Proof.
  intros Hinit. split; [|split; [|split]].
  - intros Hcall. run_handler Hinit Hcall.
    do 2 eexists. split; [reflexivity|]. split.
    + unfold Tools.calls_made. cbn. rewrite <- ?app_assoc. reflexivity.
    + reflexivity.
  - intros Hcall. run_handler Hinit Hcall.
    do 2 eexists. split; [reflexivity|]. split.
    + unfold Tools.calls_made. cbn. rewrite <- ?app_assoc. reflexivity.
    + reflexivity.
  - unfold Tools.sizeInfo, truthy_num.
    destruct width as [wv|], height as [hv|]; cbn;
      try (split; [auto | reflexivity]).
    destruct (Z.eqb_spec wv 0) as [->|Hw], (Z.eqb_spec hv 0) as [->|Hh]; cbn;
      try (split; [auto | reflexivity]).
    split; [intros Hempty; apply (f_equal String.length) in Hempty; cbn in Hempty;
            discriminate Hempty|].
    intros [Hbad|[Hbad|[Hbad|Hbad]]]; congruence.
  - intros wv hv -> -> Hw Hh. unfold Tools.sizeInfo, truthy_num.
    destruct (Z.eqb_spec wv 0); [contradiction|].
    destruct (Z.eqb_spec hv 0); [contradiction|]. reflexivity.
Qed.

(** X6. [toolTip] mentions the position in its text exactly when both
    coordinates are given; the test is [!== undefined], so the position
    [(0, 0)] is mentioned. *)
Theorem toolTip_position_clause (text : string) (x y : option Z) :
  lib AutoIt.TVoid (Tools.calls w) AutoIt.init = inr tt ->
  lib AutoIt.TVoid after_init (AutoIt.toolTip text x y) = inr tt ->
  exists env w',
    Tools.toolTip lib text x y w = (Return env, w') /\
    isError env = None /\
    texts env =
      ["Tooltip displayed: " +:+ dq +:+ text +:+ dq +:+
       match x, y with
       | Some xv, Some yv => " at position (" +:+ num xv +:+ ", " +:+ num yv +:+ ")"
       | _, _ => ""
       end] /\
    (x = Some 0 -> y = Some 0 ->
     texts env = ["Tooltip displayed: " +:+ dq +:+ text +:+ dq +:+ " at position (0, 0)"]).
Proof.
  intros Hinit Hcall. run_handler Hinit Hcall.
  do 2 eexists. split; [reflexivity|]. split; [reflexivity|]. split.
  - destruct x, y; reflexivity.
  - intros -> ->. reflexivity.
Qed.

(** X7. [opt] is [autoItSetOption] under another name: when the library
    gives both functions the same result, the two tools return the same
    envelope; they differ in the library function they call. *)
Theorem opt_answers_as_autoItSetOption (option : string) (value result : Z) :
  lib AutoIt.TVoid (Tools.calls w) AutoIt.init = inr tt ->
  lib AutoIt.TNum after_init (AutoIt.opt option value) = inr result ->
  lib AutoIt.TNum after_init (AutoIt.autoItSetOption option value) = inr result ->
  exists env w1 w2,
    Tools.handle lib (Request.opt option value) w = (Return env, w1) /\
    Tools.handle lib (Request.autoItSetOption option value) w = (Return env, w2) /\
    Tools.calls_made w w1 [AutoIt.any AutoIt.init; AutoIt.any (AutoIt.opt option value)] /\
    Tools.calls_made w w2
      [AutoIt.any AutoIt.init; AutoIt.any (AutoIt.autoItSetOption option value)] /\
    texts env =
      ["AutoIt option " +:+ dq +:+ option +:+ dq +:+ " set to " +:+ num value
       +:+ " with result: " +:+ num result].
Proof.
  intros Hinit Hopt Hset. cbn [Tools.handle]. autounfold with handlers.
  rewrite !tool_body. unfold AutoIt.any in *. cbv zeta. rewrite Hinit, Hopt, Hset.
  unfold try_catch, ret, Tools.calls_made. cbn.
  do 3 eexists. rewrite <- ?app_assoc. repeat split.
Qed.

End ToolEdges.

(** X5, on a move of ["Notepad"] with width [0]: the size is left out. *)
Lemma resize_clause_needs_nonzero_size_witness :
  exists env w',
    Tools.winMove (Sample.answering 1) "Notepad" None 10 20 (Some 0) (Some 600) Sample.world
      = (Return env, w') /\
    texts env = ["Window " +:+ dq +:+ "Notepad" +:+ dq +:+ " moved to (10, 20) with result: 1"].
Proof.
  destruct (resize_clause_needs_nonzero_size (Sample.answering 1) Sample.world
              "Notepad" "Edit1" None 10 20 (Some 0) (Some 600) 1 eq_refl)
    as (Hwin & _ & _ & _).
  destruct (Hwin eq_refl) as (env & w' & Hrun & _ & Htext).
  exists env, w'. split; [exact Hrun|]. rewrite Htext. reflexivity.
Defined.

(** X6, on a tooltip at the origin. *)
Lemma toolTip_position_clause_witness :
  exists env w',
    Tools.toolTip (Sample.answering 1) "Saved" (Some 0) (Some 0) Sample.world
      = (Return env, w') /\
    texts env = ["Tooltip displayed: " +:+ dq +:+ "Saved" +:+ dq +:+ " at position (0, 0)"].
Proof.
  destruct (toolTip_position_clause (Sample.answering 1) Sample.world
              "Saved" (Some 0) (Some 0) eq_refl eq_refl)
    as (env & w' & Hrun & _ & _ & Horigin).
  exists env, w'. split; [exact Hrun|]. apply Horigin; reflexivity.
Defined.

(** X7, on the option [MouseCoordMode]. *)
Lemma opt_answers_as_autoItSetOption_witness :
  exists env w1 w2,
    Tools.handle (Sample.answering 1) (Request.opt "MouseCoordMode" 2) Sample.world
      = (Return env, w1) /\
    Tools.handle (Sample.answering 1) (Request.autoItSetOption "MouseCoordMode" 2) Sample.world
      = (Return env, w2).
Proof.
  destruct (opt_answers_as_autoItSetOption (Sample.answering 1) Sample.world
              "MouseCoordMode" 2 1 eq_refl eq_refl eq_refl)
    as (env & w1 & w2 & Hopt & Hset & _).
  exists env, w1, w2. split; [exact Hopt | exact Hset].
Defined.


(* ================================================================== *)
(** * The resources: listings and faults *)
(* ================================================================== *)

Section PromiseAll.

Context {A B C : Type}.
Variable g : A -> Thrown + B.
Variable h : A -> B -> C.

(** [Promise.all] over callbacks that make one fallible call each: all
    of them return, or the first fault in order is the outcome. *)
Lemma Promise_all_first_fault (l : list A) (v : Tools.World) :
  (exists results,
     Resources.Promise_all (fun a => let* b := lift (g a) in ret (h a b)) l v
       = (Return results, v) /\
     Forall (fun a => exists b, g a = inr b) l) \/
  (exists before a rest fault,
     l = (before ++ a :: rest)%list /\
     Forall (fun a => exists b, g a = inr b) before /\
     g a = inl fault /\
     Resources.Promise_all (fun a => let* b := lift (g a) in ret (h a b)) l v
       = (Throw fault, v)).
Proof.
  induction l as [|a rest IH].
  - left. exists []. split; [reflexivity | constructor].
  - cbn [Resources.Promise_all].
    destruct (g a) as [fault|b] eqn:Hg.
    + right. exists [], a, rest, fault.
      unfold bind, lift, throw. cbn beta. rewrite ?Hg. repeat split; auto.
    + destruct IH as [(results & Hrun & Hall)
                     |(before & f & post & fault & -> & Hall & Hf & Hrun)].
      * left. exists (h a b :: results).
        unfold bind, lift, ret in *. cbn beta. rewrite ?Hg, Hrun. split; [reflexivity|].
        constructor; eauto.
      * right. exists (a :: before), f, post, fault.
        unfold bind, lift, ret in *. cbn beta. rewrite ?Hg, Hrun.
        repeat split; auto. constructor; eauto.
Qed.



End PromiseAll.

Section FileFaults.

Variable node : Node.Api.
Variable uri : string.
Variable path : Resources.Variable_.
Variable w : Tools.World.

Abbreviation filePath := (Resources.filePath path).
Abbreviation newline := (String (Ascii.ascii_of_nat 10) EmptyString).
Abbreviation readable := (fun file : string =>
  exists st, Node.fs_stat node (Node.path_join node filePath file) = inr st).
Abbreviation failure fault :=
  (ThrownError (new_Error ("Failed to read file: " +:+ message_or_string fault))).

(** The world once the handler has logged its first line. *)
Abbreviation entered :=
  (Tools.mkWorld (Logger.verbose "Reading file resource" (Tools.log w)) (Tools.calls w)).
(** The world once the handler has logged the fault. *)
Abbreviation reported :=
  (Tools.mkWorld (Logger.error "Error reading file resource"
                    (Logger.verbose "Reading file resource" (Tools.log w)))
                 (Tools.calls w)).

Abbreviation entries_of := (Resources.Promise_all
  (fun file =>
     let fullPath := Node.path_join node filePath file in
     let* fileStats := lift (Node.fs_stat node fullPath) in
     ret (Resources.mkEntry
            (tpl [Lit "file://"; Val (Resources.backslashes_to_slashes fullPath)])
            file
            (if Node.isDirectory fileStats then "Directory" else "File")))).

Abbreviation listing files :=
  (Resources.mkRead
     [Resources.mkContent uri
        (Resources.text ("Directory: " +:+ filePath +:+ newline
                         +:+ Resources.join newline files))
        "text/plain"]).

(** The file handler, step by step. *)
Lemma file_run :
  Resources.file node uri path w =
    match Node.fs_stat node filePath with
    | inl fault => (Throw (failure fault), reported)
    | inr stats =>
        if Node.isDirectory stats then
          match Node.fs_readdir node filePath with
          | inl fault => (Throw (failure fault), reported)
          | inr files =>
              match entries_of files entered with
              | (Return _, v) => (Return (listing files), v)
              | (Throw fault, v) =>
                  (Throw (failure fault),
                   Tools.mkWorld (Logger.error "Error reading file resource" (Tools.log v))
                                 (Tools.calls v))
              | (Exit code, v) => (Exit code, v)
              end
          end
        else
          match Node.fs_readFile node filePath with
          | inl fault => (Throw (failure fault), reported)
          | inr content =>
              let extension := Resources.extension node path in
              (Return (Resources.mkRead
                         [Resources.mkContent uri
                            (if bool_decide (extension ∈ Resources.textExtensions)
                             then Resources.text (Node.Buffer_toString node Node.utf8 content)
                             else Resources.blob (Node.Buffer_toString node Node.base64 content))
                            (Resources.getMimeType extension)]),
               entered)
          end
    end.
Proof.
  unfold Resources.file, Resources.extension, try_catch, bind, log_verbose, log_error,
    modify, lift, throw, ret.
  fold filePath. cbn [with_log the_log Tools.World_log Tools.log Tools.calls].
  destruct (Node.fs_stat node filePath) as [fault|[[|]]]; cbn [Node.isDirectory];
    [reflexivity| |].
  - destruct (Node.fs_readdir node filePath) as [fault|files]; [reflexivity|].
    match goal with
    | |- context [Resources.Promise_all ?f files ?v] =>
        destruct (Resources.Promise_all f files v) as [[entries|fault|code] v']
    end; reflexivity.
  - destruct (Node.fs_readFile node filePath) as [fault|content]; [reflexivity|].
    cbv zeta. case_bool_decide; reflexivity.
Qed.


(** X9. The file handler either returns exactly one content item, under
    the URI it was asked for, or throws an [Error] whose message is
    [Failed to read file: ] followed by the message of the fault (its
    string form when the fault is not an [Error]), after one call of
    [log.error].  It never ends the process, never lets a fault of the
    file system through as it is, and never calls the automation
    library. *)
Theorem file_returns_or_wraps_the_fault :
  (exists item,
     Resources.file node uri path w = (Return (Resources.mkRead [item]), entered) /\
     Resources.uri item = uri) \/
  (exists fault,
     Resources.file node uri path w = (Throw (failure fault), reported)).
Proof.
  rewrite file_run.
  destruct (Node.fs_stat node filePath) as [fault|[[|]]]; cbn [Node.isDirectory].
  - right. exists fault. reflexivity.
  - destruct (Node.fs_readdir node filePath) as [fault|files].
    + right. exists fault. reflexivity.
    + destruct (Promise_all_first_fault
                  (fun file => Node.fs_stat node (Node.path_join node filePath file))
                  (fun file fileStats =>
                     Resources.mkEntry
                       (tpl [Lit "file://";
                             Val (Resources.backslashes_to_slashes
                                    (Node.path_join node filePath file))])
                       file
                       (if Node.isDirectory fileStats then "Directory" else "File"))
                  files entered)
        as [(results & Hrun & _)|(before & f & post & fault & _ & _ & _ & Hrun)];
        rewrite Hrun.
      * left. eexists. split; reflexivity.
      * right. exists fault. reflexivity.
  - destruct (Node.fs_readFile node filePath) as [fault|content].
    + right. exists fault. reflexivity.
    + left. eexists. split; reflexivity.
Qed.

(** X10. A path that cannot be looked at, a directory that cannot be
    read and a file that cannot be read all end the same way: the handler
    throws [Failed to read file: <message of the fault>]. *)
Theorem file_fault_names_the_cause (fault : Thrown) :
  (Node.fs_stat node filePath = inl fault ->
   Resources.file node uri path w = (Throw (failure fault), reported)) /\
  (Node.fs_stat node filePath = inr (Node.mkStats true) ->
   Node.fs_readdir node filePath = inl fault ->
   Resources.file node uri path w = (Throw (failure fault), reported)) /\
  (Node.fs_stat node filePath = inr (Node.mkStats false) ->
   Node.fs_readFile node filePath = inl fault ->
   Resources.file node uri path w = (Throw (failure fault), reported)).
Proof.
  rewrite file_run. split; [|split].
  - intros ->. reflexivity.
  - intros -> ->. reflexivity.
  - intros -> ->. reflexivity.
Qed.

End FileFaults.


(** X10, on a path that does not exist. *)
Lemma file_fault_names_the_cause_witness :
  exists w',
    Resources.file Fixtures.node "file://C:/missing" (Resources.One "C:/missing") Sample.world =
      (Throw (ThrownError (new_Error
                "Failed to read file: ENOENT: no such file or directory")),
       w').
Proof.
  destruct (file_fault_names_the_cause Fixtures.node "file://C:/missing"
              (Resources.One "C:/missing") Sample.world Fixtures.ENOENT) as [Hmissing _].
  eexists. rewrite Hmissing; reflexivity.
Defined.


Section MimeTables.

(** Every extension [getMimeType] labels [text/...] is in the text list. *)
Lemma text_mime_is_text_extension (extension : string) :
  String.prefix "text/" (Resources.getMimeType extension) = true ->
  extension ∈ Resources.textExtensions.
Proof.
  unfold Resources.getMimeType.
  destruct (Resources.mimeTypes !! extension) as [m|] eqn:Hlookup;
    [|vm_compute; discriminate].
  unfold Resources.mimeTypes in Hlookup. apply elem_of_list_to_map_2 in Hlookup.
  match type of Hlookup with
  | _ ∈ ?entries =>
      assert (Hall : forallb (fun km : string * string =>
                        implb (String.prefix "text/"
                                 (if truthy_str (snd km) then snd km
                                  else "application/octet-stream"))
                              (bool_decide (fst km ∈ Resources.textExtensions)))
                       entries = true) by (vm_compute; reflexivity)
  end.
  rewrite forallb_forall in Hall. apply list_elem_of_In in Hlookup.
  specialize (Hall _ Hlookup). cbn [fst snd] in Hall.
  intros Hprefix. rewrite Hprefix in Hall. cbn in Hall.
  apply bool_decide_eq_true_1 in Hall. exact Hall.
Qed.

Variable node : Node.Api.
Variable uri : string.
Variable path : Resources.Variable_.
Variable w : Tools.World.

(** X11. The two tables of the file handler agree: an item returned as
    a base64 [blob] never carries a [text/...] MIME type.  Such an item
    comes from a file whose extension is not in the text list, and every
    extension the MIME table labels [text/...] is in that list. *)
Theorem blob_is_never_labelled_text (result : Resources.ReadResourceResult)
    (w' : Tools.World) (item : Resources.Content) (data : string) :
  Resources.file node uri path w = (Return result, w') ->
  item ∈ Resources.contents result ->
  Resources.body item = Resources.blob data ->
  String.prefix "text/" (Resources.mimeType item) = false /\
  (Resources.extension node path ∉ Resources.textExtensions) /\
  Resources.mimeType item = Resources.getMimeType (Resources.extension node path).
Proof.
  intros Hrun Hitem Hblob. rewrite file_run in Hrun.
  destruct (Node.fs_stat node (Resources.filePath path)) as [fault|[[|]]];
    cbn [Node.isDirectory] in Hrun; [discriminate| |].
  - destruct (Node.fs_readdir node (Resources.filePath path)) as [fault|files];
      [discriminate|].
    match type of Hrun with
    | context [Resources.Promise_all ?f files ?v] =>
        destruct (Resources.Promise_all f files v) as [[entries|fault|code] v']
    end; try discriminate.
    injection Hrun as <- <-. cbn in Hitem. apply list_elem_of_singleton in Hitem.
    subst item. discriminate.
  - destruct (Node.fs_readFile node (Resources.filePath path)) as [fault|content];
      [discriminate|].
    cbv zeta in Hrun. injection Hrun as <- <-. cbn in Hitem.
    apply list_elem_of_singleton in Hitem. subst item. cbn in Hblob |- *.
    case_bool_decide as Hext; [discriminate|].
    split; [|split; [exact Hext | reflexivity]].
    destruct (String.prefix "text/" (Resources.getMimeType (Resources.extension node path)))
      eqn:Hprefix; [|reflexivity].
    apply text_mime_is_text_extension in Hprefix. contradiction.
Qed.

End MimeTables.

(** X11, on a picture: a blob labelled [image/png]. *)
Lemma blob_is_never_labelled_text_witness :
  String.prefix "text/"
    (Resources.getMimeType (Resources.extension Sample.node (Resources.One "C:/shot.PNG")))
  = false.
Proof.
  pose (item := Resources.mkContent "file://C:/shot.PNG" (Resources.blob "ok") "image/png").
  destruct (blob_is_never_labelled_text Sample.node "file://C:/shot.PNG"
              (Resources.One "C:/shot.PNG") Sample.world
              (Resources.mkRead [item])
              (Tools.mkWorld (Logger.verbose "Reading file resource" (Tools.log Sample.world))
                             (Tools.calls Sample.world))
              item "ok") as (Hlabel & _ & Hmime).
  - vm_compute. reflexivity.
  - apply list_elem_of_here.
  - reflexivity.
  - rewrite <- Hmime. exact Hlabel.
Defined.


Section ScreenshotFaults.

Variable lib : AutoIt.Library.
Variable uri : string.
Variable window : option Resources.Variable_.
Variable w : Tools.World.

Abbreviation wrapped fault :=
  (ThrownError (new_Error ("Failed to take screenshot: " +:+ message_or_string fault))).

(** X12. The screenshot handler takes the window name to be
    [String(params.window)] when that string is not empty, and takes no
    name otherwise: an absent variable, [''] and an array that joins to
    [''] all mean the full screen, which is answered with the placeholder
    after [init] alone, without any window being looked up. *)
Theorem window_name_needs_nonempty_string :
  (forall name,
     Resources.named (Resources.windowName window) = Some name <->
     exists v, window = Some v /\ Resources.String_ v = name /\ name <> "") /\
  (lib AutoIt.TVoid (Tools.calls w) AutoIt.init = inr tt ->
   (window = None \/ exists v, window = Some v /\ Resources.String_ v = "") ->
   exists w',
     Resources.screenshot lib uri window w
       = (Return (Resources.placeholder uri "full screen"), w') /\
     Tools.calls_made w w' [AutoIt.any AutoIt.init]).
Proof.
  assert (Hname : forall name,
     Resources.named (Resources.windowName window) = Some name <->
     exists v, window = Some v /\ Resources.String_ v = name /\ name <> "").
  { intros name. unfold Resources.named, Resources.windowName, Resources.truthy_var, truthy_str.
    destruct window as [[s|l]|]; cbn.
    - destruct (decide (s = "")) as [->|Hs].
      + split; [discriminate|]. intros (v & Hv & Hs & Hne); simplify_eq; cbn in *; congruence.
      + destruct (decide (s = "")); [contradiction|]. split.
        * intros [= <-]. exists (Resources.One s). auto.
        * intros (v & Hv & Hs' & Hne); simplify_eq; reflexivity.
    - destruct (decide (Resources.join "," l = "")) as [Hl|Hl].
      + split; [discriminate|]. intros (v & Hv & Hs & Hne); simplify_eq; cbn in *; congruence.
      + split.
        * intros [= <-]. exists (Resources.Many l). auto.
        * intros (v & Hv & Hs' & Hne); simplify_eq; reflexivity.
    - split; [discriminate|]. intros (v & Hv & _). discriminate. }
  split; [exact Hname|].
  intros Hinit Hblank.
  assert (Hnone : Resources.named (Resources.windowName window) = None).
  { destruct (Resources.named (Resources.windowName window)) as [name|] eqn:Hn; [|reflexivity].
    destruct (proj1 (Hname name) eq_refl) as (v & Hv & Hs & Hne).
    destruct Hblank as [->|(v' & Hv' & Hs')]; [discriminate|]. simplify_eq. }
  unfold Resources.screenshot, Resources.placeholder, Tools.calls_made,
    try_catch, bind, Tools.autoIt, log_verbose, modify, ret.
  rewrite Hinit, Hnone. cbn. eexists. split; reflexivity.
Qed.

(** Gives the outcome first, then the calls it took. *)
Ltac settle out made :=
  do 2 eexists; (split; [|split]); [ | | out ];
  [rewrite <- ?app_assoc; reflexivity | made].

(** X13. The screenshot handler makes at most three calls on the
    library, [init] first, then [winExists] and [winActivate] on the window
    name in this order, and it either returns the placeholder or throws an
    [Error] whose message starts with [Failed to take screenshot: ].  It
    never ends the process and never lets a fault of the library through
    as it is. *)
Theorem screenshot_returns_or_wraps_the_fault :
  exists w' made,
    Tools.calls_made w w' made /\
    (made = [AutoIt.any AutoIt.init] \/
     exists name,
       Resources.named (Resources.windowName window) = Some name /\
       (made = [AutoIt.any AutoIt.init; AutoIt.any (AutoIt.winExists name None)] \/
        made = [AutoIt.any AutoIt.init; AutoIt.any (AutoIt.winExists name None);
                AutoIt.any (AutoIt.winActivate name None)])) /\
    ((exists what,
        Resources.screenshot lib uri window w = (Return (Resources.placeholder uri what), w')) \/
     (exists message,
        Resources.screenshot lib uri window w
          = (Throw (ThrownError (new_Error ("Failed to take screenshot: " +:+ message))), w'))).
Proof.
  unfold Resources.screenshot, Resources.placeholder, Tools.calls_made,
    try_catch, bind, Tools.autoIt, log_verbose, log_error, modify, throw, ret.
  destruct w as [lg cs]. cbn.
  destruct (lib AutoIt.TVoid cs AutoIt.init) as [fault|[]]; cbn.
  { settle ltac:(right; eexists; reflexivity) ltac:(left; reflexivity). }
  destruct (Resources.named (Resources.windowName window)) as [name|]; cbn.
  2:{ settle ltac:(left; eexists; reflexivity) ltac:(left; reflexivity). }
  destruct (lib AutoIt.TNum (cs ++ [AutoIt.any AutoIt.init])%list
                (AutoIt.winExists name None)) as [fault|code]; cbn.
  { settle ltac:(right; eexists; reflexivity)
           ltac:(right; exists name; split; [reflexivity|left; reflexivity]). }
  destruct (code =? 0); cbn.
  { settle ltac:(right; eexists; reflexivity)
           ltac:(right; exists name; split; [reflexivity|left; reflexivity]). }
  match goal with
  | |- context [lib AutoIt.TNum ?h (AutoIt.winActivate name None)] =>
      destruct (lib AutoIt.TNum h (AutoIt.winActivate name None)) as [fault|result]
  end; cbn.
  - settle ltac:(right; eexists; reflexivity)
           ltac:(right; exists name; split; [reflexivity|right; reflexivity]).
  - settle ltac:(left; eexists; reflexivity)
           ltac:(right; exists name; split; [reflexivity|right; reflexivity]).
Qed.

End ScreenshotFaults.

(** X12, on a window variable that is an empty array. *)
Lemma window_name_needs_nonempty_string_witness :
  exists w',
    Resources.screenshot (Sample.answering 1) "screenshot://"
      (Some (Resources.Many [])) Sample.world
    = (Return (Resources.placeholder "screenshot://" "full screen"), w') /\
    Tools.calls_made Sample.world w' [AutoIt.any AutoIt.init].
Proof.
  destruct (window_name_needs_nonempty_string (Sample.answering 1) "screenshot://"
              (Some (Resources.Many [])) Sample.world) as [_ Hblank].
  apply Hblank; [reflexivity|].
  right. exists (Resources.Many []). split; reflexivity.
Defined.



(* ================================================================== *)
(** * The socket transport adapter: callbacks and the socket *)
(* ================================================================== *)

Section AdapterEdges.

Import Server.

Variable JSON_stringify : Json -> string.
Variable JSON_parse : string -> Thrown + Json.

Abbreviation step := (Server.step JSON_stringify JSON_parse).
Abbreviation run := (Server.run JSON_stringify JSON_parse).
Abbreviation send := (Server.send JSON_stringify).
Abbreviation on_message := (Server.on_message JSON_parse).

(** Unfolds the adapter's code down to the state it works on. *)
Ltac adapter :=
  unfold Server.step, Server.on_message, Server.on_close, Server.on_error,
    Server.start, Server.send, Server.close, Server.call_onmessage,
    Server.call_onerror, Server.call_onclose, Server.emit, Server.set_ws,
    log_info, try_catch, bind, get, modify, lift, throw, ret, with_log, the_log,
    Server.State_log in *;
  cbn in *.

(** X14. The message callback runs inside the [try] block of the
    message listener.  When it throws on a frame that parsed, the fault is
    caught and handed to the error callback as [Failed to parse message: ]
    followed by the fault, as for a frame that does not parse; without an
    error callback the fault is dropped. *)
Theorem throwing_message_callback_reads_as_parse_failure (s : State) (data : RawData)
    (message : Json) (deliver : Json -> Thrown + unit) (fault : Thrown) :
  JSON_parse data = inr message ->
  onmessage (this s) = Some deliver ->
  deliver message = inl fault ->
  let error := new_Error ("Failed to parse message: " +:+ String_of fault) in
  (forall report,
     onerror (this s) = Some report ->
     on_message data s =
       (match report error with inl e => Throw e | inr _ => Return tt end,
        mkState (this s)
                (effects s ++ [called_onmessage message; called_onerror error])
                (log s))) /\
  (onerror (this s) = None ->
   on_message data s =
     (Return tt, mkState (this s) (effects s ++ [called_onmessage message]) (log s))).
Proof.
  intros Hparse Hdeliver Hfault error. subst error.
  destruct s as [[sock sid oc oe om] eff lg]. cbn in Hdeliver. subst om. split.
  - intros report Hreport. cbn in Hreport. subst oe.
    adapter. rewrite Hparse. cbn. rewrite Hfault. cbn.
    rewrite <- app_assoc. destruct (report _) as [e|[]]; reflexivity.
  - intros Hnone. cbn in Hnone. subst oe.
    adapter. rewrite Hparse. cbn. rewrite Hfault. reflexivity.
Qed.

(** X15. An adapter comes out of its constructor without callbacks.
    Until the protocol layer has set them, a frame, well formed or not,
    and an error of the socket have no effect at all, and the close event
    only clears the socket reference: nothing is kept for later. *)
Theorem events_before_callbacks_are_dropped (socket : WebSocket) (random_id : string)
    (done : list Effect) (lg : Logger.t) :
  let s := mkState (new_ socket random_id) done lg in
  (forall data, on_message data s = (Return tt, s)) /\
  (forall error, Server.on_error error s = (Return tt, s)) /\
  Server.on_close s =
    (Return tt, mkState (mkTransport None random_id None None None) done lg).
Proof.
  intros s. subst s. split; [|split].
  - intros data. adapter. destruct (JSON_parse data); reflexivity.
  - intros error. adapter. reflexivity.
  - adapter. reflexivity.
Qed.

(** X16. An error event of the socket is handed to the error callback
    and changes nothing else: the socket reference stays, and a [send]
    that follows is written to the socket. *)
Theorem socket_error_keeps_the_adapter_open (s : State) (error : Error)
    (report : Error -> Thrown + unit) :
  onerror (this s) = Some report ->
  Server.on_error error s =
    (match report error with inl e => Throw e | inr _ => Return tt end,
     mkState (this s) (effects s ++ [called_onerror error]) (log s)) /\
  (forall socket message,
     ws (this s) = Some socket ->
     report error = inr tt ->
     run [SocketError error; CallSend message] s =
       (Return tt,
        mkState (this s)
                (effects s ++ [called_onerror error;
                               ws_send socket (JSON_stringify message)])
                (log s))).
Proof.
  intros Hreport. destruct s as [[sock sid oc oe om] eff lg]. cbn in Hreport. subst oe.
  split.
  - adapter. destruct (report error) as [e|[]]; reflexivity.
  - intros socket message Hopen Hok. cbn in Hopen. subst sock.
    cbn [Server.run Server.step]. adapter. rewrite Hok. cbn.
    rewrite <- app_assoc. reflexivity.
Qed.

(** X17. On an open adapter a sequence of [send] calls writes the JSON
    texts of the messages to the socket in the order of the calls, one
    frame per message, and leaves the adapter as it was. *)
Theorem sends_are_written_in_order (messages : list Json) (s : State) (socket : WebSocket) :
  ws (this s) = Some socket ->
  run (map CallSend messages) s =
    (Return tt,
     mkState (this s)
             (effects s ++ map (fun m => ws_send socket (JSON_stringify m)) messages)
             (log s)).
Proof.
  revert s. induction messages as [|m rest IH]; intros s Hopen.
  - cbn. unfold ret. rewrite app_nil_r. destruct s; reflexivity.
  - cbn [map Server.run]. unfold bind at 1.
    assert (Hstep : step (CallSend m) s =
              (Return tt, mkState (this s) (effects s ++ [ws_send socket (JSON_stringify m)])
                                  (log s))).
    { destruct s as [[sock sid oc oe om] eff lg]. cbn in Hopen. subst sock.
      adapter. reflexivity. }
    rewrite Hstep. rewrite IH by exact Hopen. cbn. rewrite <- app_assoc. reflexivity.
Qed.

End AdapterEdges.

(** X14, on the frame [null] and a message callback that throws. *)
Lemma throwing_message_callback_reads_as_parse_failure_witness :
  Server.effects (snd (Server.on_message JsonText.parse "null" Fixtures.refusing)) =
    [Server.called_onmessage JNull;
     Server.called_onerror (new_Error "Failed to parse message: busy")].
Proof.
  destruct (throwing_message_callback_reads_as_parse_failure JsonText.parse
              Fixtures.refusing "null" JNull
              (fun _ => inl (ThrownValue "busy")) (ThrownValue "busy"))
    as [Hreported _]; [vm_compute; reflexivity | reflexivity | reflexivity |].
  rewrite (Hreported (fun _ => inr tt) eq_refl). reflexivity.
Defined.

(** X16, on a connection reset. *)
Lemma socket_error_keeps_the_adapter_open_witness :
  Server.ws (Server.this (snd (Server.on_error (new_Error "ECONNRESET") Sample.attached)))
    = Some 7%nat.
Proof.
  destruct (socket_error_keeps_the_adapter_open JsonText.stringify JsonText.parse
              Sample.attached (new_Error "ECONNRESET") (fun _ => inr tt) eq_refl)
    as [Hrun _].
  rewrite Hrun. reflexivity.
Defined.

(** X17, on two messages. *)
Lemma sends_are_written_in_order_witness :
  Server.effects
    (snd (Server.run JsonText.stringify JsonText.parse
            (map Server.CallSend [JNull; JBool true]) Sample.attached))
  = [Server.ws_send 7%nat "null"; Server.ws_send 7%nat "true"].
Proof.
  rewrite (sends_are_written_in_order JsonText.stringify JsonText.parse
             [JNull; JBool true] Sample.attached 7%nat eq_refl).
  vm_compute. reflexivity.
Defined.


Section SocketUse.

Import Server.

Variable JSON_stringify : Json -> string.
Variable JSON_parse : string -> Thrown + Json.

Abbreviation step := (Server.step JSON_stringify JSON_parse).
Abbreviation run := (Server.run JSON_stringify JSON_parse).

(** Unfolds the adapter's code down to the state it works on. *)
Ltac adapter :=
  unfold Server.step, Server.on_message, Server.on_close, Server.on_error,
    Server.start, Server.send, Server.close, Server.call_onmessage,
    Server.call_onerror, Server.call_onclose, Server.emit, Server.set_ws,
    log_info, try_catch, bind, get, modify, lift, throw, ret, with_log, the_log,
    Server.State_log in *;
  cbn in *.

Lemma socket_calls_app (a b : list Effect) :
  Wire.socket_calls (a ++ b) = (Wire.socket_calls a ++ Wire.socket_calls b)%list.
Proof. apply List.filter_app. Qed.

(** What one step adds to the effects, and what it does to the socket
    reference. *)
Lemma step_socket_calls (st : Step) (s : State) :
  exists added,
    effects (snd (step st s)) = (effects s ++ added)%list /\
    match ws (this s) with
    | None => Wire.socket_calls added = [] /\ ws (this (snd (step st s))) = None
    | Some k =>
        (Wire.socket_calls added = [] /\
         (ws (this (snd (step st s))) = Some k \/ ws (this (snd (step st s))) = None)) \/
        (exists data, Wire.socket_calls added = [ws_send k data] /\
                      ws (this (snd (step st s))) = Some k) \/
        (Wire.socket_calls added = [ws_close k] /\ ws (this (snd (step st s))) = None)
    end.
Proof.
  destruct s as [[sock sid oc oe om] eff lg].
  destruct st; adapter.
  - destruct (JSON_parse data) as [e|m]; cbn.
    + destruct oe as [f|]; cbn; [destruct (f _)|]; cbn;
        eexists; (split; [try reflexivity; symmetry; apply app_nil_r|]);
        destruct sock; cbn; auto.
    + destruct om as [g|]; cbn; [destruct (g m) as [e|[]]|]; cbn;
        try (destruct oe as [f|]; cbn; [destruct (f _)|]; cbn);
        rewrite <- ?app_assoc;
        eexists; (split; [try reflexivity; symmetry; apply app_nil_r|]);
        destruct sock; cbn; auto.
  - destruct oc as [f|]; cbn; [destruct (f tt)|]; cbn;
      eexists; (split; [try reflexivity; symmetry; apply app_nil_r|]);
      destruct sock; cbn; auto.
  - destruct oe as [f|]; cbn; [destruct (f error)|]; cbn;
      eexists; (split; [try reflexivity; symmetry; apply app_nil_r|]);
      destruct sock; cbn; auto.
  - exists []. split; [symmetry; apply app_nil_r|]. destruct sock; cbn; auto.
  - destruct sock; cbn.
    + eexists. split; [reflexivity|]. right. left. eexists. split; reflexivity.
    + exists []. split; [symmetry; apply app_nil_r|]. auto.
  - destruct sock; cbn.
    + eexists. split; [reflexivity|]. right. right. split; reflexivity.
    + exists []. split; [symmetry; apply app_nil_r|]. auto.
Qed.

(** The state a run ends in: it goes on after a step that returns. *)
Lemma run_cons (st : Step) (rest : list Step) (s : State) :
  snd (run (st :: rest) s) =
    match fst (step st s) with
    | Return _ => snd (run rest (snd (step st s)))
    | _ => snd (step st s)
    end.
Proof.
  cbn [Server.run]. unfold bind.
  destruct (step st s) as [[[]|e|n] s1]; reflexivity.
Qed.

(** X18. How an adapter uses its socket over any run of events and
    calls, including a run that an escaping exception cuts short.  The
    calls it makes on a socket are all on the socket its reference holds
    when the run starts; they are writes, followed by at most one
    [ws.close()]; after that [ws.close()] the socket reference is cleared
    and nothing more is asked of the socket.  An adapter that is closed
    makes no call on any socket. *)
Theorem socket_is_written_then_closed_once (steps : list Step) (s : State) :
  exists added,
    effects (snd (run steps s)) = (effects s ++ added)%list /\
    match ws (this s) with
    | None => Wire.socket_calls added = []
    | Some k =>
        exists frames closing,
          Wire.socket_calls added = (map (ws_send k) frames ++ closing)%list /\
          (closing = [] \/ closing = [ws_close k] /\ ws (this (snd (run steps s))) = None)
    end.
Proof.
  revert s. induction steps as [|st rest IH]; intros s.
  - exists []. split; [symmetry; apply app_nil_r|].
    destruct (ws (this s)); [|reflexivity]. exists [], []. split; [reflexivity|]. auto.
  - rewrite run_cons.
    destruct (step_socket_calls st s) as (add1 & Heff1 & Hstep).
    assert (Hstop : exists added,
              effects (snd (step st s)) = (effects s ++ added)%list /\
              match ws (this s) with
              | None => Wire.socket_calls added = []
              | Some k =>
                  exists frames closing,
                    Wire.socket_calls added = (map (ws_send k) frames ++ closing)%list /\
                    (closing = [] \/
                     closing = [ws_close k] /\ ws (this (snd (step st s))) = None)
              end).
    { exists add1. split; [exact Heff1|].
      destruct (ws (this s)) as [k|]; [|tauto].
      destruct Hstep as [[Hnone _]|[(data & Hsend & _)|[Hclose Hclosed]]].
      - exists [], []. rewrite Hnone. auto.
      - exists [data], []. rewrite Hsend. auto.
      - exists [], [ws_close k]. rewrite Hclose. auto. }
    destruct (fst (step st s)) as [[]|e|n]; [|exact Hstop|exact Hstop].
    clear Hstop.
    destruct (IH (snd (step st s))) as (add2 & Heff2 & Hrest).
    exists (add1 ++ add2)%list. split.
    { rewrite Heff2, Heff1, app_assoc. reflexivity. }
    rewrite socket_calls_app.
    destruct (ws (this s)) as [k|].
    + destruct Hstep as [[Hnone [Hopen|Hclosed]]|[(data & Hsend & Hopen)|[Hclose Hclosed]]].
      * rewrite Hopen in Hrest. destruct Hrest as (frames & closing & Hcalls & Hend).
        exists frames, closing. rewrite Hnone, Hcalls. auto.
      * rewrite Hclosed in Hrest. exists [], []. rewrite Hnone, Hrest. auto.
      * rewrite Hopen in Hrest. destruct Hrest as (frames & closing & Hcalls & Hend).
        exists (data :: frames), closing. rewrite Hsend, Hcalls. auto.
      * rewrite Hclosed in Hrest. exists [], [ws_close k]. rewrite Hclose, Hrest.
        split; [reflexivity|]. right. split; [reflexivity|].
        apply closed_stays_closed. exact Hclosed.
    + destruct Hstep as [Hnone Hclosed]. rewrite Hclosed in Hrest.
      rewrite Hnone, Hrest. reflexivity.
Qed.

End SocketUse.

Section AfterClose.

Import Server.

Variable JSON_stringify : Json -> string.
Variable JSON_parse : string -> Thrown + Json.

Abbreviation run := (Server.run JSON_stringify JSON_parse).

(** Unfolds the adapter's code down to the state it works on. *)
Ltac adapter :=
  unfold Server.step, Server.on_message, Server.on_close, Server.on_error,
    Server.start, Server.send, Server.close, Server.call_onmessage,
    Server.call_onerror, Server.call_onclose, Server.emit, Server.set_ws,
    log_info, try_catch, bind, get, modify, lift, throw, ret, with_log, the_log,
    Server.State_log in *;
  cbn in *.

(** X19. [close()] closes the socket and clears the reference, and
    leaves the listeners in place: a frame that arrives afterwards is
    still parsed and handed to the message callback.  [close()] itself
    does not call the close callback. *)
Theorem frames_after_close_are_still_delivered (s : State) (socket : WebSocket)
    (data : RawData) (message : Json) (deliver : Json -> Thrown + unit) :
  ws (this s) = Some socket ->
  JSON_parse data = inr message ->
  onmessage (this s) = Some deliver ->
  deliver message = inr tt ->
  run [CallClose; SocketMessage data] s =
    (Return tt,
     mkState (mkTransport None (sessionId (this s)) (onclose (this s)) (onerror (this s))
                          (onmessage (this s)))
             (effects s ++ [ws_close socket; called_onmessage message])
             (log s)) /\
  Server.count is_called_onclose
    (effects (snd (run [CallClose; SocketMessage data] s)))
    = Server.count is_called_onclose (effects s).
Proof.
  intros Hopen Hparse Hdeliver Hok.
  destruct s as [[sock sid oc oe om] eff lg]. cbn in Hopen, Hdeliver. subst sock om.
  assert (Hrun : run [CallClose; SocketMessage data]
                   (mkState (mkTransport (Some socket) sid oc oe (Some deliver)) eff lg) =
                 (Return tt,
                  mkState (mkTransport None sid oc oe (Some deliver))
                          (eff ++ [ws_close socket; called_onmessage message]) lg)).
  { cbn [Server.run Server.step]. adapter. rewrite Hparse. cbn. rewrite Hok. cbn.
    rewrite <- app_assoc. reflexivity. }
  split; [exact Hrun|]. rewrite Hrun. cbn [snd effects].
  unfold count. rewrite List.filter_app. cbn. rewrite app_nil_r. reflexivity.
Qed.

End AfterClose.

(** X19, on the frame [null] after [close()]. *)
Lemma frames_after_close_are_still_delivered_witness :
  Server.effects
    (snd (Server.run JsonText.stringify JsonText.parse
            [Server.CallClose; Server.SocketMessage "null"] Sample.attached))
  = [Server.ws_close 7%nat; Server.called_onmessage JNull].
Proof.
  destruct (frames_after_close_are_still_delivered JsonText.stringify JsonText.parse
              Sample.attached 7%nat "null" JNull (fun _ => inr tt))
    as [Hrun _]; [reflexivity | vm_compute; reflexivity | reflexivity | reflexivity |].
  rewrite Hrun. reflexivity.
Defined.




(* ================================================================== *)
(** * The transport selector and the start-up *)
(* ================================================================== *)

Section SelectorEdges.

Import Server.

Variable connect_result : nat -> nat -> Thrown + unit.

Abbreviation setupServer := (Server.setupServer connect_result).

(** Unfolds the selector's code down to the runtime it works on. *)
Ltac selector :=
  unfold Server.setupServer, Server.accept, Server.on_connection, Server.connect,
    Server.McpServer, Server.fresh, Server.did, Server.store_adapter,
    Server.listen_for_connections, log_info, log_error,
    try_catch, bind, get, modify, lift, throw, ret, process_exit,
    with_log, the_log, Server.Runtime_log in *;
  cbn in *.

(** X20. In socket mode [setupServer] listens on [config.port || 3000]:
    on port [3000] when the port is absent or [0], on the given port
    otherwise.  The line it logs before shows [config.port] as it is, so
    it reads [on port undefined] or [on port 0] while the server listens
    on [3000].  The ['connection'] listener is registered before
    [listen] is called. *)
Theorem listening_port_defaults_to_3000 (config : ServerConfig) (r : Runtime) :
  transport config = "websocket" ->
  let core := next_object r in
  let h := S core in
  let listening :=
    match port config with
    | Some p => if decide (p = 0) then 3000 else p
    | None => 3000
    end in
  let announced :=
    match port config with
    | Some p => num p
    | None => "undefined"
    end in
  exists r1,
    setupServer config r = (Return (mkSetup core (Some h)), r1) /\
    sys r1 = (sys r ++ [new_McpServer core (name config) (version config);
                        createHttpServer h;
                        new_WebSocketServer (S h) h;
                        wss_on_connection (S h);
                        httpServer_listen h listening])%list /\
    rt_log r1 = Logger.info ("Using WebSocket transport on port " +:+ announced) (rt_log r) /\
    connection_listeners r1 !! h = Some core.
Proof.
  intros Hws core h listening announced. subst core h listening announced.
  destruct r as [lg n ads ls sy].
  unfold Server.setupServer. rewrite Hws.
  destruct (decide ("websocket" = "stdio")) as [Hbad|_]; [discriminate Hbad|].
  destruct (decide ("websocket" = "websocket")) as [_|Hbad]; [|contradiction].
  unfold Server.McpServer, Server.fresh, Server.did, Server.listen_for_connections,
    log_info, bind, modify, ret, with_log, the_log, Server.Runtime_log.
  cbn -[insert].
  eexists. split; [reflexivity|]. cbn -[insert lookup].
  split; [|split; [reflexivity | apply lookup_insert_eq]].
  rewrite <- !app_assoc. cbn. do 6 f_equal.
  destruct (port config) as [p|]; [|reflexivity].
  unfold truthy_num. destruct (Z.eqb_spec p 0), (decide (p = 0)); cbn; congruence.
Qed.

(** X21. In stdio mode [setupServer] creates the [McpServer] and one
    stdio transport and connects the two, once; it creates no HTTP server,
    registers no ['connection'] listener and no adapter, and returns no
    [httpServer].  A fault of [server.connect] is thrown on as it is. *)
Theorem stdio_setup_opens_no_listener (config : ServerConfig) (r : Runtime) :
  transport config = "stdio" ->
  let core := next_object r in
  let stream := S core in
  exists r1,
    setupServer config r =
      (match connect_result core stream with
       | inl fault => Throw fault
       | inr _ => Return (mkSetup core None)
       end, r1) /\
    sys r1 = (sys r ++ [new_McpServer core (name config) (version config);
                        new_StdioServerTransport stream;
                        server_connect core stream])%list /\
    connection_listeners r1 = connection_listeners r /\
    adapters r1 = adapters r /\
    rt_log r1 = Logger.info "Using stdio transport" (rt_log r).
Proof.
  intros Hstdio core stream. subst core stream.
  destruct r as [lg n ads ls sy].
  unfold Server.setupServer. rewrite Hstdio.
  destruct (decide ("stdio" = "stdio")) as [_|Hbad]; [|contradiction].
  unfold Server.McpServer, Server.connect, Server.fresh, Server.did,
    log_info, bind, modify, lift, throw, ret, with_log, the_log, Server.Runtime_log.
  cbn.
  destruct (connect_result n (S n)) as [fault|[]]; cbn;
    eexists; (split; [reflexivity|]); cbn; rewrite <- !app_assoc; repeat split.
Qed.

End SelectorEdges.

(** X20, on a configuration with port [0]. *)
Lemma listening_port_defaults_to_3000_witness :
  exists r1,
    Server.setupServer Sample.connects
      (Server.mkConfig "automation" "1.0.0" "websocket" (Some 0)) Server.boot
      = (Return (Server.mkSetup 0 (Some 1%nat)), r1) /\
    last (Server.sys r1) = Some (Server.httpServer_listen 1 3000).
Proof.
  destruct (listening_port_defaults_to_3000 Sample.connects
              (Server.mkConfig "automation" "1.0.0" "websocket" (Some 0)) Server.boot
              eq_refl) as (r1 & Hrun & Hsys & _).
  exists r1. split; [exact Hrun|]. rewrite Hsys. reflexivity.
Defined.

(** X21, on a configuration for stdio. *)
Lemma stdio_setup_opens_no_listener_witness :
  exists r1,
    Server.setupServer Sample.connects
      (Server.mkConfig "automation" "1.0.0" "stdio" None) Server.boot
      = (Return (Server.mkSetup 0 None), r1) /\
    Server.connection_listeners r1 = ∅.
Proof.
  destruct (stdio_setup_opens_no_listener Sample.connects
              (Server.mkConfig "automation" "1.0.0" "stdio" None) Server.boot
              eq_refl) as (r1 & Hrun & _ & Hlisteners & _).
  exists r1. split; [exact Hrun | exact Hlisteners].
Defined.


Section StartEdges.

Import Server.

Variable connect_result : nat -> nat -> Thrown + unit.

(** Unfolds the start-up code down to the runtime it works on. *)
Ltac starting :=
  unfold Index.main, Index.startServer, Server.connect, Server.McpServer, Server.fresh,
    Server.did, log_info, log_error, try_catch, bind, get, modify, lift, throw, ret,
    process_exit, with_log, the_log, Server.Runtime_log;
  cbn.

(** What the start-up does before it looks at the transport. *)
Abbreviation registered core :=
  [new_McpServer core "Windows Desktop Automation" "1.0.0";
   registerAllTools core; registerAllResources core; registerAllPrompts core].

(** X22. [startServer] never throws.  It returns only when the
    transport is ["stdio"] and [server.connect] returned; in every other
    case (another transport, or a [connect] that throws) it ends the
    process with exit code [1].  Tools, resources and prompts are
    registered on the one [McpServer] before the transport is looked at,
    once each. *)
Theorem startServer_returns_only_on_connected_stdio (transport port : string) (r : Runtime) :
  let core := next_object r in
  let stream := S core in
  exists r',
    Index.startServer connect_result transport port r =
      (if decide (transport = "stdio")
       then match connect_result core stream with
            | inr _ => Return tt
            | inl _ => Exit 1
            end
       else Exit 1, r') /\
    sys r' = (sys r ++ registered core ++
              if decide (transport = "stdio")
              then [new_StdioServerTransport stream; server_connect core stream]
              else [])%list.
Proof.
  intros core stream. subst core stream. destruct r as [lg n ads ls sy]. starting.
  destruct (decide (transport = "stdio")) as [->|Hstdio]; cbn.
  - destruct (connect_result n (S n)) as [fault|[]]; cbn;
      eexists; (split; [reflexivity|]); cbn; rewrite <- !app_assoc; reflexivity.
  - destruct (decide (transport = "websocket")) as [->|Hws]; cbn;
      eexists; (split; [reflexivity|]); cbn; rewrite <- !app_assoc; reflexivity.
Qed.

(** X23. Started with [--transport=websocket], the program logs that
    the WebSocket transport is not fully implemented and exits with code
    [1]: it creates no HTTP server, no socket server and no adapter, and
    listens on no port. *)
Theorem websocket_from_the_command_line_exits (args : list string) (port : string)
    (r : Runtime) :
  Index.transport_of args = "websocket" ->
  let core := next_object r in
  let lg := Logger.setLevel (Index.level_of args) (rt_log r) in
  exists r',
    Index.main connect_result args port r = (Exit 1, r') /\
    sys r' = (sys r ++ registered core)%list /\
    Forall (fun e => opens_resource e = false) (drop (length (sys r)) (sys r')) /\
    adapters r' = adapters r /\
    connection_listeners r' = connection_listeners r /\
    rt_log r' =
      Logger.error "WebSocket transport not fully implemented yet"
        (Logger.info ("Using WebSocket transport on port " +:+ port) lg).
Proof.
  intros Hws core lg. subst core lg. destruct r as [lg n ads ls sy]. starting.
  rewrite Hws.
  destruct (decide ("websocket" = "stdio")) as [Hbad|_]; [discriminate Hbad|].
  destruct (decide ("websocket" = "websocket")) as [_|Hbad]; [|contradiction].
  cbn. eexists. split; [reflexivity|]. cbn. rewrite <- !app_assoc. cbn.
  split; [reflexivity|]. split; [|repeat split].
  rewrite drop_app_length. repeat constructor.
Qed.

(** The first piece of a split is the text before the first ['=']. *)
Lemma split_eq_head (piece : string -> string) (s : string) :
  Index.split_eq piece s !! 0%nat = Some (piece (Args.until_eq s)).
Proof.
  revert piece. induction s as [|c rest IH]; intros piece; cbn; [reflexivity|].
  destruct (decide (c = Ascii.ascii_of_nat 61)); [reflexivity|]. apply IH.
Qed.

(** [find] gives the first argument with the prefix. *)
Lemma find_arg_first (prefix : string) (before : list string) (arg : string)
    (rest : list string) :
  Forall (fun a => Index.startsWith prefix a = false) before ->
  Index.startsWith prefix arg = true ->
  Index.find_arg prefix (before ++ arg :: rest) = Some arg.
Proof.
  intros Hbefore Harg. unfold Index.find_arg.
  induction Hbefore as [|a before Ha _ IH]; cbn.
  - rewrite Harg. reflexivity.
  - rewrite Ha. exact IH.
Qed.

Lemma find_arg_none (prefix : string) (args : list string) :
  Forall (fun a => Index.startsWith prefix a = false) args ->
  Index.find_arg prefix args = None.
Proof.
  unfold Index.find_arg. induction 1 as [|a args Ha _ IH]; cbn; [reflexivity|].
  rewrite Ha. exact IH.
Qed.

Lemma startsWith_append (prefix rest : string) :
  Index.startsWith prefix (prefix +:+ rest) = true.
Proof.
  unfold Index.startsWith. induction prefix as [|c prefix IH].
  - destruct rest; reflexivity.
  - change (String c prefix +:+ rest) with (String c (prefix +:+ rest)).
    cbn [String.prefix].
    destruct (Ascii.ascii_dec c c) as [_|Hbad]; [exact IH | contradiction].
Qed.

(** X24. The transport is read from the first argument that starts with
    [--transport=]: it is the text between that ['='] and the next one, or
    the end of the argument; later arguments are not looked at.  Without
    such an argument the transport is ["stdio"]. *)
Theorem first_transport_argument_decides (before rest : list string) (value : string) :
  Forall (fun a => Index.startsWith "--transport=" a = false) before ->
  Index.transport_of (before ++ ("--transport=" +:+ value) :: rest) = Args.until_eq value /\
  Index.transport_of before = "stdio".
Proof.
  intros Hbefore. unfold Index.transport_of. split.
  - rewrite (find_arg_first _ before _ rest Hbefore (startsWith_append _ _)).
    unfold Index.split.
    change (Index.split_eq (fun t => t) ("--transport=" +:+ value))
      with ("--transport" :: Index.split_eq (fun t => t) value).
    cbn [lookup list_lookup]. rewrite split_eq_head. reflexivity.
  - rewrite (find_arg_none _ before Hbefore). reflexivity.
Qed.

End StartEdges.

(** X23, on the command line [--transport=websocket --port=8080]. *)
Lemma websocket_from_the_command_line_exits_witness :
  exists r',
    Index.main Sample.connects ["--transport=websocket"; "--port=8080"] "8080" Server.boot
      = (Exit 1, r') /\
    Forall (fun e => Server.opens_resource e = false) (Server.sys r').
Proof.
  destruct (websocket_from_the_command_line_exits Sample.connects
              ["--transport=websocket"; "--port=8080"] "8080" Server.boot)
    as (r' & Hrun & _ & Hnone & _); [vm_compute; reflexivity|].
  exists r'. split; [exact Hrun | exact Hnone].
Defined.

(** X24, on [--verbose --transport=websocket=x --transport=stdio]. *)
Lemma first_transport_argument_decides_witness :
  Index.transport_of ["--verbose"; "--transport=websocket=x"; "--transport=stdio"]
    = "websocket".
Proof.
  destruct (first_transport_argument_decides ["--verbose"] ["--transport=stdio"]
              "websocket=x") as [Hfirst _]; [repeat constructor|].
  exact Hfirst.
Defined.


Section VerboseFlag.

Import Server.

Variable connect_result : nat -> nat -> Thrown + unit.

(** The level follows from whether [--verbose] is among the arguments. *)
Lemma level_of_verbose (args : list string) :
  Index.level_of args = if bool_decide ("--verbose" ∈ args) then 0 else 2.
Proof.
  unfold Index.level_of. induction args as [|a rest IH]; [reflexivity|].
  cbn [List.find]. destruct (decide (a = "--verbose")) as [->|Ha].
  - rewrite !bool_decide_eq_true_2; [reflexivity | left | reflexivity].
  - rewrite (bool_decide_eq_false_2 _ Ha), IH.
    destruct (decide ("--verbose" ∈ rest)) as [Hin|Hout].
    + rewrite !bool_decide_eq_true_2; [reflexivity | right; exact Hin | exact Hin].
    + rewrite !bool_decide_eq_false_2; [reflexivity | | exact Hout].
      intros Hin. apply elem_of_cons in Hin as [Heq|Hin]; [congruence | contradiction].
Qed.

(** X25. The log level after the start-up is [VERBOSE] when one of the
    arguments is exactly [--verbose], and [INFO] otherwise, wherever the
    argument stands and however the start-up ends. *)
Theorem verbose_flag_sets_the_level (args : list string) (port : string) (r : Runtime) :
  Logger.level (rt_log (snd (Index.main connect_result args port r))) =
    (if bool_decide ("--verbose" ∈ args) then Logger.VERBOSE else Logger.INFO).
Proof.
  destruct r as [[lv out] n ads ls sy].
  unfold Index.main, Index.startServer, Server.connect, Server.McpServer, Server.fresh,
    Server.did, log_info, log_error, try_catch, bind, get, modify, lift, throw, ret,
    process_exit, with_log, the_log, Server.Runtime_log.
  cbn. rewrite level_of_verbose.
  unfold Logger.VERBOSE, Logger.INFO, Logger.info, Logger.error, Logger.write,
    Logger.setLevel.
  destruct (decide (Index.transport_of args = "stdio")) as [?|?]; cbn;
    [destruct (connect_result n (S n)) as [?|[]]
    |destruct (decide (Index.transport_of args = "websocket")) as [?|?]]; cbn;
    repeat (case_bool_decide; cbn); reflexivity.
Qed.

End VerboseFlag.

(* ================================================================== *)
(** * The logger *)
(* ================================================================== *)

Section LoggerFacts.

Import LoggerCalls.

(** Arithmetic on the log levels. *)
Ltac levels :=
  unfold rank, Logger.VERBOSE, Logger.DEBUG, Logger.INFO, Logger.WARN, Logger.ERROR in *;
  lia.

(** A method writes its line when the logger's level is at most its own. *)
Lemma call_writes (m : Method) (message : string) (lg : Logger.t) :
  call m message lg =
    Logger.mk (Logger.level lg)
      (Logger.console lg ++
       if bool_decide (Logger.level lg <= rank m) then [line m message] else []).
Proof.
  destruct lg as [lv out].
  destruct m; cbn; unfold Logger.verbose, Logger.debug, Logger.info, Logger.warn,
    Logger.error, Logger.write; cbn; case_bool_decide; cbn;
    rewrite ?app_nil_r; reflexivity.
Qed.

(** The lines a list of calls writes. *)
Lemma calls_write (l : list (Method * string)) (lg : Logger.t) :
  calls l lg =
    Logger.mk (Logger.level lg)
      (Logger.console lg ++
       omap (fun c => if bool_decide (Logger.level lg <= rank (fst c))
                      then Some (line (fst c) (snd c)) else None) l).
Proof.
  revert lg. induction l as [|[m message] rest IH]; intros lg.
  - cbn. rewrite app_nil_r. destruct lg; reflexivity.
  - unfold calls in *. cbn [foldl fst snd]. rewrite IH, call_writes. cbn [Logger.level Logger.console omap].
    cbn. case_bool_decide; cbn; rewrite <- ?app_assoc, ?app_nil_r; reflexivity.
Qed.

(** X26. Logging never changes the level, and the level only filters:
    the lines a sequence of calls writes at a level are, in the same
    order, among the lines it writes at any lower level.  Above [ERROR]
    nothing is written; at [VERBOSE] or below every call writes its line,
    [warn] on the warning stream, [error] on the error stream and the
    others on the output stream. *)
Theorem raising_the_level_only_removes_lines (l : list (Method * string))
    (low high : Z) (out : list (Logger.Stream * string)) :
  low <= high ->
  let quiet := calls l (Logger.mk high out) in
  let loud := calls l (Logger.mk low out) in
  Logger.level quiet = high /\
  Logger.level loud = low /\
  (exists more, Logger.console quiet = (out ++ more)%list /\
     exists most, Logger.console loud = (out ++ most)%list /\ sublist more most) /\
  (Logger.ERROR < high -> Logger.console quiet = out) /\
  (low <= Logger.VERBOSE ->
   Logger.console loud = (out ++ map (fun c => line (fst c) (snd c)) l)%list).
Proof.
  intros Hle quiet loud. subst quiet loud. rewrite !calls_write. cbn.
  split; [reflexivity|]. split; [reflexivity|]. split; [|split].
  - eexists. split; [reflexivity|]. eexists. split; [reflexivity|].
    induction l as [|[m message] rest IH]; cbn; [constructor|].
    repeat case_bool_decide; try lia; cbn.
    + apply sublist_skip. exact IH.
    + apply sublist_cons. exact IH.
    + exact IH.
  - intros Hsilent.
    induction l as [|[m message] rest IH]; cbn; [apply app_nil_r|].
    case_bool_decide as Hrank; [destruct m; levels|].
    exact IH.
  - intros Hall. f_equal.
    induction l as [|[m message] rest IH]; cbn; [reflexivity|].
    case_bool_decide as Hrank; [|destruct m; levels].
    cbn. f_equal. exact IH.
Qed.

End LoggerFacts.

(** X26, on three calls at the levels [INFO] and [VERBOSE]. *)
Lemma raising_the_level_only_removes_lines_witness :
  Logger.console
    (LoggerCalls.calls [(LoggerCalls.Verbose, "a"); (LoggerCalls.Error_, "b")]
       (Logger.mk Logger.VERBOSE []))
  = [(Logger.ConsoleLog, "[VERBOSE] a"); (Logger.ConsoleError, "[ERROR] b")].
Proof.
  destruct (raising_the_level_only_removes_lines
              [(LoggerCalls.Verbose, "a"); (LoggerCalls.Error_, "b")]
              Logger.VERBOSE Logger.INFO [])
    as (_ & _ & _ & _ & Hall); [vm_compute; discriminate|].
  rewrite Hall; [reflexivity | vm_compute; discriminate].
Defined.


(* ================================================================== *)
(** * The prompts *)
(* ================================================================== *)

Section PromptFacts.

Import Prompts.

(** Unfolds a prompt callback. *)
Ltac prompt :=
  unfold get_prompt, findWindow, windowInfo, fillForm, submitForm, automateTask,
    monitorWindow, takeScreenshot, log_verbose, bind, modify, ret;
  cbn [the_log with_log Logger_log].

(** X27. Every prompt returns a description and exactly one message,
    of role ["user"] and type ["text"], neither of them empty, and logs
    one verbose line, [<name> prompt called]. *)
Theorem prompt_is_one_user_message (r : Request) (lg : Logger.t) :
  exists result message,
    get_prompt r lg =
      (Return result, Logger.verbose (prompt_name r +:+ " prompt called") lg) /\
    messages result = [message] /\
    role message = "user" /\
    type (content message) = "text" /\
    tpl (text (content message)) <> "" /\
    tpl (description result) <> "".
Proof.
  destruct r; cbn [get_prompt prompt_name]; prompt.
  all: do 2 eexists; (split; [reflexivity|]); cbn [messages role content type text];
    (split; [reflexivity|]); (split; [reflexivity|]); (split; [reflexivity|]).
  all: split; intros Hempty; apply (f_equal String.length) in Hempty;
    cbn in Hempty; try discriminate Hempty.
  destruct target; [| destruct windowTitle as [title|]; [destruct (truthy_str title)|] |];
    cbn in Hempty; discriminate Hempty.
Qed.

(** X28. [takeScreenshot] for the target ['window']: the message names
    the window only when a title is given and is not empty; without one it
    falls back to the general request, while the description still reads
    [window "<title>"], with [undefined] for an absent title. *)
Theorem screenshot_prompt_names_the_window_only_with_a_title (windowTitle : option string)
    (lg : Logger.t) :
  let generic := "I need to take a screenshot. Can you help me do this using AutoIt functions?" in
  exists result lg',
    takeScreenshot window windowTitle lg = (Return result, lg') /\
    tpl (description result) =
      "Take a screenshot of window " +:+ dq +:+ shown windowTitle +:+ dq /\
    (windowTitle = None \/ windowTitle = Some "" -> message_texts result = [generic]) /\
    (forall title, windowTitle = Some title -> title <> "" ->
       message_texts result =
         [("I need to take a screenshot of a window with the title " +:+ dq +:+ title
           +:+ dq +:+ ".") +:+ " Can you help me do this using AutoIt functions?"]).
Proof.
  intros generic. subst generic. prompt.
  do 2 eexists. split; [reflexivity|]. cbn [description]. split; [reflexivity|].
  unfold message_texts. cbn [messages map content text]. split.
  - intros [->| ->]; reflexivity.
  - intros title -> Hne. unfold truthy_str. destruct (decide (title = "")); [contradiction|].
    reflexivity.
Qed.

End PromptFacts.

(** X28, without a title. *)
Lemma screenshot_prompt_names_the_window_only_with_a_title_witness :
  exists result lg',
    Prompts.takeScreenshot Prompts.window None Logger.initial = (Return result, lg') /\
    tpl (Prompts.description result) = "Take a screenshot of window " +:+ dq +:+ "undefined" +:+ dq /\
    Prompts.message_texts result =
      ["I need to take a screenshot. Can you help me do this using AutoIt functions?"].
Proof.
  destruct (screenshot_prompt_names_the_window_only_with_a_title None Logger.initial)
    as (result & lg' & Hrun & Hdescription & Hgeneric & _).
  exists result, lg'. split; [exact Hrun|]. split; [exact Hdescription|].
  apply Hgeneric. left. reflexivity.
Defined.


(* ================================================================== *)
(** * The parameter schemas *)
(* ================================================================== *)

Section SchemaFacts.

(** X29. What the mouse schemas let through.  A speed is between [1]
    and [100] and a number of clicks is at least [1]; each is the number
    the caller gave, or the default ([10], [1]) when the caller gave none.
    A button is one of the three names the caller gave, or ['left'] when
    the caller gave none.  A number outside the bounds is refused, not
    clamped, and a coordinate has no default. *)
Theorem mouse_defaults_and_bounds (raw : option Json) :
  (forall speed, Schemas.mouseSpeed raw = inr speed ->
     1 <= speed <= 100 /\ (raw = None /\ speed = 10 \/ raw = Some (JNumber speed))) /\
  (forall clicks, Schemas.mouseClicks raw = inr clicks ->
     1 <= clicks /\ (raw = None /\ clicks = 1 \/ raw = Some (JNumber clicks))) /\
  (forall button, Schemas.mouseButton raw = inr button ->
     raw = None /\ button = ButtonLeft \/
     raw = Some (JString (MouseButton_string button))) /\
  (raw = None ->
   Schemas.mouseSpeed raw = inr 10 /\ Schemas.mouseClicks raw = inr 1 /\
   Schemas.mouseButton raw = inr ButtonLeft /\
   Schemas.mouseX raw = inl Zod.invalid_type) /\
  (forall n, raw = Some (JNumber n) ->
     Schemas.mouseSpeed raw =
       (if n <? 1 then inl Zod.too_small else if 100 <? n then inl Zod.too_big else inr n)).
Proof.
  unfold Schemas.mouseSpeed, Schemas.mouseClicks, Schemas.mouseButton, Schemas.mouseX,
    Zod.default_, Zod.optional, Zod.max, Zod.min, Zod.number, Zod.enum, Schemas.read_button.
  split; [|split; [|split; [|split]]].
  - intros speed. destruct raw as [[| | n | | |]|]; cbn; try discriminate.
    + destruct (Z.ltb_spec n 1); [discriminate|].
      destruct (Z.ltb_spec 100 n); [discriminate|]. intros [= <-]. split; [lia|auto].
    + intros [= <-]. split; [lia|auto].
  - intros clicks. destruct raw as [[| | n | | |]|]; cbn; try discriminate.
    + destruct (Z.ltb_spec n 1); [discriminate|]. intros [= <-]. split; [lia|auto].
    + intros [= <-]. split; [lia|auto].
  - intros button. destruct raw as [[| | | s | |]|]; cbn; try discriminate.
    + repeat case_decide; try discriminate; intros [= <-]; subst; auto.
    + intros [= <-]. auto.
  - intros ->. cbn. auto.
  - intros n ->. cbn. destruct (n <? 1); [reflexivity|]. destruct (100 <? n); reflexivity.
Qed.

End SchemaFacts.

(** X29, on a call that leaves the speed out. *)
Lemma mouse_defaults_and_bounds_witness :
  Schemas.mouseSpeed None = inr 10 /\ Schemas.mouseX None = inl Zod.invalid_type.
Proof.
  destruct (mouse_defaults_and_bounds None) as (_ & _ & _ & Habsent & _).
  destruct (Habsent eq_refl) as (Hspeed & _ & _ & Hx).
  split; [exact Hspeed | exact Hx].
Defined.
